(** * shardmonster: the shard-movement engine ([shardmonster/sharder.py])

    A shallow embedding of the sharder: the batching generator, the copy,
    sync and delete engines, the migration thread and the entry point, over
    an explicit model of the MongoDB servers and of the routing metadata the
    engine talks to.  Python code that mutates shared objects or raises is
    written in a state-and-exception monad; a raised exception keeps the
    state reached so far, as in Python. *)

From stdpp Require Import gmap strings list fin_maps sorting.
From Stdlib Require Import ZArith Lia.

(** ** BSON values and documents *)

(** The scalar values the engine compares and copies around.  [VOid] is an
    ObjectId generated by a server for a document stored without [_id]. *)
Inductive value :=
| VInt (z : Z)
| VStr (s : string)
| VOid (n : N).

#[global] Instance value_eq_dec : EqDecision value.
Proof. solve_decision. Defined.

#[global] Instance value_countable : Countable value.
Proof.
  refine (inj_countable'
    (λ v, match v with
          | VInt z => inl z
          | VStr s => inr (inl s)
          | VOid n => inr (inr n)
          end)
    (λ x, match x with
          | inl z => VInt z
          | inr (inl s) => VStr s
          | inr (inr n) => VOid n
          end) _).
  by intros [].
Defined.

(** A document is a Python dict from field names to values; dict equality
    ignores insertion order, as [gmap] equality does. *)
Abbreviation doc := (gmap string value).

(** ** Exceptions and the state monad *)

Inductive exn :=
| KeyError (key : string)
| IndexError
| ValueError
| InvalidOperation
| ConnectionFailure
| OperationFailure
| DuplicateKeyError
| BulkWriteError
| Exception (msg : string).

#[global] Instance exn_eq_dec : EqDecision exn.
Proof. solve_decision. Defined.

(** [except BulkWriteError], [except OperationFailure] and
    [except pymongo.errors.DuplicateKeyError]. *)
Definition is_BulkWriteError (e : exn) : bool :=
  match e with BulkWriteError => true | _ => false end.
Definition is_OperationFailure (e : exn) : bool :=
  match e with OperationFailure => true | _ => false end.
Definition is_DuplicateKeyError (e : exn) : bool :=
  match e with DuplicateKeyError => true | _ => false end.

(** How a computation ends: with a value, with a Python exception, or, for
    the one loop that waits on the clock, with the model's fuel used up,
    which is not something Python code can observe or catch. *)
Inductive outcome (A : Type) :=
| Ok (a : A)
| Raise (e : exn)
| OutOfFuel.
Arguments Ok {A} a.
Arguments Raise {A} e.
Arguments OutOfFuel {A}.

Definition M (S A : Type) : Type := S → outcome A * S.

#[global] Instance M_ret {S} : MRet (M S) := λ A a s, (Ok a, s).
#[global] Instance M_bind {S} : MBind (M S) := λ A B k m s,
  match m s with
  | (Ok a, s') => k a s'
  | (Raise e, s') => (Raise e, s')
  | (OutOfFuel, s') => (OutOfFuel, s')
  end.
Definition raise {S A} (e : exn) : M S A := λ s, (Raise e, s).
Definition get {S} : M S S := λ s, (Ok s, s).
Definition gets {S A} (f : S → A) : M S A := λ s, (Ok (f s), s).
Definition modify {S} (f : S → S) : M S unit := λ s, (Ok tt, f s).
(** [try: body except e: handler], for the exceptions [catches] selects. *)
Definition try_except {S A} (body : M S A) (catches : exn → bool)
    (handler : exn → M S A) : M S A :=
  λ s, match body s with
       | (Ok a, s') => (Ok a, s')
       | (Raise e, s') => if catches e then handler e s' else (Raise e, s')
       | (OutOfFuel, s') => (OutOfFuel, s')
       end.
(** [try: body finally: cleanup]. *)
Definition try_finally {S A} (body : M S A) (cleanup : M S unit) : M S A :=
  λ s, match body s with
       | (OutOfFuel, s') => (OutOfFuel, s')
       | (r, s') =>
           match cleanup s' with
           | (Ok _, s'') => (r, s'')
           | (Raise e, s'') => (Raise e, s'')
           | (OutOfFuel, s'') => (OutOfFuel, s'')
           end
       end.
(** What a dict subscript [d[key]] does. *)
Definition subscript {S A} (key : string) (x : option A) : M S A :=
  match x with
  | Some a => mret a
  | None => raise (KeyError key)
  end.

(** ** [batched_cursor_iterator]

    The generator is consumed by a [for] loop, so each [yield] hands the
    batch to the loop body and resumes afterwards: [consume] is that body.
    [batch_size_fn] is called with the state of the moment, which is how
    the lambda over the manager's field sees another thread's change. *)
Section Generator.
Context {S A : Type}.
Variable batch_size_fn : M S Z.
Variable consume : list A → M S unit.

Fixpoint batched_loop (cursor : list A) (batch : list A) : M S unit :=
  match cursor with
  | [] =>
      if bool_decide (length batch ≠ 0%nat) then consume batch else mret tt
  | record :: cursor =>
      let batch := batch ++ [record] in
      size ← batch_size_fn;
      if bool_decide (Z.of_nat (length batch) >= size)%Z
      then consume batch;; batched_loop cursor []
      else batched_loop cursor batch
  end.

Definition batched_cursor_iterator (cursor : list A) : M S unit :=
  batched_loop cursor [].
End Generator.

(** *** Observing one run of the generator

    The state is the log of what happened: each call of [batch_size_fn]
    and each yielded batch, in order.  The k-th call of [batch_size_fn]
    answers [sizes k]: any sequence of values another thread may leave in
    the tunable. *)
Inductive gen_event (A : Type) :=
| SizeRead (size : Z)
| Yield (batch : list A).
Arguments SizeRead {A} size.
Arguments Yield {A} batch.

Definition reads_of {A} (log : list (gen_event A)) : nat :=
  length (omap (λ e, match e with SizeRead size => Some size | Yield _ => None end)
               log).

Definition yielded_of {A} (log : list (gen_event A)) : list (list A) :=
  omap (λ e, match e with Yield b => Some b | SizeRead _ => None end) log.

Definition logged_size_fn {A} (sizes : nat → Z) : M (list (gen_event A)) Z :=
  λ log, let size := sizes (reads_of log) in (Ok size, log ++ [SizeRead size]).

Definition logged_consume {A} (batch : list A) : M (list (gen_event A)) unit :=
  λ log, (Ok tt, log ++ [Yield batch]).

Definition run_generator {A} (sizes : nat → Z) (cursor : list A)
    : list (gen_event A) :=
  (batched_cursor_iterator (logged_size_fn sizes) logged_consume cursor []).2.

(** The batches a run yields, and how often it read the batch size. *)
Definition batches {A} (sizes : nat → Z) (cursor : list A) : list (list A) :=
  yielded_of (run_generator sizes cursor).
Definition size_reads {A} (sizes : nat → Z) (cursor : list A) : nat :=
  reads_of (run_generator (A:=A) sizes cursor).

(** ** The state the engine runs in *)

(** *** Routing metadata: realms and shards *)

Inductive ShardStatus :=
| AT_REST
| MIGRATING_COPY
| MIGRATING_SYNC
| POST_MIGRATION_PAUSED_AT_DESTINATION
| POST_MIGRATION_DELETE.

#[global] Instance ShardStatus_eq_dec : EqDecision ShardStatus.
Proof. solve_decision. Defined.

(** A realm document: [realm['name']], the collection it governs and
    [realm['shard_field']]. *)
Record Realm := {
  realm_name : string;
  realm_collection : string;
  realm_shard_field : string;
}.

(** A document of the shards collection.  [new_location] is a key that is
    only present during a migration. *)
Record ShardMetadata := {
  shard_realm : string;
  shard_shard_key : value;
  shard_status : ShardStatus;
  shard_location : string;
  shard_new_location : option string;
}.

(** *** MongoDB servers *)

(** The server a connection talks to: the primary of a cluster, or the
    hidden secondary configured for it. *)
Inductive node :=
| Primary (cluster : string)
| HiddenSecondary (cluster : string).

#[global] Instance node_eq_dec : EqDecision node.
Proof. solve_decision. Defined.

#[global] Instance node_countable : Countable node.
Proof.
  refine (inj_countable'
    (λ n, match n with Primary c => inl c | HiddenSecondary c => inr c end)
    (λ x, match x with inl c => Primary c | inr c => HiddenSecondary c end) _).
  by intros [].
Defined.

(** A pymongo [Collection] object: [connection[database][name]].  It is a
    reference into a server, not the documents themselves. *)
Record Collection := {
  coll_client : node;
  coll_database : string;
  coll_name : string;
}.

(** An entry of [local.oplog.rs]; [o2] is only present on updates. *)
Record OplogEntry := {
  ts : Z;
  ns : string;
  op : string;
  o : doc;
  o2 : option doc;
}.

(** A document of [config.collections]: the [dropped] flag and the field
    names of the [key] document, in order. *)
Record ShardingInfo := {
  info_dropped : bool;
  info_key : list string;
}.

(** One server.  A collection is its documents keyed by [_id], which MongoDB
    keeps unique; the stored document is the remaining fields.  The natural
    order of a scan is the order [map_to_list] lists the keys in.
    [config_collections = None] is a server on which reading
    [config.collections] fails with [OperationFailure]. *)
Record Server := {
  collections : gmap (string * string) (gmap value doc);
  index_keys : gmap (string * string) (list (list (string * Z)));
  oplog_rs : list OplogEntry;
  config_collections : option (gmap string ShardingInfo);
  next_oid : N;
}.

(** *** The manager and its worker thread *)

(** Throttles are in milliseconds; [None] is Python's [None]. *)
Record ShardMovementManager := {
  collection_name : string;
  shard_key : value;
  new_location : string;
  delete_throttle : option Z;
  insert_throttle : option Z;
  delete_batch_size : Z;
  insert_batch_size : Z;
  inserted : Z;
  deleted : Z;
  phase : option string;
}.

Record ShardMovementThread := {
  thread_collection_name : string;
  thread_shard_key : value;
  thread_new_location : string;
  thread_exception : option exn;
}.

(** *** Calls that leave the process *)

(** [UpdateOne(filter, {'$set': fields}, upsert=...)]. *)
Record UpdateOne := {
  op_filter : doc;
  op_set : doc;
  op_upsert : bool;
}.

(** The journal records, in order, every write sent to a server, every
    sleep and every release of a resource. *)
Inductive call :=
| BulkWrite (target : Collection) (requests : list UpdateOne) (ordered : bool)
| InsertCall (target : Collection) (document : doc)
| UpdateCall (target : Collection) (spec document : doc) (upsert : bool)
| RemoveCall (target : Collection) (spec : doc)
| DeleteMany (target : Collection) (ids : list value)
| Sleep (milliseconds : Z)
| CursorClose
| CloseThreadConnections
| CloseHiddenSecondaryConnections
| Log (line : string).

Record World := {
  realms : list Realm;
  shards : list ShardMetadata;
  caching_duration : Z;
  servers : gmap node Server;
  now : Z;
  manager : ShardMovementManager;
  migration_thread : option ShardMovementThread;
  journal : list call;
}.

Definition with_shards (f : list ShardMetadata → list ShardMetadata)
    (w : World) : World :=
  {| realms := realms w; shards := f (shards w);
     caching_duration := caching_duration w; servers := servers w;
     now := now w; manager := manager w;
     migration_thread := migration_thread w; journal := journal w |}.

Definition with_servers (f : gmap node Server → gmap node Server)
    (w : World) : World :=
  {| realms := realms w; shards := shards w;
     caching_duration := caching_duration w; servers := f (servers w);
     now := now w; manager := manager w;
     migration_thread := migration_thread w; journal := journal w |}.

Definition with_now (f : Z → Z) (w : World) : World :=
  {| realms := realms w; shards := shards w;
     caching_duration := caching_duration w; servers := servers w;
     now := f (now w); manager := manager w;
     migration_thread := migration_thread w; journal := journal w |}.

Definition with_manager (f : ShardMovementManager → ShardMovementManager)
    (w : World) : World :=
  {| realms := realms w; shards := shards w;
     caching_duration := caching_duration w; servers := servers w;
     now := now w; manager := f (manager w);
     migration_thread := migration_thread w; journal := journal w |}.

Definition with_migration_thread
    (f : option ShardMovementThread → option ShardMovementThread)
    (w : World) : World :=
  {| realms := realms w; shards := shards w;
     caching_duration := caching_duration w; servers := servers w;
     now := now w; manager := manager w;
     migration_thread := f (migration_thread w); journal := journal w |}.

Definition with_journal (f : list call → list call) (w : World) : World :=
  {| realms := realms w; shards := shards w;
     caching_duration := caching_duration w; servers := servers w;
     now := now w; manager := manager w;
     migration_thread := migration_thread w; journal := f (journal w) |}.

Definition record_call (c : call) : M World unit :=
  modify (with_journal (λ j, j ++ [c])).

(** [log] and [pretty_log] print a line; what is printed is not modelled. *)
Definition log (s : string) : M World unit := record_call (Log s).
Definition pretty_log (s : string) : M World unit := record_call (Log s).

(** [time.time()] and [time.sleep()] on the model's clock: sleeping is the
    only thing that takes time. *)
Definition time_time : M World Z := gets now.
Definition time_sleep (milliseconds : Z) : M World unit :=
  if bool_decide (milliseconds < 0)%Z then raise ValueError
  else record_call (Sleep milliseconds);;
       modify (with_now (λ t, (t + milliseconds)%Z)).

(** ** The database interface: what the pymongo calls do to a server *)
Module pymongo.

Definition ASCENDING : Z := 1.

Definition server_of (c : Collection) : M World Server :=
  w ← get;
  match servers w !! coll_client c with
  | Some s => mret s
  | None => raise ConnectionFailure
  end.

Definition stored (s : Server) (c : Collection) : gmap value doc :=
  default ∅ (collections s !! (coll_database c, coll_name c)).

Definition with_stored (c : Collection) (m : gmap value doc) (oid : N)
    (s : Server) : Server :=
  {| collections := <[(coll_database c, coll_name c) := m]> (collections s);
     index_keys := index_keys s; oplog_rs := oplog_rs s;
     config_collections := config_collections s; next_oid := oid |}.

Definition store (c : Collection) (m : gmap value doc) (oid : N)
    : M World unit :=
  modify (with_servers (alter (with_stored c m oid) (coll_client c))).

(** The document a stored pair stands for. *)
Definition document_of (p : value * doc) : doc := <["_id" := p.1]> p.2.

(** A query document of plain [field: value] pairs selects the documents
    that carry each of those pairs. *)
Definition matches (spec d : doc) : bool :=
  bool_decide (map_Forall (λ k v, d !! k = Some v) spec).

Definition scan (spec : doc) (m : gmap value doc) : list (value * doc) :=
  filter (λ p, matches spec (document_of p) = true) (map_to_list m).

(** [collection.find(spec)], as the documents the cursor will yield. *)
Definition find (c : Collection) (spec : doc) : M World (list doc) :=
  s ← server_of c;
  mret (document_of <$> scan spec (stored s c)).

(** [collection.find(spec, {'_id': 1})]. *)
Definition find_ids (c : Collection) (spec : doc) : M World (list doc) :=
  cursor ← find c spec;
  mret ((λ d, filter (λ kv, kv.1 = "_id") d) <$> cursor).

(** BSON's order on the values of the model: numbers, then strings, then
    ObjectIds; a missing field sorts first. *)
Definition value_rank (v : value) : Z :=
  match v with VInt _ => 0 | VStr _ => 1 | VOid _ => 2 end.

Definition value_leb (a b : value) : bool :=
  match a, b with
  | VInt x, VInt y => (x <=? y)%Z
  | VStr x, VStr y => String.leb x y
  | VOid x, VOid y => (x <=? y)%N
  | _, _ => (value_rank a <=? value_rank b)%Z
  end.

Definition field_leb (a b : option value) : bool :=
  match a, b with
  | None, _ => true
  | Some _, None => false
  | Some x, Some y => value_leb x y
  end.

Fixpoint doc_leb (key : list (string * Z)) (a b : doc) : bool :=
  match key with
  | [] => true
  | (field, direction) :: key =>
      if decide (a !! field = b !! field) then doc_leb key a b
      else if (0 <? direction)%Z then field_leb (a !! field) (b !! field)
      else field_leb (b !! field) (a !! field)
  end.

Definition doc_le (key : list (string * Z)) : relation doc :=
  λ a b, doc_leb key a b = true.

#[global] Instance doc_le_dec key a b : Decision (doc_le key a b).
Proof. unfold doc_le. apply _. Defined.

(** [cursor.sort(key).hint(key)]. *)
Definition sort (key : list (string * Z)) (cursor : list doc) : list doc :=
  merge_sort (doc_le key) cursor.

(** [collection.index_information()], as the [key] of every index. *)
Definition index_information (c : Collection)
    : M World (list (list (string * Z))) :=
  s ← server_of c;
  mret (default [] (index_keys s !! (coll_database c, coll_name c))).

(** The [_id] a new document is stored under: its own, or a generated
    ObjectId. *)
Definition assign_id (d : doc) (oid : N) : value * N :=
  match d !! "_id" with
  | Some i => (i, oid)
  | None => (VOid oid, N.succ oid)
  end.

(** [collection.insert(document, w=1)]. *)
Definition insert (c : Collection) (document : doc) : M World unit :=
  record_call (InsertCall c document);;
  s ← server_of c;
  let '(i, oid) := assign_id document (next_oid s) in
  match stored s c !! i with
  | Some _ => raise DuplicateKeyError
  | None => store c (<[i := delete "_id" document]> (stored s c)) oid
  end.

(** [collection.update(spec, document, w=0, upsert=upsert)] with a whole
    document as the update: the first match is replaced and keeps its
    [_id].  The write is unacknowledged, so a write the server rejects
    (changing [_id], a duplicate key) changes nothing and raises
    nothing. *)
Definition update (c : Collection) (spec document : doc) (upsert : bool)
    : M World unit :=
  record_call (UpdateCall c spec document upsert);;
  s ← server_of c;
  match head (scan spec (stored s c)) with
  | Some (i, _) =>
      if bool_decide (document !! "_id" = None ∨ document !! "_id" = Some i)
      then store c (<[i := delete "_id" document]> (stored s c)) (next_oid s)
      else mret tt
  | None =>
      if upsert then
        let '(i, oid) :=
          assign_id (document ∪ filter (λ kv, kv.1 = "_id") spec)
                    (next_oid s) in
        match stored s c !! i with
        | Some _ => mret tt
        | None => store c (<[i := delete "_id" document]> (stored s c)) oid
        end
      else mret tt
  end.

(** [collection.remove(spec, w=1)]: every match goes. *)
Definition remove (c : Collection) (spec : doc) : M World unit :=
  record_call (RemoveCall c spec);;
  s ← server_of c;
  store c (filter (λ p, matches spec (document_of p) = false) (stored s c))
        (next_oid s).

(** [collection.delete_many({'_id': {'$in': ids}})]; the result is
    [raw_result['n']]. *)
Definition delete_many (c : Collection) (ids : list value) : M World Z :=
  record_call (DeleteMany c ids);;
  s ← server_of c;
  let kept := filter (λ p : value * doc, p.1 ∉ ids) (stored s c) in
  store c kept (next_oid s);;
  mret (Z.of_nat (size (stored s c)) - Z.of_nat (size kept))%Z.

(** One [UpdateOne] of a bulk write: [None] when the server rejects it. *)
Definition apply_update_one (r : UpdateOne) (m : gmap value doc) (oid : N)
    : option (gmap value doc * N * bool) :=
  match head (scan (op_filter r) m) with
  | Some (i, body) =>
      if bool_decide (op_set r !! "_id" = None ∨ op_set r !! "_id" = Some i)
      then Some (<[i := delete "_id" (op_set r) ∪ body]> m, oid, false)
      else None
  | None =>
      if op_upsert r then
        let d := op_set r ∪ op_filter r in
        let '(i, oid') := assign_id d oid in
        match m !! i with
        | Some _ => None
        | None => Some (<[i := delete "_id" d]> m, oid', true)
        end
      else Some (m, oid, false)
  end.

(** The requests of a bulk write in order; with [ordered] the first
    rejected one stops the batch.  Returns the documents, the upsert
    count and whether a request was rejected. *)
Fixpoint apply_requests (ordered : bool) (requests : list UpdateOne)
    (m : gmap value doc) (oid : N) (nUpserted : Z)
    : gmap value doc * N * Z * bool :=
  match requests with
  | [] => (m, oid, nUpserted, false)
  | r :: requests =>
      match apply_update_one r m oid with
      | Some (m', oid', upserted) =>
          apply_requests ordered requests m' oid'
            (if upserted then nUpserted + 1 else nUpserted)%Z
      | None =>
          if ordered then (m, oid, nUpserted, true)
          else let '(m', oid', n, _) :=
                 apply_requests ordered requests m oid nUpserted in
               (m', oid', n, true)
      end
  end.

(** [collection.bulk_write(requests, ordered=ordered)]; the result is
    [bulk_api_result['nUpserted']]. *)
Definition bulk_write (c : Collection) (requests : list UpdateOne)
    (ordered : bool) : M World Z :=
  if bool_decide (requests = []) then raise InvalidOperation
  else
    record_call (BulkWrite c requests ordered);;
    s ← server_of c;
    let '(m, oid, nUpserted, rejected) :=
      apply_requests ordered requests (stored s c) (next_oid s) 0 in
    store c m oid;;
    if rejected then raise BulkWriteError else mret nUpserted.

End pymongo.

(** ** The collaborators the sharder imports

    [metadata], [api], [connection] and [hidden_secondaries] are modules of
    the repository the sharder calls into. *)
Module metadata.

Definition MIGRATION_PHASES : list ShardStatus :=
  [MIGRATING_COPY; MIGRATING_SYNC; POST_MIGRATION_PAUSED_AT_DESTINATION;
   POST_MIGRATION_DELETE].

(** Modelled from the spec: [metadata._get_realm_for_collection], the
    realm that governs a collection ("get_realm_for_collection(
    collection_name) → {name, shard_field, ...}"); a collection without a
    realm is an error. *)
Definition _get_realm_for_collection (collection_name : string)
    : M World Realm :=
  w ← get;
  match filter (λ r, realm_collection r = collection_name) (realms w) with
  | realm :: _ => mret realm
  | [] => raise (Exception "No realm for collection")
  end.

(** Modelled from the spec: [metadata.are_migrations_happening], true
    when "any shard is in a MIGRATION_PHASES status". *)
Definition are_migrations_happening : M World bool :=
  gets (λ w, bool_decide
    (Exists (λ sh, shard_status sh ∈ MIGRATION_PHASES) (shards w))).

End metadata.

Module api.

(** Modelled from the spec: [api._get_shards_coll], the shards collection
    of the routing store, one record per (realm, shard key). *)
Definition _get_shards_coll : M World (list ShardMetadata) := gets shards.

(** Modelled from the spec: [api.get_caching_duration], "the TTL of
    application-side routing caches", here in milliseconds. *)
Definition get_caching_duration : M World Z := gets caching_duration.

Definition is_shard (realm : string) (key : value) (sh : ShardMetadata)
    : bool :=
  bool_decide (shard_realm sh = realm ∧ shard_shard_key sh = key).

Definition update_shard (realm : string) (key : value)
    (f : ShardMetadata → ShardMetadata) : M World unit :=
  modify (with_shards (fmap (λ sh, if is_shard realm key sh then f sh else sh))).

(** Modelled from the spec: [api.start_migration], the "atomic transition
    AT_REST → MIGRATING_COPY" that "sets new_location"; a shard that is
    not at rest cannot start. *)
Definition start_migration (collection_name : string) (key : value)
    (new_location : string) : M World unit :=
  realm ← metadata._get_realm_for_collection collection_name;
  coll ← _get_shards_coll;
  match filter (λ sh, is_shard (realm_name realm) key sh = true) coll with
  | [sh] =>
      if bool_decide (shard_status sh = AT_REST) then
        update_shard (realm_name realm) key (λ sh,
          {| shard_realm := shard_realm sh;
             shard_shard_key := shard_shard_key sh;
             shard_status := MIGRATING_COPY;
             shard_location := shard_location sh;
             shard_new_location := Some new_location |})
      else raise (Exception "Shard is not at rest")
  | _ => raise (Exception "Shard does not exist")
  end.

(** Modelled from the spec: [api.set_shard_to_migration_status], which
    "transitions between migration phases". *)
Definition set_shard_to_migration_status (collection_name : string)
    (key : value) (status : ShardStatus) : M World unit :=
  realm ← metadata._get_realm_for_collection collection_name;
  if bool_decide (status ∈ metadata.MIGRATION_PHASES) then
    update_shard (realm_name realm) key (λ sh,
      {| shard_realm := shard_realm sh;
         shard_shard_key := shard_shard_key sh;
         shard_status := status;
         shard_location := shard_location sh;
         shard_new_location := shard_new_location sh |})
  else raise (Exception "Not a migration status").

(** Modelled from the spec: [api.set_shard_at_rest], which "commits
    completion": the shard is AT_REST at [location], and [new_location],
    "set only during migration", is gone.  The spec only describes the
    call with [force=True], which is the only one the sharder makes. *)
Definition set_shard_at_rest (collection_name : string) (key : value)
    (location : string) (force : bool) : M World unit :=
  realm ← metadata._get_realm_for_collection collection_name;
  update_shard (realm_name realm) key (λ sh,
    {| shard_realm := shard_realm sh;
       shard_shard_key := shard_shard_key sh;
       shard_status := AT_REST;
       shard_location := location;
       shard_new_location := None |}).

End api.

Module connection.

(** Modelled from the spec: [connection.parse_location], "Format:
    <cluster_address>/<database_name>, parsed into (cluster_address,
    database_name)"; a string that is not of that format is an error. *)
Definition split_location (location : string) : option (string * string) :=
  match String.index 0 "/" location with
  | Some i =>
      let cluster := String.substring 0 i location in
      let database :=
        String.substring (S i) (String.length location - S i) location in
      match String.index 0 "/" database with
      | None => Some (cluster, database)
      | Some _ => None
      end
  | None => None
  end.

Definition parse_location (location : string) : M World (string * string) :=
  match split_location location with
  | Some parsed => mret parsed
  | None => raise ValueError
  end.

(** Modelled from the spec: [connection.get_connection], which "obtains a
    client connection to that cluster": the client of its primary.  As
    with pymongo, a server that is not there shows on first use. *)
Definition get_connection (cluster : string) : M World node :=
  mret (Primary cluster).

(** Modelled from the spec: [connection.close_thread_connections], the
    "cleanup hook keyed on the worker identity". *)
Definition close_thread_connections : M World unit :=
  record_call CloseThreadConnections.

End connection.

Module hidden_secondaries.

(** Modelled from the spec: [get_hidden_secondary_connection], the client
    of "a hidden secondary of the source cluster when one is configured",
    else [None]. *)
Definition get_hidden_secondary_connection (cluster : string)
    : M World (option node) :=
  gets (λ w, match servers w !! HiddenSecondary cluster with
             | Some _ => Some (HiddenSecondary cluster)
             | None => None
             end).

(** Modelled from the spec: [close_connections_to_hidden_secondaries]. *)
Definition close_connections_to_hidden_secondaries : M World unit :=
  record_call CloseHiddenSecondaryConnections.

End hidden_secondaries.

(** ** The sharder *)

Definition _get_collection_from_location_string
    (location collection_name : string) : M World Collection :=
  '(server_addr, database_name) ← connection.parse_location location;
  conn ← connection.get_connection server_addr;
  mret {| coll_client := conn; coll_database := database_name;
          coll_name := collection_name |}.

Definition _shard_field_id_index (collection : Collection)
    (shard_field : string) : M World (option (list (string * Z))) :=
  let index_key :=
    [(shard_field, pymongo.ASCENDING); ("_id", pymongo.ASCENDING)] in
  indexes ← pymongo.index_information collection;
  mret (if bool_decide (index_key ∈ indexes) then Some index_key else None).

Definition _get_source_collection_for_reading (shard_metadata : ShardMetadata)
    (collection_name : string) (use_hidden_secondary : bool)
    : M World Collection :=
  '(cluster_name, db_name) ←
    connection.parse_location (shard_location shard_metadata);
  conn ←
    (if use_hidden_secondary then
       hidden_secondary ←
         hidden_secondaries.get_hidden_secondary_connection cluster_name;
       match hidden_secondary with
       | Some conn => mret conn
       | None => connection.get_connection cluster_name
       end
     else connection.get_connection cluster_name);
  mret {| coll_client := conn; coll_database := db_name;
          coll_name := collection_name |}.

Definition namespace (collection : Collection) : string :=
  coll_database collection +:+ "." +:+ coll_name collection.

Definition sniff_mongos_shard_key (collection : Collection)
    : M World (option (list string)) :=
  try_except
    (s ← pymongo.server_of collection;
     match config_collections s with
     | None => raise OperationFailure
     | Some config =>
         match config !! namespace collection with
         | Some info =>
             if info_dropped info then mret None
             else mret (Some (info_key info))
         | None => mret None
         end
     end)
    is_OperationFailure
    (λ _, mret None).

Definition pick (target_key : list string) (record : doc) : doc :=
  filter (λ kv, kv.1 ∈ target_key) record.

Definition without_id (record : doc) : doc := delete "_id" record.

Definition batch_of_upsert_ops (batch : list doc) (target_key : list string)
    : list UpdateOne :=
  (λ record,
     {| op_filter := pick target_key record;
        op_set := without_id record;
        op_upsert := true |}) <$> batch.

Definition _get_metadata_for_shard (realm_name : string) (key : value)
    : M World ShardMetadata :=
  shards_coll ← api._get_shards_coll;
  match filter (λ sh, shard_realm sh = realm_name ∧ shard_shard_key sh = key)
               shards_coll with
  | [shard_metadata] => mret shard_metadata
  | _ => raise ValueError
  end.

Definition tum_ti_tum (wait_time : option Z) : M World unit :=
  match wait_time with
  | Some t => if bool_decide (t ≠ 0%Z) then time_sleep t else mret tt
  | None => mret tt
  end.

Definition inc_inserted (by_ : Z) : M World unit :=
  modify (with_manager (λ m,
    {| collection_name := collection_name m; shard_key := shard_key m;
       new_location := new_location m; delete_throttle := delete_throttle m;
       insert_throttle := insert_throttle m;
       delete_batch_size := delete_batch_size m;
       insert_batch_size := insert_batch_size m;
       inserted := (inserted m + by_)%Z; deleted := deleted m;
       phase := phase m |})).

Definition inc_deleted (by_ : Z) : M World unit :=
  modify (with_manager (λ m,
    {| collection_name := collection_name m; shard_key := shard_key m;
       new_location := new_location m; delete_throttle := delete_throttle m;
       insert_throttle := insert_throttle m;
       delete_batch_size := delete_batch_size m;
       insert_batch_size := insert_batch_size m;
       inserted := inserted m; deleted := (deleted m + by_)%Z;
       phase := phase m |})).

Definition set_phase (p : string) : M World unit :=
  modify (with_manager (λ m,
    {| collection_name := collection_name m; shard_key := shard_key m;
       new_location := new_location m; delete_throttle := delete_throttle m;
       insert_throttle := insert_throttle m;
       delete_batch_size := delete_batch_size m;
       insert_batch_size := insert_batch_size m;
       inserted := inserted m; deleted := deleted m;
       phase := Some p |})).

(** [sniff_mongos_shard_key(target_collection) or ['_id']]. *)
Definition target_key_of (sniffed : option (list string)) : list string :=
  match sniffed with
  | Some (field :: fields) => field :: fields
  | Some [] | None => ["_id"]
  end.

(** The body of the copy loop: what happens to one yielded batch. *)
Definition copy_batch (target_collection : Collection)
    (target_key : list string) (batch : list doc) : M World unit :=
  nUpserted ←
    try_except
      (pymongo.bulk_write target_collection
         (batch_of_upsert_ops batch target_key) true)
      is_BulkWriteError
      (λ e, pretty_log "BulkWriteError details";; raise e);
  insert_throttle ← gets (λ w, insert_throttle (manager w));
  tum_ti_tum insert_throttle;;
  inc_inserted nUpserted.

Definition _do_copy (collection_name : string) (key : value) : M World unit :=
  realm ← metadata._get_realm_for_collection collection_name;
  shard_metadata ← _get_metadata_for_shard (realm_name realm) key;
  if bool_decide (shard_status shard_metadata ≠ MIGRATING_COPY) then
    raise (Exception "Shard not in copy state (phase 1)")
  else
    source_collection ←
      _get_source_collection_for_reading shard_metadata collection_name true;
    new_loc ← subscript "new_location" (shard_new_location shard_metadata);
    target_collection ←
      _get_collection_from_location_string new_loc collection_name;
    sniffed ← sniff_mongos_shard_key target_collection;
    let target_key := target_key_of sniffed in
    cursor ← pymongo.find source_collection {[realm_shard_field realm := key]};
    shard_field_id_index ←
      _shard_field_id_index source_collection (realm_shard_field realm);
    let cursor :=
      match shard_field_id_index with
      | Some index => pymongo.sort index cursor
      | None => cursor
      end in
    try_finally
      (batched_cursor_iterator
         (gets (λ w, insert_batch_size (manager w)))
         (copy_batch target_collection target_key)
         cursor)
      (record_call CursorClose).

Definition _get_oplog_pos (collection_name : string) (key : value)
    : M World Z :=
  realm ← metadata._get_realm_for_collection collection_name;
  shard_metadata ← _get_metadata_for_shard (realm_name realm) key;
  collection ←
    _get_source_collection_for_reading shard_metadata collection_name true;
  s ← pymongo.server_of collection;
  match last (oplog_rs s) with
  | Some most_recent_op => mret (ts most_recent_op)
  | None => raise IndexError
  end.

Definition _oplog_still_contains_ts (collection : Collection) (oplog_pos : Z)
    : M World bool :=
  s ← pymongo.server_of collection;
  match head (oplog_rs s) with
  | Some oldest_op => mret (bool_decide (oplog_pos >= ts oldest_op)%Z)
  | None => raise IndexError
  end.

Definition tail_oplog_for_collection (collection : Collection) (oplog_pos : Z)
    : M World (list OplogEntry) :=
  s ← pymongo.server_of collection;
  mret (filter (λ entry, (ts entry >= oplog_pos)%Z ∧
                         ns entry = namespace collection)
               (oplog_rs s)).

(** [dict(chain(...))]: a later dict overrides an earlier one. *)
Definition merge (dicts : list doc) : doc :=
  foldl (λ merged a_dict, a_dict ∪ merged) ∅ dicts.

Definition fetch_one (cursor : list doc) : option doc := head cursor.

(** Truth value of what [fetch_one] returns: [None] and the empty dict are
    false. *)
Definition truthy (x : option doc) : bool :=
  match x with
  | Some d => bool_decide (d ≠ ∅)
  | None => false
  end.

Definition replay_oplog_entry (entry : OplogEntry) (shard_selector : doc)
    (source target : Collection) : M World unit :=
  if bool_decide (op entry = "i") then
    _id ← subscript "_id" (o entry !! "_id");
    let query := merge [shard_selector; {["_id" := _id]}] in
    cursor ← pymongo.find source query;
    if truthy (fetch_one cursor) then
      try_except (pymongo.insert target (o entry))
        is_DuplicateKeyError
        (λ _, mret tt)
    else mret tt
  else if bool_decide (op entry = "u") then
    entry_o2 ← subscript "o2" (o2 entry);
    _id ← subscript "_id" (entry_o2 !! "_id");
    let query := merge [shard_selector; {["_id" := _id]}] in
    cursor ← pymongo.find source query;
    let source_document := fetch_one cursor in
    if truthy source_document then
      if bool_decide (source_document ≠ Some (o entry)) then
        source_id ← subscript "_id" (source_document ≫= lookup "_id");
        pymongo.update target {["_id" := source_id]}
          (default ∅ source_document) true
      else mret tt
    else mret tt
  else if bool_decide (op entry = "d") then
    _id ← subscript "_id" (o entry !! "_id");
    let query := merge [shard_selector; {["_id" := _id]}] in
    cursor ← pymongo.find target query;
    if truthy (fetch_one cursor) then
      pymongo.remove target {["_id" := _id]}
    else mret tt
  else mret tt.

(** The [for entry in cursor] loop of [_sync_from_oplog]; the local
    [oplog_pos] is threaded through. *)
Fixpoint replay_entries (shard_selector : doc) (source target : Collection)
    (cursor : list OplogEntry) (oplog_pos : Z) : M World Z :=
  match cursor with
  | [] => mret oplog_pos
  | entry :: cursor =>
      replay_oplog_entry entry shard_selector source target;;
      replay_entries shard_selector source target cursor (ts entry)
  end.

Definition _sync_from_oplog (collection_name : string) (key : value)
    (oplog_pos : Z) : M World Z :=
  realm ← metadata._get_realm_for_collection collection_name;
  shard_metadata ← _get_metadata_for_shard (realm_name realm) key;
  source ← _get_collection_from_location_string
             (shard_location shard_metadata) collection_name;
  new_loc ← subscript "new_location" (shard_new_location shard_metadata);
  target ← _get_collection_from_location_string new_loc collection_name;
  contained ← _oplog_still_contains_ts source oplog_pos;
  if negb contained then
    raise (Exception "Cannot sync from oplog as oplog_pos is not in it")
  else
    cursor ← tail_oplog_for_collection source oplog_pos;
    try_finally
      (replay_entries {[realm_shard_field realm := key]} source target
         cursor oplog_pos)
      (record_call CursorClose).

(** [[record['_id'] for record in batch]]. *)
Fixpoint ids_of (batch : list doc) : M World (list value) :=
  match batch with
  | [] => mret []
  | record :: batch =>
      _id ← subscript "_id" (record !! "_id");
      _ids ← ids_of batch;
      mret (_id :: _ids)
  end.

(** The body of the delete loop: what happens to one yielded batch. *)
Definition delete_batch (current_collection : Collection) (batch : list doc)
    : M World unit :=
  _ids ← ids_of batch;
  n ← pymongo.delete_many current_collection _ids;
  delete_throttle ← gets (λ w, delete_throttle (manager w));
  tum_ti_tum delete_throttle;;
  inc_deleted n.

Definition _delete_source_data (collection_name : string) (key : value)
    (use_hidden_secondary : bool) : M World unit :=
  realm ← metadata._get_realm_for_collection collection_name;
  shard_metadata ← _get_metadata_for_shard (realm_name realm) key;
  if bool_decide (shard_status shard_metadata ≠ POST_MIGRATION_DELETE) then
    raise (Exception "Shard not in delete state")
  else
    let current_location := shard_location shard_metadata in
    current_collection ←
      _get_collection_from_location_string current_location collection_name;
    read_collection ←
      _get_source_collection_for_reading shard_metadata collection_name
        use_hidden_secondary;
    cursor ←
      pymongo.find_ids read_collection {[realm_shard_field realm := key]};
    shard_field_id_index ←
      _shard_field_id_index read_collection (realm_shard_field realm);
    let cursor :=
      match shard_field_id_index with
      | Some index => pymongo.sort index cursor
      | None => cursor
      end in
    try_finally
      (batched_cursor_iterator
         (gets (λ w, delete_batch_size (manager w)))
         (delete_batch current_collection)
         cursor)
      (record_call CursorClose).

(** *** [ShardMovementThread] and [ShardMovementManager] *)

(** The model's stand-in for a loop that has not ended when the fuel has. *)
Definition out_of_fuel {A} : M World A := λ w, (OutOfFuel, w).

(** The [while time.time() < start_sync_time + api.get_caching_duration()]
    loop of [run]. *)
Fixpoint sync_while_caching (fuel : nat) (self : ShardMovementThread)
    (start_sync_time oplog_pos : Z) : M World Z :=
  t ← time_time;
  duration ← api.get_caching_duration;
  if bool_decide (t < start_sync_time + duration)%Z then
    match fuel with
    | O => out_of_fuel
    | S fuel =>
        time_sleep 50;;
        oplog_pos ← _sync_from_oplog (thread_collection_name self)
                      (thread_shard_key self) oplog_pos;
        sync_while_caching fuel self start_sync_time oplog_pos
    end
  else mret oplog_pos.

(** The [try] block of [run]. *)
Definition run_phases (fuel : nat) (self : ShardMovementThread)
    : M World unit :=
  (* Copy phase *)
  set_phase "copy";;
  api.start_migration (thread_collection_name self) (thread_shard_key self)
    (thread_new_location self);;
  oplog_pos ← _get_oplog_pos (thread_collection_name self)
                (thread_shard_key self);
  _do_copy (thread_collection_name self) (thread_shard_key self);;
  (* Sync phase *)
  set_phase "sync";;
  start_sync_time ← time_time;
  api.set_shard_to_migration_status (thread_collection_name self)
    (thread_shard_key self) MIGRATING_SYNC;;
  oplog_pos ← _sync_from_oplog (thread_collection_name self)
                (thread_shard_key self) oplog_pos;
  oplog_pos ← sync_while_caching fuel self start_sync_time oplog_pos;
  api.set_shard_to_migration_status (thread_collection_name self)
    (thread_shard_key self) POST_MIGRATION_PAUSED_AT_DESTINATION;;
  time_sleep 100;;
  _sync_from_oplog (thread_collection_name self) (thread_shard_key self)
    oplog_pos;;
  (* Delete phase *)
  set_phase "delete";;
  api.set_shard_to_migration_status (thread_collection_name self)
    (thread_shard_key self) POST_MIGRATION_DELETE;;
  _delete_source_data (thread_collection_name self) (thread_shard_key self)
    true;;
  _delete_source_data (thread_collection_name self) (thread_shard_key self)
    false;;
  api.set_shard_at_rest (thread_collection_name self) (thread_shard_key self)
    (thread_new_location self) true;;
  set_phase "complete".

(** [self.exception = sys.exc_info()] on the thread object. *)
Definition set_exception (e : exn) : M World unit :=
  modify (with_migration_thread (fmap (λ th,
    {| thread_collection_name := thread_collection_name th;
       thread_shard_key := thread_shard_key th;
       thread_new_location := thread_new_location th;
       thread_exception := Some e |}))).

Definition run (fuel : nat) (self : ShardMovementThread) : M World unit :=
  try_finally
    (try_except (run_phases fuel self) (λ _, true)
       (λ e, set_exception e;; raise e))
    (connection.close_thread_connections;;
     hidden_secondaries.close_connections_to_hidden_secondaries).

(** [ShardMovementManager.__init__]. *)
Definition ShardMovementManager__init__ (collection_name : string)
    (key : value) (new_location : string)
    (delete_throttle insert_throttle : option Z)
    (delete_batch_size insert_batch_size : Z) : M World unit :=
  modify (with_manager (λ _,
    {| collection_name := collection_name; shard_key := key;
       new_location := new_location; delete_throttle := delete_throttle;
       insert_throttle := insert_throttle;
       delete_batch_size := delete_batch_size;
       insert_batch_size := insert_batch_size;
       inserted := 0; deleted := 0; phase := None |})).

(** [ShardMovementManager.start_migration]: create the thread and start
    it.  A started thread is one whose [run] will execute. *)
Definition start_migration : M World unit :=
  m ← gets manager;
  modify (with_migration_thread (λ _, Some
    {| thread_collection_name := collection_name m;
       thread_shard_key := shard_key m;
       thread_new_location := new_location m;
       thread_exception := None |})).

Definition _begin_migration (collection_name : string) (key : value)
    (new_location : string) (delete_throttle insert_throttle : option Z)
    (delete_batch_size insert_batch_size : Z)
    : M World ShardMovementManager :=
  happening ← metadata.are_migrations_happening;
  if (happening : bool) then
    raise (Exception
      "Cannot start migration when another migration is in progress")
  else
    ShardMovementManager__init__ collection_name key new_location
      delete_throttle insert_throttle delete_batch_size insert_batch_size;;
    start_migration;;
    gets manager.

Definition do_migration (collection_name : string) (key : value)
    (new_location : string) (delete_throttle insert_throttle : option Z)
    (delete_batch_size insert_batch_size : Z)
    : M World ShardMovementManager :=
  _begin_migration collection_name key new_location delete_throttle
    insert_throttle delete_batch_size insert_batch_size.

(** *** The repair functions *)

(** [fix_failed_during_delete]; the defaults of the keyword arguments
    ([delete_batch_size=500], [delete_throttle=0.05]) are the caller's.  The
    manager it constructs is the one the two deletes are given; its
    [insert_throttle=100] is in seconds. *)
Definition fix_failed_during_delete (collection_name : string) (key : value)
    (delete_batch_size : Z) (delete_throttle : option Z) : M World unit :=
  realm ← metadata._get_realm_for_collection collection_name;
  shard_metadata ← _get_metadata_for_shard (realm_name realm) key;
  if bool_decide (shard_status shard_metadata ≠ POST_MIGRATION_DELETE) then
    raise (Exception "Shard not in POST_MIGRATION_DELETE phase.")
  else
    new_location ←
      subscript "new_location" (shard_new_location shard_metadata);
    ShardMovementManager__init__ collection_name key new_location
      delete_throttle (Some 100000%Z) delete_batch_size 1;;
    _delete_source_data collection_name key true;;
    _delete_source_data collection_name key false;;
    api.set_shard_at_rest collection_name key new_location true.

(** The local variables of [fix_failed_pre_delete] that its loop updates. *)
Record Progress := {
  total_deleted : Z;
  last_print : Z;
  last_total : Z;
}.

(** A call on the world, made where local variables are in scope. *)
Definition lift {L A} (m : M World A) : M (World * L) A :=
  λ s, let '(r, w') := m s.1 in (r, (w', s.2)).

(** A block whose local variables start as [init]. *)
Definition with_locals {L A} (init : L) (m : M (World * L) A) : M World A :=
  λ w, let '(r, s) := m (w, init) in (r, s.1).

(** The body of the loop of [fix_failed_pre_delete].  The clock is in
    milliseconds; the rate that is logged divides by [delta], which is at
    least 120 seconds there. *)
Definition pre_delete_batch (target_collection : Collection)
    (delete_throttle : option Z) (batch : list doc)
    : M (World * Progress) unit :=
  _ids ← lift (ids_of batch);
  n ← lift (pymongo.delete_many target_collection _ids);
  modify (λ s, (s.1, {| total_deleted := (total_deleted s.2 + n)%Z;
                        last_print := last_print s.2;
                        last_total := last_total s.2 |}));;
  now ← lift time_time;
  locals ← gets snd;
  let delta := (now - last_print locals)%Z in
  (if bool_decide (delta >= 120000)%Z then
     lift (log "deleted docs");;
     modify (λ s, (s.1, {| total_deleted := total_deleted s.2;
                           last_print := now;
                           last_total := total_deleted s.2 |}))
   else mret tt);;
  lift (tum_ti_tum delete_throttle).

(** [fix_failed_pre_delete]; the defaults of the keyword arguments
    ([delete_batch_size=500], [delete_throttle=0.05]) are the caller's. *)
Definition fix_failed_pre_delete (collection_name : string) (key : value)
    (delete_batch_size : Z) (delete_throttle : option Z) : M World unit :=
  realm ← metadata._get_realm_for_collection collection_name;
  shard_metadata ← _get_metadata_for_shard (realm_name realm) key;
  if bool_decide (shard_status shard_metadata ∉ metadata.MIGRATION_PHASES) then
    raise (Exception "Shard not in migrating phase")
  else
    new_loc ← subscript "new_location" (shard_new_location shard_metadata);
    target_collection ←
      _get_collection_from_location_string new_loc collection_name;
    cursor ←
      pymongo.find_ids target_collection {[realm_shard_field realm := key]};
    shard_field_id_index ←
      _shard_field_id_index target_collection (realm_shard_field realm);
    let cursor :=
      match shard_field_id_index with
      | Some index => pymongo.sort index cursor
      | None => cursor
      end in
    started ← time_time;
    try_finally
      (with_locals
         {| total_deleted := 0; last_print := started; last_total := 0 |}
         (batched_cursor_iterator (mret delete_batch_size)
            (pre_delete_batch target_collection delete_throttle) cursor))
      (record_call CursorClose);;
    api.set_shard_at_rest collection_name key (shard_location shard_metadata)
      true.

(** * Specification vocabulary

    What the properties below are stated with: the batches of the generator
    as a function, observations of the journal and of the stores, and the
    effect of an oplog replay as a function of the documents. *)

(** ** The generator *)

Section GeneratorModel.
Context {A : Type}.

(** The batches the loop yields from a given point on, as a function of
    the answers still to come: [reads] calls of [batch_size_fn] have been
    made, [batch] is the batch in flight. *)
Fixpoint chunks (sizes : nat → Z) (reads : nat) (cursor batch : list A)
    : list (list A) :=
  match cursor with
  | [] => if bool_decide (length batch ≠ 0%nat) then [batch] else []
  | record :: cursor =>
      let batch := batch ++ [record] in
      if bool_decide (Z.of_nat (length batch) >= sizes reads)%Z
      then batch :: chunks sizes (S reads) cursor []
      else chunks sizes (S reads) cursor batch
  end.

(** The batching rule in the spec's words: the batch size is read once per
    batch, when the batch is begun, and not again until it is yielded.
    [consumed] counts the records taken so far and indexes [sizes] the way
    the code's reads do (one per record), so that both see the same
    changes of the tunable. *)
Fixpoint snapshot_loop (sizes : nat → Z) (consumed : nat)
    (cursor batch : list A) (size : Z) : list (list A) :=
  match cursor with
  | [] => if bool_decide (length batch ≠ 0%nat) then [batch] else []
  | record :: cursor =>
      let size := if bool_decide (batch = []) then sizes consumed else size in
      let batch := batch ++ [record] in
      if bool_decide (Z.of_nat (length batch) >= size)%Z
      then batch :: snapshot_loop sizes (S consumed) cursor [] size
      else snapshot_loop sizes (S consumed) cursor batch size
  end.

Definition snapshot_batches (sizes : nat → Z) (cursor : list A)
    : list (list A) :=
  snapshot_loop sizes 0 cursor [] 0.
End GeneratorModel.

(** ** Outcomes

    [yields m Q]: whatever the state, [m] ends with an outcome that
    satisfies [Q]. *)
Definition yields {S A} (m : M S A) (Q : outcome A → Prop) : Prop :=
  ∀ s, Q (m s).1.

(** The outcome is not a bare [Exception], which is what the engine's own
    guards raise. *)
Definition no_Exception {A} (r : outcome A) : Prop :=
  ∀ msg, r ≠ Raise (Exception msg).

(** The error of a sync whose resume position has left the oplog. *)
Definition window_missed : exn :=
  Exception "Cannot sync from oplog as oplog_pos is not in it".


(** ** The journal and the stores

    The bulk writes of a journal, in order. *)
Definition bulk_writes (j : list call)
    : list (Collection * list UpdateOne * bool) :=
  omap (λ c, match c with
             | BulkWrite target requests ordered =>
                 Some (target, requests, ordered)
             | _ => None
             end) j.

(** What the destination reports about the namespace of a collection: the
    field names of its shard key when [config.collections] lists the
    namespace as sharded and not dropped, [None] when the lookup fails or
    finds nothing. *)
Definition reported_shard_key (dst : Server) (target : Collection)
    : option (list string) :=
  match config_collections dst with
  | Some config =>
      match config !! namespace target with
      | Some info => if info_dropped info then None else Some (info_key info)
      | None => None
      end
  | None => None
  end.

(** The documents the copy cursor yields, in order. *)
Definition copy_cursor (src : Server) (source : Collection)
    (shard_field : string) (key : value) : list doc :=
  let found :=
    pymongo.document_of
      <$> pymongo.scan {[shard_field := key]} (pymongo.stored src source) in
  let index_key :=
    [(shard_field, pymongo.ASCENDING); ("_id", pymongo.ASCENDING)] in
  if bool_decide
       (index_key ∈ default [] (index_keys src
                                  !! (coll_database source, coll_name source)))
  then pymongo.sort index_key found
  else found.

(** The calls that write to a collection. *)
Definition is_database_write (c : call) : bool :=
  match c with
  | BulkWrite _ _ _ | InsertCall _ _ | UpdateCall _ _ _ _
  | RemoveCall _ _ | DeleteMany _ _ => true
  | _ => false
  end.

(** The database writes of a journal, in order. *)
Definition database_writes (j : list call) : list call :=
  filter (λ c, is_database_write c = true) j.

(** The shards collection's answer for one (realm, shard key). *)
Definition shards_of (realm_name : string) (key : value)
    (shs : list ShardMetadata) : list ShardMetadata :=
  filter (λ sh, shard_realm sh = realm_name ∧ shard_shard_key sh = key) shs.

(** The shard's document while it moves away from [old_loc]. *)
Definition the_shard (realm : Realm) (key : value) (old_loc : string)
    (status : ShardStatus) (destination : option string) : ShardMetadata :=
  {| shard_realm := realm_name realm; shard_shard_key := key;
     shard_status := status; shard_location := old_loc;
     shard_new_location := destination |}.

(** What stays put while the phases run on an empty shard: the realms, the
    servers, the shard's document up to its status, the clock at [t], and
    the database writes and counters of [w0]. *)
Definition settled (rs : list Realm) (svs : gmap node Server) (realm : Realm)
    (key : value) (old_loc : string) (w0 : World) (status : ShardStatus)
    (destination : option string) (t : Z) (w : World) : Prop :=
  realms w = rs ∧ servers w = svs ∧
  shards_of (realm_name realm) key (shards w)
    = [the_shard realm key old_loc status destination] ∧
  caching_duration w = caching_duration w0 ∧
  now w = t ∧
  database_writes (journal w) = database_writes (journal w0) ∧
  inserted (manager w) = inserted (manager w0) ∧
  deleted (manager w) = deleted (manager w0).

(** ** Oplog replay as a function of the documents

    The documents a collection holds, by [_id]. *)
Definition documents_in (w : World) (c : Collection) : gmap value doc :=
  match servers w !! coll_client c with
  | Some s => pymongo.stored s c
  | None => ∅
  end.

(** The query of [replay_oplog_entry] for one [_id]. *)
Definition id_query (shard_selector : doc) (i : value) : doc :=
  merge [shard_selector; {["_id" := i]}].

(** Whether a collection holds a document with this [_id] that the query
    selects. *)
Definition selected (query : doc) (i : value) (m : gmap value doc) : bool :=
  match m !! i with
  | Some body => pymongo.matches query (pymongo.document_of (i, body))
  | None => false
  end.

(** What replaying one entry does to the documents of the destination,
    given the documents of the source. *)
Definition replayed (shard_selector : doc) (source : gmap value doc)
    (entry : OplogEntry) (target : gmap value doc) : gmap value doc :=
  if bool_decide (op entry = "i") then
    match o entry !! "_id" with
    | Some i =>
        if selected (id_query shard_selector i) i source then
          match target !! i with
          | Some _ => target
          | None => <[i := delete "_id" (o entry)]> target
          end
        else target
    | None => target
    end
  else if bool_decide (op entry = "u") then
    match o2 entry ≫= lookup "_id" with
    | Some i =>
        match source !! i with
        | Some body =>
            let source_document := pymongo.document_of (i, body) in
            if pymongo.matches (id_query shard_selector i) source_document
               && bool_decide (source_document ≠ o entry)
            then <[i := delete "_id" source_document]> target
            else target
        | None => target
        end
    | None => target
    end
  else if bool_decide (op entry = "d") then
    match o entry !! "_id" with
    | Some i =>
        if selected (id_query shard_selector i) i target
        then delete i target else target
    | None => target
    end
  else target.

(** How replaying an entry ends; it depends on the entry alone. *)
Definition entry_outcome (entry : OplogEntry) : outcome unit :=
  if bool_decide (op entry = "i") || bool_decide (op entry = "d") then
    match o entry !! "_id" with
    | Some _ => Ok tt
    | None => Raise (KeyError "_id")
    end
  else if bool_decide (op entry = "u") then
    match o2 entry with
    | Some selector =>
        match selector !! "_id" with
        | Some _ => Ok tt
        | None => Raise (KeyError "_id")
        end
    | None => Raise (KeyError "o2")
    end
  else Ok tt.

(** Whether the shard selector applies to an oplog entry: an insert or an
    update whose [_id] the source holds in the shard, a delete whose [_id]
    the destination holds in the shard.  These are the entries
    [replay_oplog_entry] acts on. *)
Definition matching (shard_selector : doc) (source target : gmap value doc)
    (entry : OplogEntry) : bool :=
  if bool_decide (op entry = "i") then
    match o entry !! "_id" with
    | Some i => selected (id_query shard_selector i) i source
    | None => false
    end
  else if bool_decide (op entry = "u") then
    match o2 entry ≫= lookup "_id" with
    | Some i => selected (id_query shard_selector i) i source
    | None => false
    end
  else if bool_decide (op entry = "d") then
    match o entry !! "_id" with
    | Some i => selected (id_query shard_selector i) i target
    | None => false
    end
  else false.

(** Two worlds that differ at most in the documents of [target] and in
    what was journalled. *)
Definition same_but (target : Collection) (w w' : World) : Prop :=
  realms w' = realms w ∧ shards w' = shards w ∧
  (∀ n, is_Some (servers w' !! n) ↔ is_Some (servers w !! n)) ∧
  (∀ n s s', servers w !! n = Some s → servers w' !! n = Some s' →
             oplog_rs s' = oplog_rs s) ∧
  (∀ c, c ≠ target → documents_in w' c = documents_in w c).

(** What a run of entries does to the document stored under one [_id]:
    nothing, store [b] if there is none, drop it if the shard query selects
    it, or overwrite it whatever it was. *)
Inductive shape :=
| Keep
| Fill (b : doc)
| Clear
| Const (c : option doc).

(** Whether the document stored under [k] belongs to the shard. *)
Definition in_shard (shard_selector : doc) (k : value) (body : doc) : bool :=
  pymongo.matches (id_query shard_selector k) (pymongo.document_of (k, body)).

(** What a shape does to the document stored under [k], if any. *)
Definition act (shard_selector : doc) (k : value) (s : shape)
    (x : option doc) : option doc :=
  match s with
  | Keep => x
  | Fill b => match x with Some _ => x | None => Some b end
  | Clear =>
      match x with
      | Some b' => if in_shard shard_selector k b' then None else x
      | None => None
      end
  | Const c => c
  end.

(** The shape of one entry at one [_id]. *)
Definition shape_of (shard_selector : doc) (source : gmap value doc)
    (entry : OplogEntry) (k : value) : shape :=
  if bool_decide (op entry = "i") then
    if bool_decide (o entry !! "_id" = Some k)
       && selected (id_query shard_selector k) k source
    then Fill (delete "_id" (o entry)) else Keep
  else if bool_decide (op entry = "u") then
    if bool_decide (o2 entry ≫= lookup "_id" = Some k) then
      match source !! k with
      | Some body =>
          if in_shard shard_selector k body
             && bool_decide (pymongo.document_of (k, body) ≠ o entry)
          then Const (Some (delete "_id" (pymongo.document_of (k, body))))
          else Keep
      | None => Keep
      end
    else Keep
  else if bool_decide (op entry = "d") then
    if bool_decide (o entry !! "_id" = Some k) then Clear else Keep
  else Keep.

(** Replaying a whole cursor, as a function of the destination. *)
Definition replayed_all (shard_selector : doc) (source : gmap value doc)
    (cursor : list OplogEntry) (target : gmap value doc) : gmap value doc :=
  foldl (λ target entry, replayed shard_selector source entry target)
        target cursor.

(** What a list of shapes does, one after the other. *)
Definition act_all (shard_selector : doc) (k : value) (l : list shape)
    (x : option doc) : option doc :=
  foldl (λ x s, act shard_selector k s x) x l.

(** The shapes that overwrite, that delete, that insert. *)
Definition overwrites (s : shape) : bool :=
  match s with Const _ => true | _ => false end.

Definition clears (s : shape) : bool :=
  match s with Clear => true | _ => false end.

Definition fills (s : shape) : bool :=
  match s with Fill _ => true | _ => false end.

(** The oplog is the primary's record of its own writes.  What the write
    that an entry records did to the documents of its collection, by
    [_id]: an insert stored its payload, an update replaced the document
    under the [_id] of [o2] by another one (whatever the modifier or the
    replacement made of it) and left a missing one missing, a delete
    removed the document; other entries are no writes. *)
Definition written (entry : OplogEntry) (before after : gmap value doc)
    : Prop :=
  if bool_decide (op entry = "i") then
    ∃ i, o entry !! "_id" = Some i ∧
         after = <[i := delete "_id" (o entry)]> before
  else if bool_decide (op entry = "u") then
    ∃ i (f : doc → doc), o2 entry ≫= lookup "_id" = Some i ∧
                         after = alter f i before
  else if bool_decide (op entry = "d") then
    ∃ i, o entry !! "_id" = Some i ∧ after = delete i before
  else after = before.

(** [log] is the log of the writes that made [after] of [before]. *)
Fixpoint history (before : gmap value doc) (log : list OplogEntry)
    (after : gmap value doc) : Prop :=
  match log with
  | [] => after = before
  | entry :: log =>
      ∃ mid, written entry before mid ∧ history mid log after
  end.

(** The position a replay of [cursor] ends at. *)
Definition final_pos (oplog_pos : Z) (cursor : list OplogEntry) : Z :=
  foldl (λ _ entry, ts entry) oplog_pos cursor.

(** ** Scenarios

    The worlds of the spec's end-to-end scenarios: realm [users] with shard
    field [tenant_id], shard key 7, source [A/appdb], destination
    [B/appdb]. *)
Definition users_realm : Realm :=
  {| realm_name := "users"; realm_collection := "users";
     realm_shard_field := "tenant_id" |}.

Definition server_with (docs : gmap value doc) (oplog : list OplogEntry)
    : Server :=
  {| collections := {[("appdb", "users") := docs]}; index_keys := ∅;
     oplog_rs := oplog; config_collections := Some ∅; next_oid := 0 |}.

Definition fresh_manager (batch_size : Z) : ShardMovementManager :=
  {| collection_name := "users"; shard_key := VInt 7;
     new_location := "B/appdb"; delete_throttle := None;
     insert_throttle := None; delete_batch_size := batch_size;
     insert_batch_size := batch_size; inserted := 0; deleted := 0;
     phase := None |}.

Definition scenario (status : ShardStatus) (destination : option string)
    (source_docs target_docs : gmap value doc) (oplog : list OplogEntry)
    (batch_size : Z) : World :=
  {| realms := [users_realm];
     shards := [{| shard_realm := "users"; shard_shard_key := VInt 7;
                   shard_status := status; shard_location := "A/appdb";
                   shard_new_location := destination |}];
     caching_duration := 120;
     servers := {[Primary "A" := server_with source_docs oplog;
                  Primary "B" := server_with target_docs []]};
     now := 1000;
     manager := fresh_manager batch_size;
     migration_thread := None;
     journal := [] |}.

Definition users_at_A : Collection :=
  {| coll_client := Primary "A"; coll_database := "appdb";
     coll_name := "users" |}.
Definition users_at_B : Collection :=
  {| coll_client := Primary "B"; coll_database := "appdb";
     coll_name := "users" |}.

Definition entry_of (t : Z) (kind : string) (payload : doc)
    (selector : option doc) : OplogEntry :=
  {| ts := t; ns := "appdb.users"; op := kind; o := payload; o2 := selector |}.

(** A shard about to be copied: the source holds [_id] 1 for tenant 7, and
    its oplog an insert of [_id] 1 with a payload of tenant 8, then a
    delete of [_id] 1. *)
Definition stray_insert_world : World :=
  scenario MIGRATING_COPY (Some "B/appdb")
    {[VInt 1 := {["tenant_id" := VInt 7]}]}
    ∅
    [entry_of 5 "i" {["_id" := VInt 1; "tenant_id" := VInt 8]} None;
     entry_of 6 "d" {["_id" := VInt 1]} None]
    1000.

(** Scenario 1, the empty shard: nothing on the source, and an oplog whose
    only entry belongs to another namespace. *)
Definition noise_entry : OplogEntry :=
  {| ts := 5; ns := "appdb.audit"; op := "i"; o := {["_id" := VInt 9]};
     o2 := None |}.

Definition empty_shard_world : World :=
  scenario AT_REST None ∅ ∅ [noise_entry] 1000.

Definition worker : ShardMovementThread :=
  {| thread_collection_name := "users"; thread_shard_key := VInt 7;
     thread_new_location := "B/appdb"; thread_exception := None |}.

(** Three documents of tenant 7 to copy, two per batch. *)
Definition copy_world : World :=
  scenario MIGRATING_COPY (Some "B/appdb")
    {[VInt 1 := {["tenant_id" := VInt 7; "v" := VStr "a"]};
      VInt 2 := {["tenant_id" := VInt 7; "v" := VStr "b"]};
      VInt 3 := {["tenant_id" := VInt 7; "v" := VStr "c"]}]}
    ∅ [noise_entry] 2.

(** Scenario 3, an update during sync: the destination holds [v = "a"],
    the source already [v = "c"]. *)
Definition update_entry : OplogEntry :=
  entry_of 6 "u" {["$set" := VStr "v=c"]} (Some {["_id" := VInt 1]}).

Definition update_world : World :=
  scenario MIGRATING_SYNC (Some "B/appdb")
    {[VInt 1 := {["tenant_id" := VInt 7; "v" := VStr "c"]}]}
    {[VInt 1 := {["tenant_id" := VInt 7; "v" := VStr "a"]}]}
    [noise_entry; update_entry] 1000.

(** Another tenant's writes in the namespace of an empty shard: tenant 8's
    document 2 inserted and updated, its document 3 deleted. *)
Definition other_tenant_oplog : list OplogEntry :=
  [noise_entry;
   entry_of 6 "i" {["_id" := VInt 2; "tenant_id" := VInt 8]} None;
   entry_of 7 "u" {["$set" := VStr "v=x"]} (Some {["_id" := VInt 2]});
   entry_of 8 "d" {["_id" := VInt 3]} None].

Definition other_tenant_world : World :=
  scenario AT_REST None
    {[VInt 2 := {["tenant_id" := VInt 8; "v" := VStr "x"]}]}
    {[VInt 5 := {["tenant_id" := VInt 9]}]}
    other_tenant_oplog 1000.

(** Scenario: tenant 7's document 1 was inserted under tenant 8, deleted
    and inserted again; the copy has put it at the destination. *)
Definition reinserted_world : World :=
  scenario MIGRATING_SYNC (Some "B/appdb")
    {[VInt 1 := {["tenant_id" := VInt 7]}]}
    {[VInt 1 := {["tenant_id" := VInt 7]}]}
    [entry_of 5 "i" {["_id" := VInt 1; "tenant_id" := VInt 8]} None;
     entry_of 6 "d" {["_id" := VInt 1]} None;
     entry_of 7 "i" {["_id" := VInt 1; "tenant_id" := VInt 7]} None]
    1000.

(** ** More vocabulary

    Definitions for the properties at the end of the file: further
    observations of the journal and of the stores, invariants of a
    run, and further scenarios. *)

(** [preserves R m]: whatever the state and however [m] ends, the state it
    leaves is related to the one it started in. *)
Definition preserves {S A} (R : relation S) (m : M S A) : Prop :=
  ∀ s, R s (m s).2.

(** What no database call changes: the settings, the clock, the manager
    and the thread. *)
Definition kept (w w' : World) : Prop :=
  caching_duration w' = caching_duration w ∧ now w' = now w ∧
  manager w' = manager w ∧ migration_thread w' = migration_thread w.

(** The state has changed at most in the documents of [target] and in the
    journal. *)
Definition touches_only (target : Collection) (w w' : World) : Prop :=
  same_but target w w' ∧ kept w w'.

(** The outcome is one the program can have: the model's fuel did not run
    out. *)
Definition finished {A} (r : outcome A) : Prop := r ≠ OutOfFuel.

(** The [delete_many] calls of a journal, in order. *)
Definition delete_calls (j : list call) : list (Collection * list value) :=
  omap (λ c, match c with
             | DeleteMany target batch_ids => Some (target, batch_ids)
             | _ => None
             end) j.

(** The [_id]s of a batch of documents that all have one. *)
Definition batch_ids (batch : list doc) : list value :=
  omap (λ record : doc, record !! "_id") batch.

(** The documents the delete cursor yields, in order: the [_id]s of the
    shard's documents on the server that is read. *)
Definition delete_cursor (s : Server) (read_collection : Collection)
    (shard_field : string) (key : value) : list doc :=
  let found :=
    (λ d : doc, filter (λ kv, kv.1 = "_id") d)
      <$> (pymongo.document_of
             <$> pymongo.scan {[shard_field := key]}
                   (pymongo.stored s read_collection)) in
  let index_key :=
    [(shard_field, pymongo.ASCENDING); ("_id", pymongo.ASCENDING)] in
  if bool_decide
       (index_key ∈ default [] (index_keys s
                                  !! (coll_database read_collection,
                                      coll_name read_collection)))
  then pymongo.sort index_key found
  else found.

(** What one upsert of the copy does to a collection keyed by [_id]: the
    fields of the record are set on the document stored under its [_id],
    or make a new document when there is none. *)
Definition upserted (m : gmap value doc) (record : doc) : gmap value doc :=
  match record !! "_id" with
  | Some i => <[i := delete "_id" record ∪ default ∅ (m !! i)]> m
  | None => m
  end.

(** The routing metadata, the settings and the thread are as they were. *)
Definition same_metadata (w w' : World) : Prop :=
  realms w' = realms w ∧ shards w' = shards w ∧
  caching_duration w' = caching_duration w ∧
  migration_thread w' = migration_thread w.

(** What the copy keeps of the manager, and what the delete keeps of it. *)
Definition same_delete_side (w w' : World) : Prop :=
  delete_throttle (manager w') = delete_throttle (manager w) ∧
  deleted (manager w') = deleted (manager w).

Definition same_copy_side (w w' : World) : Prop :=
  insert_throttle (manager w') = insert_throttle (manager w) ∧
  inserted (manager w') = inserted (manager w).

(** The shards collection once the shard of [key] has been put into a
    migration status on its way to [new_location]. *)
Definition migrating_shards (realm_name : string) (key : value)
    (new_location : string) (status : ShardStatus)
    (shs : list ShardMetadata) : list ShardMetadata :=
  (λ sh, if api.is_shard realm_name key sh then
           {| shard_realm := shard_realm sh;
              shard_shard_key := shard_shard_key sh;
              shard_status := status;
              shard_location := shard_location sh;
              shard_new_location := Some new_location |}
         else sh) <$> shs.

(** The shards collection once the shard of [key] has been set at rest at
    [location]. *)
Definition shards_at_rest (realm_name : string) (key : value)
    (location : string) (shs : list ShardMetadata) : list ShardMetadata :=
  (λ sh, if api.is_shard realm_name key sh then
           {| shard_realm := shard_realm sh;
              shard_shard_key := shard_shard_key sh;
              shard_status := AT_REST;
              shard_location := location;
              shard_new_location := None |}
         else sh) <$> shs.

(** [keeping I]: a state that satisfies [I] is followed by one that does. *)
Definition keeping {S} (I : S → Prop) : relation S := λ s s', I s → I s'.

(** [ends_in I Q m]: started in a state that satisfies [I], [m] ends with
    an outcome and in a state that satisfy [Q]. *)
Definition ends_in {S A} (I : S → Prop) (Q : outcome A → S → Prop)
    (m : M S A) : Prop :=
  ∀ s, I s → Q (m s).1 (m s).2.

(** While the worker of [self] is between the start of the migration and
    its completion: the shard is in some migration status, everything else
    of the metadata is as in [w0]. *)
Definition in_flight (w0 : World) (realm : Realm) (self : ShardMovementThread)
    (w : World) : Prop :=
  metadata._get_realm_for_collection (thread_collection_name self) w
    = (Ok realm, w) ∧
  realms w = realms w0 ∧
  migration_thread w = migration_thread w0 ∧
  ∃ status, status ∈ metadata.MIGRATION_PHASES ∧
    shards w = migrating_shards (realm_name realm) (thread_shard_key self)
                 (thread_new_location self) status (shards w0).

(** How the phases of a run end once the migration has started: completed
    with the shard at rest at the new location, or failed with the shard
    still in a migration status. *)
Definition phases_end (w0 : World) (realm : Realm) (self : ShardMovementThread)
    (r : outcome unit) (w : World) : Prop :=
  realms w = realms w0 ∧
  migration_thread w = migration_thread w0 ∧
  match r with
  | Ok _ =>
      shards w = shards_at_rest (realm_name realm) (thread_shard_key self)
                   (thread_new_location self) (shards w0) ∧
      phase (manager w) = Some "complete"
  | Raise _ =>
      ∃ status, status ∈ metadata.MIGRATION_PHASES ∧
        shards w = migrating_shards (realm_name realm) (thread_shard_key self)
                     (thread_new_location self) status (shards w0)
  | OutOfFuel => True
  end.

(** Between the copy and the delete of a migration on which no write
    arrives: relative to the world [w3] the copy left, the servers, the
    counters and the settings are as they were, the shard of [shs0] is in
    [status] and the clock is at [t]. *)
Definition syncing (w3 : World) (realm_name : string) (key : value)
    (new_location : string) (shs0 : list ShardMetadata)
    (status : ShardStatus) (t : Z) (w : World) : Prop :=
  realms w = realms w3 ∧ servers w = servers w3 ∧
  shards w = migrating_shards realm_name key new_location status shs0 ∧
  caching_duration w = caching_duration w3 ∧ now w = t ∧
  migration_thread w = migration_thread w3 ∧
  inserted (manager w) = inserted (manager w3) ∧
  deleted (manager w) = deleted (manager w3) ∧
  delete_throttle (manager w) = delete_throttle (manager w3).

(** A shard in its sync phase whose source oplog is empty. *)
Definition silent_world : World :=
  scenario MIGRATING_SYNC (Some "B/appdb") ∅ ∅ [] 1000.

Definition stray_insert : OplogEntry :=
  entry_of 5 "i" {["_id" := VInt 1; "tenant_id" := VInt 8]} None.

Definition delete_entry : OplogEntry :=
  entry_of 7 "d" {["_id" := VInt 1]} None.

(** A shard whose source data is about to be deleted: three documents of
    tenant 7 and one of tenant 8 on the source, two per batch. *)
Definition delete_world : World :=
  scenario POST_MIGRATION_DELETE (Some "B/appdb")
    {[VInt 1 := {["tenant_id" := VInt 7; "v" := VStr "a"]};
      VInt 2 := {["tenant_id" := VInt 7; "v" := VStr "b"]};
      VInt 3 := {["tenant_id" := VInt 7; "v" := VStr "c"]};
      VInt 4 := {["tenant_id" := VInt 8; "v" := VStr "d"]}]}
    ∅ [noise_entry] 2.

Definition delete_world_source : Server :=
  server_with
    {[VInt 1 := {["tenant_id" := VInt 7; "v" := VStr "a"]};
      VInt 2 := {["tenant_id" := VInt 7; "v" := VStr "b"]};
      VInt 3 := {["tenant_id" := VInt 7; "v" := VStr "c"]};
      VInt 4 := {["tenant_id" := VInt 8; "v" := VStr "d"]}]}
    [noise_entry].

Definition shard_being_deleted : ShardMetadata :=
  {| shard_realm := "users"; shard_shard_key := VInt 7;
     shard_status := POST_MIGRATION_DELETE; shard_location := "A/appdb";
     shard_new_location := Some "B/appdb" |}.

Definition copy_world_source : Server :=
  server_with
    {[VInt 1 := {["tenant_id" := VInt 7; "v" := VStr "a"]};
      VInt 2 := {["tenant_id" := VInt 7; "v" := VStr "b"]};
      VInt 3 := {["tenant_id" := VInt 7; "v" := VStr "c"]}]}
    [noise_entry].

Definition shard_being_copied : ShardMetadata :=
  {| shard_realm := "users"; shard_shard_key := VInt 7;
     shard_status := MIGRATING_COPY; shard_location := "A/appdb";
     shard_new_location := Some "B/appdb" |}.

(** A shard at rest with three documents of tenant 7 and one of tenant 8
    on the source, two per batch. *)
Definition moving_world : World :=
  scenario AT_REST None
    {[VInt 1 := {["tenant_id" := VInt 7; "v" := VStr "a"]};
      VInt 2 := {["tenant_id" := VInt 7; "v" := VStr "b"]};
      VInt 3 := {["tenant_id" := VInt 7; "v" := VStr "c"]};
      VInt 4 := {["tenant_id" := VInt 8; "v" := VStr "d"]}]}
    ∅ [noise_entry] 2.

(** A shard at rest on a source whose oplog is empty. *)
Definition stalled_world : World := scenario AT_REST None ∅ ∅ [] 1000.

Definition shard_at_rest_at_A : ShardMetadata :=
  {| shard_realm := "users"; shard_shard_key := VInt 7;
     shard_status := AT_REST; shard_location := "A/appdb";
     shard_new_location := None |}.

Definition shard_being_synced : ShardMetadata :=
  {| shard_realm := "users"; shard_shard_key := VInt 7;
     shard_status := MIGRATING_SYNC; shard_location := "A/appdb";
     shard_new_location := Some "B/appdb" |}.

(** * Properties *)

(** ** Running monadic code *)

Lemma run_bind {S A B} (m : M S A) (k : A → M S B) (s : S) :
  (m ≫= k) s =
  match m s with
  | (Ok a, s') => k a s'
  | (Raise e, s') => (Raise e, s')
  | (OutOfFuel, s') => (OutOfFuel, s')
  end.
Proof. reflexivity. Qed.

Lemma run_ret {S A} (a : A) (s : S) : mret (M:=M S) a s = (Ok a, s).
Proof. reflexivity. Qed.

(** ** The generator *)

Section GeneratorFacts.
Context {A : Type}.
Implicit Types (cursor batch : list A) (log : list (gen_event A)).

Lemma reads_of_app log1 log2 :
  reads_of (log1 ++ log2) = (reads_of log1 + reads_of log2)%nat.
Proof. unfold reads_of. by rewrite omap_app, length_app. Qed.

Lemma yielded_of_app log1 log2 :
  yielded_of (log1 ++ log2) = yielded_of log1 ++ yielded_of log2.
Proof. apply omap_app. Qed.

Lemma reads_of_snoc_read log size :
  reads_of (log ++ [SizeRead size]) = S (reads_of log).
Proof. rewrite reads_of_app. cbn. lia. Qed.

Lemma reads_of_snoc_yield log batch :
  reads_of (log ++ [Yield batch]) = reads_of log.
Proof. rewrite reads_of_app. cbn. lia. Qed.

Lemma yielded_of_snoc_read log size :
  yielded_of (log ++ [SizeRead size]) = yielded_of log.
Proof. rewrite yielded_of_app. cbn. by rewrite app_nil_r. Qed.

Lemma yielded_of_snoc_yield log batch :
  yielded_of (log ++ [Yield batch]) = yielded_of log ++ [batch].
Proof. by rewrite yielded_of_app. Qed.

Lemma batched_loop_logged sizes cursor : ∀ batch log,
  let log' := (batched_loop (logged_size_fn sizes) logged_consume
                 cursor batch log).2 in
  yielded_of log' = yielded_of log ++ chunks sizes (reads_of log) cursor batch ∧
  reads_of log' = (reads_of log + length cursor)%nat.
Proof.
  induction cursor as [|record cursor IH]; intros batch log;
    cbn [batched_loop chunks length].
  - case_bool_decide.
    + change (logged_consume batch log) with (Ok tt, log ++ [Yield batch]).
      cbn [snd].
      rewrite yielded_of_snoc_yield, reads_of_snoc_yield. split; [done | lia].
    + rewrite run_ret. cbn [snd]. rewrite app_nil_r. split; [done | lia].
  - cbv zeta. rewrite run_bind.
    change (logged_size_fn sizes log)
      with (Ok (sizes (reads_of log)),
            log ++ [SizeRead (sizes (reads_of log))]).
    cbv beta iota. case_bool_decide.
    + rewrite run_bind.
      change (logged_consume (batch ++ [record])
                (log ++ [SizeRead (sizes (reads_of log))]))
        with (Ok tt, (log ++ [SizeRead (sizes (reads_of log))])
                       ++ [Yield (batch ++ [record])]).
      cbv beta iota.
      destruct (IH [] ((log ++ [SizeRead (sizes (reads_of log))])
                        ++ [Yield (batch ++ [record])])) as [IHy IHr].
      rewrite IHy, IHr.
      rewrite yielded_of_snoc_yield, reads_of_snoc_yield,
        yielded_of_snoc_read, reads_of_snoc_read.
      rewrite <- app_assoc. split; [reflexivity | lia].
    + destruct (IH (batch ++ [record])
                  (log ++ [SizeRead (sizes (reads_of log))])) as [IHy IHr].
      rewrite IHy, IHr, yielded_of_snoc_read, reads_of_snoc_read.
      split; [reflexivity | lia].
Qed.

Lemma batches_chunks sizes cursor :
  batches sizes cursor = chunks sizes 0 cursor [].
Proof.
  unfold batches, run_generator, batched_cursor_iterator.
  by destruct (batched_loop_logged sizes cursor [] []) as [-> _].
Qed.

Lemma size_reads_length sizes cursor :
  size_reads sizes cursor = length cursor.
Proof.
  unfold size_reads, run_generator, batched_cursor_iterator.
  by destruct (batched_loop_logged sizes cursor [] []) as [_ ->].
Qed.

Lemma chunks_concat sizes cursor : ∀ reads batch,
  concat (chunks sizes reads cursor batch) = batch ++ cursor.
Proof.
  induction cursor as [|record cursor IH]; intros reads batch; simpl.
  - case_bool_decide as Hlen; simpl.
    + by rewrite app_nil_r.
    + destruct batch; [done | simpl in Hlen; lia].
  - case_bool_decide; simpl; rewrite IH.
    + by rewrite <- app_assoc.
    + by rewrite <- app_assoc.
Qed.

Lemma chunks_nonempty sizes cursor : ∀ reads batch,
  Forall (λ b, b ≠ []) (chunks sizes reads cursor batch).
Proof.
  induction cursor as [|record cursor IH]; intros reads batch; simpl.
  - case_bool_decide as Hlen; [|constructor].
    constructor; [|constructor]. intros ->. simpl in Hlen. lia.
  - case_bool_decide; [constructor|]; auto.
    by destruct batch.
Qed.
End GeneratorFacts.

Section GeneratorShape.
Context {A : Type}.
Implicit Types (cursor batch : list A).

Lemma chunks_shape sizes cursor : ∀ reads batch,
  (∀ l, (0 < l ≤ length batch)%nat →
        (Z.of_nat l < sizes (reads - length batch + l - 1)%nat)%Z) →
  (length batch ≤ reads)%nat →
  ∀ i b, chunks sizes reads cursor batch !! i = Some b →
    let start := (reads - length batch
                  + length (concat (take i (chunks sizes reads cursor batch))))%nat in
    (∀ l, (0 < l < length b)%nat →
          (Z.of_nat l < sizes (start + l - 1)%nat)%Z) ∧
    ((S i < length (chunks sizes reads cursor batch))%nat →
     (Z.of_nat (length b) >= sizes (start + length b - 1)%nat)%Z).
Proof.
  induction cursor as [|record cursor IH]; intros reads batch Hpre Hle i b;
    cbn [chunks].
  - case_bool_decide; [|done].
    destruct i as [|i]; [|done]. intros [= <-]. cbn.
    split.
    + intros l Hl. rewrite Nat.add_0_r. apply Hpre. lia.
    + lia.
  - cbv zeta. case_bool_decide as Hfull.
    + destruct i as [|i].
      * intros [= <-]. cbn [take concat length]. rewrite Nat.add_0_r.
        rewrite length_app in *. cbn [length] in *. split.
        -- intros l Hl. apply Hpre. lia.
        -- intros _.
           replace (reads - length batch + (length batch + 1) - 1)%nat
             with reads by lia. done.
      * cbn [lookup list_lookup]. intros Hb.
        destruct (IH (S reads) [] ltac:(cbn; lia) ltac:(cbn; lia) i b Hb)
          as [H1 H2].
        cbn [length] in H1, H2. cbn [take concat length].
        rewrite length_app. rewrite (length_app batch) . cbn [length].
        replace (reads - length batch
                 + (length batch + 1
                    + length (concat (take i (chunks sizes (S reads) cursor [])))))%nat
          with (S reads - 0
                + length (concat (take i (chunks sizes (S reads) cursor []))))%nat
          by lia.
        split; [exact H1|]. intros Hi. apply H2. lia.
    + intros Hb.
      assert (Hlen : length (batch ++ [record]) = S (length batch)).
      { rewrite length_app. cbn. lia. }
      destruct (IH (S reads) (batch ++ [record])) with (i := i) (b := b)
        as [H1 H2]; [| lia | done |].
      * intros l Hl. rewrite Hlen in *.
        destruct (decide (l = S (length batch))) as [->|Hne].
        -- replace (S reads - S (length batch) + S (length batch) - 1)%nat
             with reads by lia. lia.
        -- replace (S reads - S (length batch) + l - 1)%nat
             with (reads - length batch + l - 1)%nat by lia.
           apply Hpre. lia.
      * rewrite Hlen in H1, H2.
        replace (S reads - S (length batch))%nat
          with (reads - length batch)%nat in H1, H2 by lia.
        split; assumption.
Qed.
End GeneratorShape.

(** C10: for every input and every sequence of answers of [batch_size_fn],
    the yielded batches, concatenated in order, are the input, and no
    yielded batch is empty. *)
Theorem batches_partition_input {A} (sizes : nat → Z) (cursor : list A) :
  concat (batches sizes cursor) = cursor ∧
  Forall (λ batch, batch ≠ []) (batches sizes cursor).
Proof.
  rewrite batches_chunks. split.
  - apply (chunks_concat sizes cursor 0%nat []).
  - apply chunks_nonempty.
Qed.

(** C1, as the code has it: the batch size is read once per record, after
    the record is appended.  A yielded batch, whose first record is record
    number [start] of the input, stayed below every size read before its
    last record, and, unless it is the final batch, reached the size read
    at its last record: a batch in flight is cut as soon as its length is
    at least the size of the moment. *)
Theorem batch_size_read_after_every_record {A} (sizes : nat → Z)
    (cursor : list A) :
  size_reads sizes cursor = length cursor ∧
  ∀ i batch, batches sizes cursor !! i = Some batch →
    let start := length (concat (take i (batches sizes cursor))) in
    (∀ l, (0 < l < length batch)%nat →
          (Z.of_nat l < sizes (start + l - 1)%nat)%Z) ∧
    ((S i < length (batches sizes cursor))%nat →
     (Z.of_nat (length batch) >= sizes (start + length batch - 1)%nat)%Z).
Proof.
  split; [apply size_reads_length|].
  rewrite batches_chunks. intros i batch Hb.
  apply (chunks_shape sizes cursor 0%nat []) in Hb; [| cbn; lia | cbn; lia].
  exact Hb.
Qed.

(** C1 does not hold as stated.  Three records at batch size 3 are one
    batch and three reads of the batch size.  With the size lowered from 4
    to 2 once two records are in the batch, the batch in flight is cut at
    three records, where reading the size once per batch would have let it
    grow to four. *)
Lemma batch_size_not_read_once_per_batch :
  size_reads (λ _, 3%Z) [1; 2; 3]%nat
    ≠ length (batches (λ _, 3%Z) [1; 2; 3]%nat) ∧
  let sizes := λ k : nat, if decide (k < 2)%nat then 4%Z else 2%Z in
  batches sizes [1; 2; 3; 4; 5]%nat = [[1; 2; 3]; [4; 5]]%nat ∧
  snapshot_batches sizes [1; 2; 3; 4; 5]%nat = [[1; 2; 3; 4]; [5]]%nat.
Proof. split; [|split]; vm_compute; congruence. Qed.

(** ** Preconditions of the phases and of the entry point *)

(** C6: when the shard's persisted status is not [MIGRATING_COPY] the copy
    engine raises, and when it is not [POST_MIGRATION_DELETE] the delete
    engine raises, in both cases with the world as it was: no collection,
    no counter and no metadata has been written. *)
Theorem wrong_status_raises_before_any_write
    (collection_name : string) (key : value) (w : World)
    (realm : Realm) (shard_metadata : ShardMetadata) :
  metadata._get_realm_for_collection collection_name w = (Ok realm, w) →
  _get_metadata_for_shard (realm_name realm) key w = (Ok shard_metadata, w) →
  (shard_status shard_metadata ≠ MIGRATING_COPY →
   _do_copy collection_name key w
   = (Raise (Exception "Shard not in copy state (phase 1)"), w)) ∧
  (shard_status shard_metadata ≠ POST_MIGRATION_DELETE →
   ∀ use_hidden_secondary,
     _delete_source_data collection_name key use_hidden_secondary w
     = (Raise (Exception "Shard not in delete state"), w)).
Proof.
  intros Hrealm Hshard. split.
  - intros Hstatus. unfold _do_copy.
    rewrite run_bind, Hrealm, run_bind, Hshard.
    by rewrite bool_decide_eq_true_2.
  - intros Hstatus uhs. unfold _delete_source_data.
    rewrite run_bind, Hrealm, run_bind, Hshard.
    by rewrite bool_decide_eq_true_2.
Qed.

(** C7: while any shard is in one of [MIGRATION_PHASES], the entry point
    raises with the world as it was: no manager, no worker, no state for
    the requested shard.  Otherwise it creates the manager, starts the
    worker for it and returns the manager. *)
Theorem begin_migration_refuses_when_migrating
    (cname : string) (key : value) (destination : string)
    (delete_wait insert_wait : option Z) (delete_size insert_size : Z)
    (w : World) :
  _begin_migration cname key destination delete_wait insert_wait
    delete_size insert_size w
  = if bool_decide (Exists (λ sh, shard_status sh ∈ metadata.MIGRATION_PHASES)
                           (shards w))
    then (Raise (Exception
            "Cannot start migration when another migration is in progress"),
          w)
    else
      let fresh :=
        {| collection_name := cname; shard_key := key;
           new_location := destination;
           delete_throttle := delete_wait; insert_throttle := insert_wait;
           delete_batch_size := delete_size; insert_batch_size := insert_size;
           inserted := 0; deleted := 0; phase := None |} in
      (Ok fresh,
       with_migration_thread (λ _, Some
         {| thread_collection_name := cname;
            thread_shard_key := key;
            thread_new_location := destination;
            thread_exception := None |})
         (with_manager (λ _, fresh) w)).
Proof.
  unfold _begin_migration. rewrite run_bind.
  unfold metadata.are_migrations_happening, gets.
  case_bool_decide; reflexivity.
Qed.

(** ** What a computation can end with, whatever the state *)

Section Yields.
Context {S : Type}.

Lemma yields_bind {A B} (m : M S A) (k : A → M S B) Q1 Q2 :
  yields m Q1 →
  (∀ a, Q1 (Ok a) → yields (k a) Q2) →
  (∀ e, Q1 (Raise e) → Q2 (Raise e)) →
  (Q1 OutOfFuel → Q2 OutOfFuel) →
  yields (m ≫= k) Q2.
Proof.
  intros Hm Hk He Hf s. rewrite run_bind. specialize (Hm s).
  destruct (m s) as [[a|e|] s']; cbn in *; auto. by apply Hk.
Qed.



Lemma yields_try_finally {A} (body : M S A) (cleanup : M S unit) Q :
  yields body Q → yields cleanup (λ r, ∀ e, r = Raise e → Q (Raise e)) →
  Q OutOfFuel →
  yields (try_finally body cleanup) Q.
Proof.
  intros Hb Hc Hf s. unfold try_finally. specialize (Hb s).
  destruct (body s) as [[a|e|] s']; cbn in *; [| |done];
    specialize (Hc s'); destruct (cleanup s') as [[[]|e'|] s'']; cbn in *;
    auto.
Qed.

Lemma yields_try_except {A} (body : M S A) (catches : exn → bool)
    (handler : exn → M S A) (Q1 Q : outcome A → Prop) :
  yields body Q1 →
  (∀ a, Q1 (Ok a) → Q (Ok a)) →
  (∀ e, Q1 (Raise e) → if catches e then yields (handler e) Q else Q (Raise e)) →
  (Q1 OutOfFuel → Q OutOfFuel) →
  yields (try_except body catches handler) Q.
Proof.
  intros Hb Hok He Hf s. unfold try_except. specialize (Hb s).
  destruct (body s) as [[a|e|] s']; cbn in *; auto.
  specialize (He e Hb). destruct (catches e); [apply He | done].
Qed.
End Yields.

(** ** The oplog window

    No database call raises the bare [Exception] that the guards of the
    engine raise. *)
Ltac no_exc_step :=
  lazymatch goal with
  | |- yields (_ ≫= _) no_Exception =>
      eapply (yields_bind _ _ no_Exception no_Exception);
      [ | intros ? _
        | let He := fresh in intros ? He ? [= ->]; by eapply He
        | by intros _ ? ]
  | |- yields (mret _) no_Exception => by intros ? ?
  | |- yields (raise ?e) no_Exception => by intros ? ?
  | |- yields (gets _) no_Exception => by intros ? ?
  | |- yields get no_Exception => by intros ? ?
  | |- yields (modify _) no_Exception => by intros ? ?
  | |- yields (record_call _) no_Exception => by intros ? ?
  | |- yields (subscript _ ?x) no_Exception => by destruct x; intros ? ?
  | |- yields (if ?b then _ else _) no_Exception => destruct b
  | |- yields (match ?x with _ => _ end) no_Exception => destruct x
  end.

Lemma server_of_no_Exception c : yields (pymongo.server_of c) no_Exception.
Proof.
  intros w msg. unfold pymongo.server_of. rewrite run_bind. cbn.
  by destruct (servers w !! coll_client c).
Qed.

Lemma store_no_Exception c m oid : yields (pymongo.store c m oid) no_Exception.
Proof. by intros ? ?. Qed.

Lemma find_no_Exception c spec : yields (pymongo.find c spec) no_Exception.
Proof.
  unfold pymongo.find. no_exc_step; [apply server_of_no_Exception|].
  no_exc_step.
Qed.

Lemma insert_no_Exception c d : yields (pymongo.insert c d) no_Exception.
Proof.
  unfold pymongo.insert. no_exc_step; [no_exc_step|].
  no_exc_step; [apply server_of_no_Exception|].
  destruct (pymongo.assign_id _ _). no_exc_step; [no_exc_step|].
  apply store_no_Exception.
Qed.

Lemma update_no_Exception c spec d upsert :
  yields (pymongo.update c spec d upsert) no_Exception.
Proof.
  unfold pymongo.update. no_exc_step; [no_exc_step|].
  no_exc_step; [apply server_of_no_Exception|].
  no_exc_step.
  - destruct p. no_exc_step; [apply store_no_Exception | no_exc_step].
  - no_exc_step; [|no_exc_step].
    destruct (pymongo.assign_id _ _). no_exc_step; [no_exc_step|].
    apply store_no_Exception.
Qed.

Lemma remove_no_Exception c spec : yields (pymongo.remove c spec) no_Exception.
Proof.
  unfold pymongo.remove. no_exc_step; [no_exc_step|].
  no_exc_step; [apply server_of_no_Exception|]. apply store_no_Exception.
Qed.

Lemma replay_oplog_entry_no_Exception entry sel source target :
  yields (replay_oplog_entry entry sel source target) no_Exception.
Proof.
  unfold replay_oplog_entry. repeat no_exc_step;
    try apply find_no_Exception; try apply remove_no_Exception;
    try apply update_no_Exception.
  eapply (yields_try_except _ _ _ no_Exception).
  - apply insert_no_Exception.
  - by intros ? _ ?.
  - intros e He. destruct (is_DuplicateKeyError e); [no_exc_step | done].
  - by intros _ ?.
Qed.

Lemma replay_entries_no_Exception sel source target cursor : ∀ pos,
  yields (replay_entries sel source target cursor pos) no_Exception.
Proof.
  induction cursor as [|entry cursor IH]; intros pos; cbn [replay_entries].
  - no_exc_step.
  - no_exc_step; [apply replay_oplog_entry_no_Exception | apply IH].
Qed.

Lemma server_of_run c w s :
  servers w !! coll_client c = Some s → pymongo.server_of c w = (Ok s, w).
Proof. intros H. unfold pymongo.server_of. rewrite run_bind. cbn. by rewrite H. Qed.

(** [_sync_from_oplog] once its lookups have been resolved. *)
Lemma sync_from_oplog_resolved cname key oplog_pos w realm shard_metadata
    source new_loc target s :
  metadata._get_realm_for_collection cname w = (Ok realm, w) →
  _get_metadata_for_shard (realm_name realm) key w = (Ok shard_metadata, w) →
  _get_collection_from_location_string (shard_location shard_metadata) cname w
    = (Ok source, w) →
  shard_new_location shard_metadata = Some new_loc →
  _get_collection_from_location_string new_loc cname w = (Ok target, w) →
  servers w !! coll_client source = Some s →
  _sync_from_oplog cname key oplog_pos w =
  match head (oplog_rs s) with
  | Some oldest_op =>
      if bool_decide (oplog_pos >= ts oldest_op)%Z then
        try_finally
          (replay_entries {[realm_shard_field realm := key]} source target
             (filter (λ entry, (ts entry >= oplog_pos)%Z ∧
                               ns entry = namespace source) (oplog_rs s))
             oplog_pos)
          (record_call CursorClose) w
      else (Raise window_missed, w)
  | None => (Raise IndexError, w)
  end.
Proof.
  intros Hrealm Hshard Hsource Hnew Htarget Hs. unfold _sync_from_oplog.
  rewrite run_bind, Hrealm, run_bind, Hshard, run_bind, Hsource, Hnew.
  rewrite run_bind. cbn [subscript]. rewrite run_ret, run_bind, Htarget.
  rewrite run_bind. unfold _oplog_still_contains_ts.
  rewrite run_bind, (server_of_run _ _ _ Hs).
  destruct (head (oplog_rs s)) as [oldest|]; [|done].
  rewrite run_ret. case_bool_decide; cbn [negb]; [|done].
  rewrite run_bind. unfold tail_oplog_for_collection.
  rewrite run_bind, (server_of_run _ _ _ Hs). by rewrite run_ret.
Qed.

(** C3: on a source oplog with an oldest entry, a sync from [oplog_pos]
    raises the window error exactly when that entry's [ts] is greater than
    [oplog_pos], and then the world is as it was: nothing was replayed.
    When the oldest [ts] is at most [oplog_pos] the sync is the replay of
    the tailed entries, followed by the closing of the cursor. *)
Theorem oplog_window_check
    (cname : string) (key : value) (oplog_pos : Z) (w : World)
    (realm : Realm) (shard_metadata : ShardMetadata)
    (source target : Collection) (new_loc : string) (s : Server)
    (oldest_op : OplogEntry) (later : list OplogEntry) :
  metadata._get_realm_for_collection cname w = (Ok realm, w) →
  _get_metadata_for_shard (realm_name realm) key w = (Ok shard_metadata, w) →
  _get_collection_from_location_string (shard_location shard_metadata) cname w
    = (Ok source, w) →
  shard_new_location shard_metadata = Some new_loc →
  _get_collection_from_location_string new_loc cname w = (Ok target, w) →
  servers w !! coll_client source = Some s →
  oplog_rs s = oldest_op :: later →
  ((_sync_from_oplog cname key oplog_pos w).1 = Raise window_missed
   ↔ (ts oldest_op > oplog_pos)%Z) ∧
  ((ts oldest_op > oplog_pos)%Z →
   _sync_from_oplog cname key oplog_pos w = (Raise window_missed, w)) ∧
  ((ts oldest_op <= oplog_pos)%Z →
   _sync_from_oplog cname key oplog_pos w =
   try_finally
     (replay_entries {[realm_shard_field realm := key]} source target
        (filter (λ entry, (ts entry >= oplog_pos)%Z ∧
                          ns entry = namespace source) (oplog_rs s))
        oplog_pos)
     (record_call CursorClose) w).
Proof.
  intros Hrealm Hshard Hsource Hnew Htarget Hs Hoplog.
  rewrite (sync_from_oplog_resolved _ _ _ _ _ _ _ _ _ _
             Hrealm Hshard Hsource Hnew Htarget Hs).
  rewrite Hoplog. cbn [head]. case_bool_decide as Hcmp.
  - split; [|split]; [|lia|done]. split; [|lia].
    intros Hraise. exfalso.
    refine (yields_try_finally _ _ no_Exception _ _ _ w _ Hraise).
    + apply replay_entries_no_Exception.
    + intros w' e. cbn. discriminate.
    + by intros ?.
  - split; [|split]; [|done|lia]. split; [lia | done].
Qed.

(** ** The resume position *)









(** ** Queries that pin [_id] *)

Lemma matches_spec spec d :
  pymongo.matches spec d = true ↔ ∀ k v, spec !! k = Some v → d !! k = Some v.
Proof. unfold pymongo.matches. by rewrite bool_decide_eq_true. Qed.

Lemma document_of_id p : pymongo.document_of p !! "_id" = Some p.1.
Proof. apply lookup_insert_eq. Qed.

Lemma matches_id spec p i :
  spec !! "_id" = Some i → pymongo.matches spec (pymongo.document_of p) = true →
  p.1 = i.
Proof.
  intros Hi Hm. rewrite matches_spec in Hm. apply Hm in Hi.
  rewrite document_of_id in Hi. congruence.
Qed.

Lemma filter_none {A} (P : A → Prop) `{∀ x, Decision (P x)} (l : list A) :
  (∀ x, x ∈ l → ¬ P x) → filter P l = [].
Proof.
  induction l as [|x l IH]; intros Hl; [done|].
  rewrite filter_cons, decide_False by (apply Hl; left).
  apply IH. intros y Hy. apply Hl. by right.
Qed.

Lemma scan_by_id spec (m : gmap value doc) i :
  spec !! "_id" = Some i →
  pymongo.scan spec m =
  match m !! i with
  | Some body =>
      if pymongo.matches spec (pymongo.document_of (i, body))
      then [(i, body)] else []
  | None => []
  end.
Proof.
  intros Hi. unfold pymongo.scan.
  destruct (m !! i) as [body|] eqn:Hm.
  - apply map_to_list_delete in Hm as Hperm.
    assert (Hrest : filter (λ p, pymongo.matches spec (pymongo.document_of p) = true)
                      (map_to_list (delete i m)) = []).
    { apply filter_none. intros [j b] Hin Hmatch.
      apply elem_of_map_to_list in Hin.
      apply (matches_id _ _ _ Hi) in Hmatch. cbn in Hmatch. subst j.
      by rewrite lookup_delete_eq in Hin. }
    pose proof (filter_Permutation
      (λ p, pymongo.matches spec (pymongo.document_of p) = true) _ _ Hperm)
      as Hfilter.
    rewrite filter_cons, Hrest in Hfilter.
    destruct (pymongo.matches spec (pymongo.document_of (i, body))) eqn:Hmatch.
    + rewrite decide_True in Hfilter by done.
      symmetry in Hfilter. by apply Permutation_singleton_r in Hfilter.
    + rewrite decide_False in Hfilter by (cbn; congruence).
      symmetry in Hfilter. by apply Permutation_nil_r in Hfilter.
  - apply filter_none. intros [j b] Hin Hmatch.
    apply elem_of_map_to_list in Hin.
    apply (matches_id _ _ _ Hi) in Hmatch. cbn in Hmatch. subst j. congruence.
Qed.

Lemma merge_selector_id sel i : merge [sel; {["_id" := i]}] !! "_id" = Some i.
Proof.
  unfold merge. cbn. apply lookup_union_Some_l, lookup_singleton_eq.
Qed.

Lemma matches_singleton_id i body :
  pymongo.matches {["_id" := i]} (pymongo.document_of (i, body)) = true.
Proof.
  apply matches_spec. intros k v Hk.
  apply lookup_singleton_Some in Hk as [<- <-]. apply document_of_id.
Qed.

Lemma find_run c spec w s :
  servers w !! coll_client c = Some s →
  pymongo.find c spec w
  = (Ok (pymongo.document_of <$> pymongo.scan spec (pymongo.stored s c)), w).
Proof.
  intros Hs. unfold pymongo.find.
  by rewrite run_bind, (server_of_run _ _ _ Hs), run_ret.
Qed.

(** Replacing by [_id] with upsert: whether or not the document is there,
    afterwards it is the given one. *)
Lemma update_by_id c i d w s :
  servers w !! coll_client c = Some s →
  d !! "_id" = Some i →
  pymongo.update c {["_id" := i]} d true w
  = (Ok tt,
     with_servers
       (alter (pymongo.with_stored c (<[i := delete "_id" d]> (pymongo.stored s c))
                 (next_oid s)) (coll_client c))
       (with_journal (λ j, j ++ [UpdateCall c {["_id" := i]} d true]) w)).
Proof.
  intros Hs Hd. unfold pymongo.update.
  rewrite run_bind. unfold record_call at 1, modify at 1. cbv beta iota.
  rewrite run_bind, (server_of_run _ _ s) by done. cbv beta iota.
  rewrite (scan_by_id _ _ i) by apply lookup_singleton_eq.
  destruct (pymongo.stored s c !! i) as [body|] eqn:Hstored.
  - rewrite matches_singleton_id. cbn [head].
    rewrite bool_decide_eq_true_2 by (by right). reflexivity.
  - cbn [head]. unfold pymongo.assign_id.
    rewrite (lookup_union_Some_l _ _ _ _ Hd), Hstored. reflexivity.
Qed.

(** C2: replaying an update entry looks the source up with the shard
    selector and the [_id] of [o2].  A document that is found and differs
    from the recorded [o] is written whole to the destination, by one
    upsert keyed on its [_id]; when none is found, or it equals [o], the
    world is left as it was. *)
Theorem update_entry_replays_current_source_document
    (entry : OplogEntry) (shard_selector : doc) (source target : Collection)
    (w : World) (selector : doc) (i : value) (src dst : Server) :
  op entry = "u" →
  o2 entry = Some selector →
  selector !! "_id" = Some i →
  servers w !! coll_client source = Some src →
  servers w !! coll_client target = Some dst →
  replay_oplog_entry entry shard_selector source target w =
  match fetch_one (pymongo.document_of <$>
                     pymongo.scan (merge [shard_selector; {["_id" := i]}])
                       (pymongo.stored src source)) with
  | Some source_document =>
      if bool_decide (source_document = o entry) then (Ok tt, w)
      else
        (Ok tt,
         with_servers
           (alter (pymongo.with_stored target
                     (<[i := delete "_id" source_document]>
                        (pymongo.stored dst target))
                     (next_oid dst)) (coll_client target))
           (with_journal
              (λ j, j ++ [UpdateCall target {["_id" := i]} source_document true])
              w))
  | None => (Ok tt, w)
  end.
Proof.
  intros Hop Ho2 Hid Hsrc Hdst. unfold replay_oplog_entry.
  rewrite Hop. rewrite bool_decide_eq_false_2 by done.
  rewrite bool_decide_eq_true_2 by done.
  rewrite Ho2, run_bind. cbn [subscript]. rewrite run_ret, Hid, run_bind.
  cbn [subscript]. rewrite run_ret, run_bind, (find_run _ _ _ _ Hsrc).
  rewrite (scan_by_id _ _ i) by apply merge_selector_id.
  destruct (pymongo.stored src source !! i) as [body|]; [|reflexivity].
  destruct (pymongo.matches _ _); [|reflexivity].
  cbn [fmap list_fmap fetch_one head truthy].
  rewrite bool_decide_eq_true_2 by apply insert_non_empty.
  destruct (decide (pymongo.document_of (i, body) = o entry)) as [Hsame|Hdiff].
  - rewrite (bool_decide_eq_false_2 (Some _ ≠ Some _)) by (rewrite Hsame; auto).
    by rewrite bool_decide_eq_true_2.
  - rewrite (bool_decide_eq_true_2 (Some _ ≠ Some _)) by congruence.
    rewrite bool_decide_eq_false_2 by done.
    cbn [mbind option_bind]. rewrite document_of_id. cbn [fst].
    rewrite run_bind. cbn [subscript]. rewrite run_ret.
    cbn [default]. apply update_by_id; [done | apply document_of_id].
Qed.

(** ** The copy phase *)

Lemma bulk_writes_app j1 j2 :
  bulk_writes (j1 ++ j2) = bulk_writes j1 ++ bulk_writes j2.
Proof. apply omap_app. Qed.

Ltac finish_journal :=
  cbn -[bulk_writes]; rewrite ?bulk_writes_app; cbn; rewrite ?app_nil_r; done.

Lemma copy_batch_effect target target_key batch w :
  batch ≠ [] →
  bulk_writes (journal (copy_batch target target_key batch w).2)
  = bulk_writes (journal w)
    ++ [(target, batch_of_upsert_ops batch target_key, true)] ∧
  insert_batch_size (manager (copy_batch target target_key batch w).2)
  = insert_batch_size (manager w).
Proof.
  intros Hbatch. destruct w as [rs shs cd svs t mgr th j].
  unfold copy_batch, pymongo.bulk_write.
  rewrite bool_decide_eq_false_2 by (by destruct batch).
  unfold try_except, pymongo.server_of, pymongo.store, tum_ti_tum, time_sleep,
    record_call, pretty_log, log, inc_inserted, modify, gets, get, raise,
    mbind, M_bind, mret, M_ret.
  cbn -[bulk_writes pymongo.apply_requests].
  destruct (svs !! coll_client target) as [s|];
    cbn -[bulk_writes pymongo.apply_requests].
  2: { finish_journal. }
  destruct (pymongo.apply_requests _ _ _ _ _) as [[[m oid] n] rejected].
  destruct rejected; cbn -[bulk_writes]; [finish_journal|].
  destruct (insert_throttle mgr) as [wait|]; cbn -[bulk_writes];
    [|finish_journal].
  case_bool_decide; cbn -[bulk_writes]; [|finish_journal].
  case_bool_decide; finish_journal.
Qed.

Lemma copy_loop_bulk_writes target target_key cursor : ∀ reads batch w w',
  batched_loop (gets (λ w, insert_batch_size (manager w)))
    (copy_batch target target_key) cursor batch w = (Ok tt, w') →
  bulk_writes (journal w')
  = bulk_writes (journal w)
    ++ ((λ b, (target, batch_of_upsert_ops b target_key, true))
          <$> chunks (λ _, insert_batch_size (manager w)) reads cursor batch).
Proof.
  induction cursor as [|record cursor IH]; intros reads batch w w';
    cbn [batched_loop chunks].
  - case_bool_decide as Hlen.
    + intros Hrun.
      destruct (copy_batch_effect target target_key batch w) as [Hj _].
      { intros ->. by apply Hlen. }
      by rewrite Hrun in Hj.
    + intros [= <-]. cbn. by rewrite app_nil_r.
  - cbv zeta. rewrite run_bind. unfold gets at 1. cbv beta iota.
    case_bool_decide as Hfull.
    + rewrite run_bind.
      destruct (copy_batch_effect target target_key (batch ++ [record]) w)
        as [Hj Hsize].
      { by destruct batch. }
      destruct (copy_batch target target_key (batch ++ [record]) w)
        as [[[]|e|] w1]; [|done..].
      cbn [snd] in Hj, Hsize. intros Hrest.
      apply (IH (S reads)) in Hrest. rewrite Hrest, Hj, Hsize.
      rewrite fmap_cons, <- app_assoc. done.
    + intros Hrest. by apply (IH (S reads)) in Hrest.
Qed.

Lemma sniff_mongos_shard_key_run target w dst :
  servers w !! coll_client target = Some dst →
  sniff_mongos_shard_key target w = (Ok (reported_shard_key dst target), w).
Proof.
  intros Hdst. unfold sniff_mongos_shard_key, try_except, reported_shard_key.
  rewrite run_bind, (server_of_run _ _ _ Hdst).
  destruct (config_collections dst) as [config|]; [|done].
  destruct (config !! namespace target) as [info|]; [|done].
  by destruct (info_dropped info).
Qed.

Lemma shard_field_id_index_run c shard_field w s :
  servers w !! coll_client c = Some s →
  _shard_field_id_index c shard_field w
  = (Ok (if bool_decide
              ([(shard_field, pymongo.ASCENDING); ("_id", pymongo.ASCENDING)]
               ∈ default [] (index_keys s !! (coll_database c, coll_name c)))
         then Some [(shard_field, pymongo.ASCENDING); ("_id", pymongo.ASCENDING)]
         else None), w).
Proof.
  intros Hs. unfold _shard_field_id_index, pymongo.index_information.
  by rewrite !run_bind, (server_of_run _ _ _ Hs), !run_ret.
Qed.

(** C5: a copy issues, for every batch the generator yields from the
    copy cursor and in that order, one ordered bulk write whose operations
    are the upserts of the batch's documents: selector the projection of
    the document onto the target key, update [$set] of the document
    without [_id].  The target key is the shard key the destination
    reports for the namespace, and [_id] when it reports none. *)
Theorem copy_issues_one_ordered_bulk_upsert_per_batch
    (cname : string) (key : value) (w w' : World) (realm : Realm)
    (shard_metadata : ShardMetadata) (source target : Collection)
    (new_loc : string) (src dst : Server) :
  metadata._get_realm_for_collection cname w = (Ok realm, w) →
  _get_metadata_for_shard (realm_name realm) key w = (Ok shard_metadata, w) →
  _get_source_collection_for_reading shard_metadata cname true w
    = (Ok source, w) →
  shard_new_location shard_metadata = Some new_loc →
  _get_collection_from_location_string new_loc cname w = (Ok target, w) →
  servers w !! coll_client source = Some src →
  servers w !! coll_client target = Some dst →
  reported_shard_key dst target ≠ Some [] →
  _do_copy cname key w = (Ok tt, w') →
  let target_key :=
    match reported_shard_key dst target with
    | Some fields => fields
    | None => ["_id"]
    end in
  bulk_writes (journal w')
  = bulk_writes (journal w)
    ++ ((λ batch : list doc,
           (target,
            (λ record : doc,
               {| op_filter := filter (λ kv, kv.1 ∈ target_key) record;
                  op_set := delete "_id" record;
                  op_upsert := true |}) <$> batch,
            true))
          <$> batches (λ _, insert_batch_size (manager w))
                (copy_cursor src source (realm_shard_field realm) key)).
Proof.
  intros Hrealm Hshard Hsource Hnew Htarget Hsrc Hdst Hkey. unfold _do_copy.
  rewrite run_bind, Hrealm, run_bind, Hshard.
  case_bool_decide as Hstatus; [done|].
  rewrite run_bind, Hsource, Hnew, run_bind. cbn [subscript].
  rewrite run_ret, run_bind, Htarget, run_bind.
  rewrite (sniff_mongos_shard_key_run _ _ _ Hdst).
  rewrite run_bind, (find_run _ _ _ _ Hsrc).
  rewrite run_bind, (shard_field_id_index_run _ _ _ _ Hsrc).
  cbv zeta. unfold try_finally, batched_cursor_iterator.
  match goal with
  | |- context [batched_loop ?f ?c ?cur [] w] =>
      destruct (batched_loop f c cur [] w) as [[[]|e|] w1] eqn:Hloop
  end; [|done..].
  cbn. intros [= <-]. cbn -[bulk_writes]. rewrite bulk_writes_app. cbn.
  rewrite app_nil_r.
  apply (copy_loop_bulk_writes _ _ _ 0%nat) in Hloop. rewrite Hloop.
  f_equal. rewrite batches_chunks. unfold copy_cursor.
  assert (Htk : target_key_of (reported_shard_key dst target)
                = match reported_shard_key dst target with
                  | Some fields => fields
                  | None => ["_id"]
                  end).
  { destruct (reported_shard_key dst target) as [[|field fields]|]; done. }
  rewrite Htk. by case_bool_decide.
Qed.

(** ** Migrating an empty shard *)

Lemma get_realm_run cname realm w :
  head (filter (λ r, realm_collection r = cname) (realms w)) = Some realm →
  metadata._get_realm_for_collection cname w = (Ok realm, w).
Proof.
  intros Hrealm. unfold metadata._get_realm_for_collection.
  rewrite run_bind. cbn [get].
  destruct (filter _ (realms w)) as [|r rest]; [done|].
  cbn in Hrealm. by injection Hrealm as ->.
Qed.

Lemma get_shard_run realm_name key sm w :
  shards_of realm_name key (shards w) = [sm] →
  _get_metadata_for_shard realm_name key w = (Ok sm, w).
Proof.
  intros Hsm. unfold _get_metadata_for_shard, api._get_shards_coll.
  rewrite run_bind. unfold gets at 1. cbv beta iota.
  unfold shards_of in Hsm. by rewrite Hsm.
Qed.

Lemma location_run location cname cluster db w :
  connection.split_location location = Some (cluster, db) →
  _get_collection_from_location_string location cname w
  = (Ok {| coll_client := Primary cluster; coll_database := db;
           coll_name := cname |}, w).
Proof.
  intros Hloc. unfold _get_collection_from_location_string,
    connection.parse_location.
  by rewrite run_bind, Hloc.
Qed.

Lemma reading_run sm cname cluster db (use_hidden_secondary : bool) w :
  connection.split_location (shard_location sm) = Some (cluster, db) →
  _get_source_collection_for_reading sm cname use_hidden_secondary w
  = (Ok {| coll_client :=
             if use_hidden_secondary then
               match servers w !! HiddenSecondary cluster with
               | Some _ => HiddenSecondary cluster
               | None => Primary cluster
               end
             else Primary cluster;
           coll_database := db; coll_name := cname |}, w).
Proof.
  intros Hloc. unfold _get_source_collection_for_reading,
    connection.parse_location.
  rewrite run_bind, Hloc, run_ret. cbv beta iota.
  destruct use_hidden_secondary; [|done].
  rewrite !run_bind. unfold hidden_secondaries.get_hidden_secondary_connection,
    gets at 1. cbv beta iota.
  by destruct (servers w !! HiddenSecondary cluster).
Qed.

Lemma record_call_run c w :
  record_call c w = (Ok tt, with_journal (λ j, j ++ [c]) w).
Proof. reflexivity. Qed.

Lemma truthy_find query i (m : gmap value doc) :
  query !! "_id" = Some i →
  truthy (fetch_one (pymongo.document_of <$> pymongo.scan query m))
  = selected query i m.
Proof.
  intros Hq. rewrite (scan_by_id _ _ i) by done. unfold selected.
  destruct (m !! i) as [body|]; [|done].
  destruct (pymongo.matches _ _); [|done].
  cbn. apply bool_decide_eq_true_2, insert_non_empty.
Qed.

(** Replaying a well-formed entry the selector does not apply to changes
    nothing, not even the journal. *)
Lemma replay_unmatched entry sel source target w src dst :
  servers w !! coll_client source = Some src →
  servers w !! coll_client target = Some dst →
  entry_outcome entry = Ok tt →
  matching sel (pymongo.stored src source) (pymongo.stored dst target) entry
  = false →
  replay_oplog_entry entry sel source target w = (Ok tt, w).
Proof.
  intros Hsrc Hdst. unfold entry_outcome, matching, replay_oplog_entry.
  destruct (decide (op entry = "i")) as [Hi|Hni].
  { rewrite !bool_decide_eq_true_2 by done. cbn [orb].
    destruct (o entry !! "_id") as [i|]; [|by intros [=]]. intros _ Hno.
    cbn [subscript].
    rewrite run_bind, run_ret, run_bind, (find_run _ _ _ _ Hsrc).
    rewrite (truthy_find _ i) by apply merge_selector_id.
    fold (id_query sel i). by rewrite Hno. }
  rewrite !(bool_decide_eq_false_2 (op entry = "i")) by done. cbn [orb].
  destruct (decide (op entry = "u")) as [Hu|Hnu].
  { rewrite !(bool_decide_eq_true_2 (op entry = "u")) by done.
    rewrite !(bool_decide_eq_false_2 (op entry = "d")) by congruence.
    destruct (o2 entry) as [selector|]; [|by intros [=]].
    cbn [mbind option_bind subscript]. rewrite run_bind, run_ret.
    destruct (selector !! "_id") as [i|]; [|by intros [=]]. intros _ Hno.
    cbn [subscript].
    rewrite run_bind, run_ret, run_bind, (find_run _ _ _ _ Hsrc).
    rewrite (truthy_find _ i) by apply merge_selector_id.
    fold (id_query sel i). by rewrite Hno. }
  rewrite !(bool_decide_eq_false_2 (op entry = "u")) by done.
  destruct (decide (op entry = "d")) as [Hd|Hnd].
  { rewrite !bool_decide_eq_true_2 by done.
    destruct (o entry !! "_id") as [i|]; [|by intros [=]]. intros _ Hno.
    cbn [subscript].
    rewrite run_bind, run_ret, run_bind, (find_run _ _ _ _ Hdst).
    rewrite (truthy_find _ i) by apply merge_selector_id.
    fold (id_query sel i). by rewrite Hno. }
  by rewrite !bool_decide_eq_false_2.
Qed.

Lemma final_pos_above bound cursor : ∀ pos,
  (bound <= pos)%Z → Forall (λ entry, (bound <= ts entry)%Z) cursor →
  (bound <= final_pos pos cursor)%Z.
Proof.
  induction cursor as [|entry cursor IH]; intros pos Hpos Hall; [done|].
  inversion_clear Hall. cbn. by apply IH.
Qed.

Lemma replay_entries_unmatched sel source target w src dst cursor : ∀ pos,
  servers w !! coll_client source = Some src →
  servers w !! coll_client target = Some dst →
  Forall (λ entry,
            entry_outcome entry = Ok tt ∧
            matching sel (pymongo.stored src source)
              (pymongo.stored dst target) entry = false) cursor →
  replay_entries sel source target cursor pos w
  = (Ok (final_pos pos cursor), w).
Proof.
  intros pos Hsrc Hdst Hall. revert pos.
  induction Hall as [|entry cursor [Hok Hno] _ IH]; intros pos; [done|].
  cbn [replay_entries].
  rewrite run_bind, (replay_unmatched _ _ _ _ _ src dst) by done.
  apply IH.
Qed.

Section EmptyShard.
Variables (cname : string) (key : value) (realm : Realm).
Variables (cluster db cluster' db' old_loc new_loc : string).
Variables (rs : list Realm) (svs : gmap node Server) (src dst : Server).
Variables (newest oldest : OplogEntry).

Let reader : Server := default src (svs !! HiddenSecondary cluster).
Let shard_selector : doc := {[realm_shard_field realm := key]}.

Local Abbreviation shard_at := (the_shard realm key old_loc).
Local Abbreviation stays := (settled rs svs realm key old_loc).

Hypothesis Hrs :
  head (filter (λ r, realm_collection r = cname) rs) = Some realm.
Hypothesis Hold : connection.split_location old_loc = Some (cluster, db).
Hypothesis Hnew : connection.split_location new_loc = Some (cluster', db').
Hypothesis Hsrc : svs !! Primary cluster = Some src.
Hypothesis Hdst : svs !! Primary cluster' = Some dst.
Hypothesis Hempty_src :
  pymongo.scan shard_selector (default ∅ (collections src !! (db, cname)))
  = [].
Hypothesis Hempty_reader :
  pymongo.scan shard_selector (default ∅ (collections reader !! (db, cname)))
  = [].
Hypothesis Hlog :
  Forall (λ entry,
            ns entry = db +:+ "." +:+ cname →
            entry_outcome entry = Ok tt ∧
            matching shard_selector
              (default ∅ (collections src !! (db, cname)))
              (default ∅ (collections dst !! (db', cname))) entry = false)
         (oplog_rs src).
Hypothesis Hnewest : last (oplog_rs reader) = Some newest.
Hypothesis Holdest : head (oplog_rs src) = Some oldest.

(** The node the copy reads from, and that it is [reader]. *)
Lemma reader_node_server :
  svs !! (match svs !! HiddenSecondary cluster with
          | Some _ => HiddenSecondary cluster
          | None => Primary cluster
          end) = Some reader.
Proof.
  unfold reader. destruct (svs !! HiddenSecondary cluster) eqn:Hh; done.
Qed.

Lemma batched_empty (size_fn : M World Z) consume w :
  batched_cursor_iterator size_fn consume ([] : list doc) w = (Ok tt, w).
Proof. reflexivity. Qed.

Lemma do_copy_empty w :
  realms w = rs → servers w = svs →
  shards_of (realm_name realm) key (shards w)
    = [shard_at MIGRATING_COPY (Some new_loc)] →
  _do_copy cname key w = (Ok tt, with_journal (λ j, j ++ [CursorClose]) w).
Proof using All.
  intros Hr Hs Hsh. unfold _do_copy.
  rewrite run_bind, (get_realm_run cname realm) by (by rewrite Hr).
  rewrite run_bind, (get_shard_run _ _ _ _ Hsh).
  rewrite bool_decide_eq_false_2 by (cbn; auto).
  rewrite run_bind, (reading_run _ _ cluster db) by done.
  cbn [shard_new_location the_shard subscript]. rewrite run_bind, run_ret.
  rewrite run_bind, (location_run _ _ _ _ _ Hnew).
  rewrite run_bind, (sniff_mongos_shard_key_run _ _ dst)
    by (by rewrite Hs).
  rewrite Hs.
  rewrite run_bind, (find_run _ _ _ reader) by (rewrite Hs; apply reader_node_server).
  unfold pymongo.stored. cbn [coll_database coll_name].
  fold shard_selector. rewrite Hempty_reader. cbn [fmap list_fmap].
  rewrite run_bind, (shard_field_id_index_run _ _ _ reader)
    by (rewrite Hs; apply reader_node_server).
  cbv zeta. unfold try_finally.
  case_bool_decide; cbn [pymongo.sort]; by rewrite batched_empty.
Qed.

Lemma database_writes_snoc j c :
  is_database_write c = false →
  database_writes (j ++ [c]) = database_writes j.
Proof.
  intros Hc. unfold database_writes. rewrite filter_app, filter_cons.
  rewrite decide_False by congruence. by rewrite filter_nil, app_nil_r.
Qed.

Lemma settled_journal w0 status destination t w c :
  is_database_write c = false →
  stays w0 status destination t w →
  stays w0 status destination t (with_journal (λ j, j ++ [c]) w).
Proof.
  intros Hc (?&?&?&?&?&?&?&?). repeat split; try done.
  cbn. by rewrite database_writes_snoc.
Qed.

Lemma set_phase_settled w0 status destination t w p :
  stays w0 status destination t w →
  ∃ w', set_phase p w = (Ok tt, w') ∧ stays w0 status destination t w' ∧
        phase (manager w') = Some p.
Proof.
  intros (?&?&?&?&?&?&?&?). eexists. split; [reflexivity|].
  repeat split; done.
Qed.

Lemma shards_of_update (f : ShardMetadata → ShardMetadata) shs :
  (∀ sh, shard_realm (f sh) = shard_realm sh) →
  (∀ sh, shard_shard_key (f sh) = shard_shard_key sh) →
  shards_of (realm_name realm) key
    ((λ sh, if api.is_shard (realm_name realm) key sh then f sh else sh)
       <$> shs)
  = f <$> shards_of (realm_name realm) key shs.
Proof.
  intros Hrealm Hkey. unfold shards_of.
  induction shs as [|sh shs IH]; [done|].
  rewrite fmap_cons, !filter_cons, IH. unfold api.is_shard.
  case_bool_decide as Hsh.
  - rewrite decide_True by (by rewrite Hrealm, Hkey).
    by rewrite decide_True.
  - rewrite decide_False by done. by rewrite decide_False.
Qed.

Lemma start_migration_settled w0 destination t w :
  stays w0 AT_REST destination t w →
  ∃ w', api.start_migration cname key new_loc w = (Ok tt, w') ∧
        stays w0 MIGRATING_COPY (Some new_loc) t w'.
Proof using All.
  intros (Hr&?&Hsh&?&?&?&?&?). unfold api.start_migration.
  rewrite run_bind, (get_realm_run cname realm) by (by rewrite Hr).
  rewrite run_bind. unfold api._get_shards_coll, gets at 1. cbv beta iota.
  assert (Hfilter :
    filter (λ sh, api.is_shard (realm_name realm) key sh = true) (shards w)
    = shards_of (realm_name realm) key (shards w)).
  { apply list_filter_iff. intros sh. unfold api.is_shard.
    by rewrite bool_decide_eq_true. }
  rewrite Hfilter, Hsh. cbn [the_shard shard_status].
  rewrite bool_decide_eq_true_2 by done.
  eexists. split; [reflexivity|]. repeat split; try done.
  cbn [shards with_shards]. rewrite shards_of_update by done.
  by rewrite Hsh.
Qed.

Lemma set_status_settled w0 status destination t w status' :
  status' ∈ metadata.MIGRATION_PHASES →
  stays w0 status destination t w →
  ∃ w', api.set_shard_to_migration_status cname key status' w = (Ok tt, w') ∧
        stays w0 status' destination t w'.
Proof using All.
  intros Hphase (Hr&?&Hsh&?&?&?&?&?).
  unfold api.set_shard_to_migration_status.
  rewrite run_bind, (get_realm_run cname realm) by (by rewrite Hr).
  rewrite bool_decide_eq_true_2 by done.
  eexists. split; [reflexivity|]. repeat split; try done.
  cbn [shards with_shards]. rewrite shards_of_update by done.
  by rewrite Hsh.
Qed.

Lemma set_shard_at_rest_settled w0 status destination t w force :
  stays w0 status destination t w →
  ∃ w', api.set_shard_at_rest cname key new_loc force w = (Ok tt, w') ∧
        realms w' = rs ∧ servers w' = svs ∧
        shards_of (realm_name realm) key (shards w')
        = [{| shard_realm := realm_name realm; shard_shard_key := key;
              shard_status := AT_REST; shard_location := new_loc;
              shard_new_location := None |}] ∧
        database_writes (journal w') = database_writes (journal w0) ∧
        inserted (manager w') = inserted (manager w0) ∧
        deleted (manager w') = deleted (manager w0).
Proof using All.
  intros (Hr&?&Hsh&?&?&?&?&?). unfold api.set_shard_at_rest.
  rewrite run_bind, (get_realm_run cname realm) by (by rewrite Hr).
  eexists. split; [reflexivity|]. repeat split; try done.
  cbn [shards with_shards]. rewrite shards_of_update by done.
  by rewrite Hsh.
Qed.

Lemma get_oplog_pos_settled w0 status destination t w :
  stays w0 status destination t w →
  _get_oplog_pos cname key w = (Ok (ts newest), w).
Proof using All.
  intros (Hr&Hs&Hsh&?&?&?&?&?). unfold _get_oplog_pos.
  rewrite run_bind, (get_realm_run cname realm) by (by rewrite Hr).
  rewrite run_bind, (get_shard_run _ _ _ _ Hsh).
  rewrite run_bind, (reading_run _ _ cluster db) by done.
  rewrite Hs, run_bind, (server_of_run _ _ reader)
    by (rewrite Hs; apply reader_node_server).
  by rewrite Hnewest.
Qed.

Lemma do_copy_settled w0 t w :
  stays w0 MIGRATING_COPY (Some new_loc) t w →
  ∃ w', _do_copy cname key w = (Ok tt, w') ∧
        stays w0 MIGRATING_COPY (Some new_loc) t w'.
Proof using All.
  intros Hw. pose proof Hw as (Hr&Hs&Hsh&_).
  eexists. split; [by apply do_copy_empty|]. by apply settled_journal.
Qed.

Lemma sync_settled w0 status t w oplog_pos :
  (ts oldest <= oplog_pos)%Z →
  stays w0 status (Some new_loc) t w →
  ∃ pos w', _sync_from_oplog cname key oplog_pos w = (Ok pos, w') ∧
            (oplog_pos <= pos)%Z ∧
            stays w0 status (Some new_loc) t w'.
Proof using All.
  intros Hpos Hw. pose proof Hw as (Hr&Hs&Hsh&_).
  rewrite (sync_from_oplog_resolved cname key oplog_pos w realm
             (shard_at status (Some new_loc))
             {| coll_client := Primary cluster; coll_database := db;
                coll_name := cname |}
             new_loc
             {| coll_client := Primary cluster'; coll_database := db';
                coll_name := cname |} src).
  - rewrite Holdest, bool_decide_eq_true_2 by lia.
    unfold try_finally.
    rewrite (replay_entries_unmatched _ _ _ _ src dst)
      by (rewrite ?Hs; try done; apply list.Forall_forall;
          intros entry [[_ Hentry] Hin]%list_elem_of_filter;
          rewrite list.Forall_forall in Hlog; by apply (Hlog entry)).
    rewrite record_call_run. eexists _, _. split; [reflexivity|].
    split; [|by apply settled_journal].
    apply final_pos_above; [lia|]. apply list.Forall_forall.
    intros entry [[Hts _] _]%list_elem_of_filter. lia.
  - apply get_realm_run. by rewrite Hr.
  - by apply get_shard_run.
  - by apply location_run.
  - done.
  - by apply location_run.
  - by rewrite Hs.
Qed.

Lemma delete_settled w0 t w use_hidden_secondary :
  stays w0 POST_MIGRATION_DELETE (Some new_loc) t w →
  ∃ w', _delete_source_data cname key use_hidden_secondary w = (Ok tt, w') ∧
        stays w0 POST_MIGRATION_DELETE (Some new_loc) t w'.
Proof using All.
  intros Hw. pose proof Hw as (Hr&Hs&Hsh&_).
  exists (with_journal (λ j, j ++ [CursorClose]) w).
  split; [|by apply settled_journal].
  unfold _delete_source_data.
  rewrite run_bind, (get_realm_run cname realm) by (by rewrite Hr).
  rewrite run_bind, (get_shard_run _ _ _ _ Hsh).
  rewrite bool_decide_eq_false_2 by (cbn; auto).
  cbv zeta. rewrite run_bind, (location_run _ _ _ _ _ Hold).
  rewrite run_bind, (reading_run _ _ cluster db) by done.
  rewrite Hs.
  assert (Hread : ∃ s,
    svs !! (if use_hidden_secondary then
              match svs !! HiddenSecondary cluster with
              | Some _ => HiddenSecondary cluster
              | None => Primary cluster
              end
            else Primary cluster) = Some s ∧
    pymongo.scan shard_selector (default ∅ (collections s !! (db, cname)))
    = []).
  { destruct use_hidden_secondary.
    - exists reader. split; [apply reader_node_server | done].
    - exists src. done. }
  destruct Hread as (s & Hnode & Hempty).
  rewrite run_bind. unfold pymongo.find_ids.
  rewrite run_bind, (find_run _ _ _ s) by (by rewrite Hs).
  unfold pymongo.stored. cbn [coll_database coll_name].
  fold shard_selector. rewrite Hempty. cbn [fmap list_fmap].
  rewrite run_ret. cbn [fmap list_fmap].
  rewrite run_bind, (shard_field_id_index_run _ _ _ s) by (by rewrite Hs).
  unfold try_finally.
  case_bool_decide; cbn [pymongo.sort]; by rewrite batched_empty.
Qed.

Lemma time_sleep_settled w0 status destination t w milliseconds :
  (0 <= milliseconds)%Z →
  stays w0 status destination t w →
  ∃ w', time_sleep milliseconds w = (Ok tt, w') ∧
        stays w0 status destination (t + milliseconds) w'.
Proof using Type.
  intros Hms (?&?&?&?&Hnow&?&?&?). unfold time_sleep.
  rewrite bool_decide_eq_false_2 by lia.
  eexists. split; [reflexivity|]. repeat split; try done.
  - cbn. by rewrite Hnow.
  - cbn. by rewrite database_writes_snoc.
Qed.

Lemma sync_while_caching_settled w0 status start self fuel :
  thread_collection_name self = cname →
  thread_shard_key self = key →
  ∀ oplog_pos t w,
    (ts oldest <= oplog_pos)%Z →
    stays w0 status (Some new_loc) t w →
    (start + caching_duration w0 - t <= 50 * Z.of_nat fuel)%Z →
    ∃ pos t' w',
      sync_while_caching fuel self start oplog_pos w = (Ok pos, w') ∧
      (oplog_pos <= pos)%Z ∧
      stays w0 status (Some new_loc) t' w'.
Proof using All.
  intros Hcname Hkey.
  induction fuel as [|fuel IH]; intros oplog_pos t w Hpos Hw Hfuel;
    pose proof Hw as (_&_&_&Hcd&Hnow&_); cbn [sync_while_caching];
    rewrite run_bind; unfold time_time, gets at 1; cbv beta iota;
    rewrite run_bind; unfold api.get_caching_duration, gets at 1;
    cbv beta iota; rewrite Hnow, Hcd.
  - rewrite bool_decide_eq_false_2 by lia. by exists oplog_pos, t, w.
  - case_bool_decide; [|by exists oplog_pos, t, w].
    rewrite run_bind.
    destruct (time_sleep_settled w0 status (Some new_loc) t w 50)
      as (w1 & -> & Hw1); [lia | done |].
    rewrite run_bind, Hcname, Hkey.
    destruct (sync_settled w0 status (t + 50) w1 oplog_pos)
      as (pos & w2 & -> & Hle & Hw2); [done..|].
    destruct (IH pos (t + 50)%Z w2) as (pos' & t' & w' & -> & Hle' & Hw');
      [lia | done | lia |].
    exists pos', t', w'. split; [done|]. split; [lia | done].
Qed.

Lemma run_phases_settled destination exc fuel w :
  shards_of (realm_name realm) key (shards w)
    = [shard_at AT_REST destination] →
  realms w = rs → servers w = svs →
  (ts oldest <= ts newest)%Z →
  (caching_duration w <= 50 * Z.of_nat fuel)%Z →
  ∃ w',
    run_phases fuel
      {| thread_collection_name := cname; thread_shard_key := key;
         thread_new_location := new_loc; thread_exception := exc |} w
    = (Ok tt, w') ∧
    servers w' = svs ∧
    shards_of (realm_name realm) key (shards w')
    = [{| shard_realm := realm_name realm; shard_shard_key := key;
          shard_status := AT_REST; shard_location := new_loc;
          shard_new_location := None |}] ∧
    database_writes (journal w') = database_writes (journal w) ∧
    inserted (manager w') = inserted (manager w) ∧
    deleted (manager w') = deleted (manager w) ∧
    phase (manager w') = Some "complete".
Proof using All.
  intros Hsh Hr Hs Hcover Hfuel.
  assert (Hw : stays w AT_REST destination (now w) w)
    by (repeat split; done).
  unfold run_phases.
  cbn [thread_collection_name thread_shard_key thread_new_location].
  rewrite run_bind.
  destruct (set_phase_settled _ _ _ _ _ "copy" Hw) as (w1 & -> & Hw1 & _).
  rewrite run_bind.
  destruct (start_migration_settled _ _ _ _ Hw1) as (w2 & -> & Hw2).
  rewrite run_bind, (get_oplog_pos_settled _ _ _ _ _ Hw2).
  rewrite run_bind.
  destruct (do_copy_settled _ _ _ Hw2) as (w3 & -> & Hw3).
  rewrite run_bind.
  destruct (set_phase_settled _ _ _ _ _ "sync" Hw3) as (w4 & -> & Hw4 & _).
  rewrite run_bind. unfold time_time at 1, gets at 1. cbv beta iota.
  pose proof Hw4 as (_&_&_&_&Hnow4&_). rewrite Hnow4.
  rewrite run_bind.
  destruct (set_status_settled _ _ _ _ _ MIGRATING_SYNC
              ltac:(set_solver) Hw4) as (w5 & -> & Hw5).
  rewrite run_bind.
  destruct (sync_settled _ _ _ _ (ts newest) Hcover Hw5)
    as (pos6 & w6 & -> & Hpos6 & Hw6).
  rewrite run_bind.
  destruct (sync_while_caching_settled w MIGRATING_SYNC (now w)
              {| thread_collection_name := cname; thread_shard_key := key;
                 thread_new_location := new_loc; thread_exception := exc |}
              fuel eq_refl eq_refl pos6 (now w) w6 ltac:(lia) Hw6)
    as (pos7 & t7 & w7 & -> & Hpos7 & Hw7); [lia|].
  rewrite run_bind.
  destruct (set_status_settled _ _ _ _ _ POST_MIGRATION_PAUSED_AT_DESTINATION
              ltac:(set_solver) Hw7) as (w8 & -> & Hw8).
  rewrite run_bind.
  destruct (time_sleep_settled _ _ _ _ _ 100 ltac:(lia) Hw8)
    as (w9 & -> & Hw9).
  rewrite run_bind.
  destruct (sync_settled _ _ _ _ pos7 ltac:(lia) Hw9)
    as (pos10 & w10 & -> & _ & Hw10).
  rewrite run_bind.
  destruct (set_phase_settled _ _ _ _ _ "delete" Hw10)
    as (w11 & -> & Hw11 & _).
  rewrite run_bind.
  destruct (set_status_settled _ _ _ _ _ POST_MIGRATION_DELETE
              ltac:(set_solver) Hw11) as (w12 & -> & Hw12).
  rewrite run_bind.
  destruct (delete_settled _ _ _ true Hw12) as (w13 & -> & Hw13).
  rewrite run_bind.
  destruct (delete_settled _ _ _ false Hw13) as (w14 & -> & Hw14).
  rewrite run_bind.
  destruct (set_shard_at_rest_settled _ _ _ _ _ true Hw14)
    as (w15 & -> & Hr15 & Hs15 & Hsh15 & Hj15 & Hi15 & Hd15).
  eexists. split; [reflexivity|]. repeat split; done.
Qed.
End EmptyShard.

(** C9: for a shard with no matching document on the source (primary and
    the node the copy reads from) and no matching entry in the source's
    oplog, the worker's run completes: it issues no database write, leaves
    [inserted] and [deleted] at 0, ends in phase [complete] and leaves the
    shard [AT_REST] at the new location.  The oplog may hold entries of
    other namespaces and, in the collection's namespace, the writes of
    other shards: entries that carry the [_id] the replay reads and to
    which the shard selector does not apply ([matching]).  [fuel] bounds
    the number of rounds of the wait for the caching duration, 50 ms of
    sleep each. *)
Theorem empty_shard_migration_completes
    (fuel : nat) (w : World) (cname : string) (key : value) (realm : Realm)
    (cluster db cluster' db' old_loc new_loc : string) (src dst : Server)
    (newest oldest : OplogEntry) (destination : option string)
    (exc : option exn) :
  let reader := default src (servers w !! HiddenSecondary cluster) in
  let shard_selector : doc := {[realm_shard_field realm := key]} in
  head (filter (λ r, realm_collection r = cname) (realms w)) = Some realm →
  shards_of (realm_name realm) key (shards w)
  = [{| shard_realm := realm_name realm; shard_shard_key := key;
        shard_status := AT_REST; shard_location := old_loc;
        shard_new_location := destination |}] →
  connection.split_location old_loc = Some (cluster, db) →
  connection.split_location new_loc = Some (cluster', db') →
  servers w !! Primary cluster = Some src →
  servers w !! Primary cluster' = Some dst →
  pymongo.scan shard_selector (default ∅ (collections src !! (db, cname)))
    = [] →
  pymongo.scan shard_selector (default ∅ (collections reader !! (db, cname)))
    = [] →
  Forall (λ entry,
            ns entry = db +:+ "." +:+ cname →
            entry_outcome entry = Ok tt ∧
            matching shard_selector
              (default ∅ (collections src !! (db, cname)))
              (default ∅ (collections dst !! (db', cname))) entry = false)
         (oplog_rs src) →
  last (oplog_rs reader) = Some newest →
  head (oplog_rs src) = Some oldest →
  (ts oldest <= ts newest)%Z →
  (caching_duration w <= 50 * Z.of_nat fuel)%Z →
  inserted (manager w) = 0%Z →
  deleted (manager w) = 0%Z →
  ∃ w',
    run fuel
      {| thread_collection_name := cname; thread_shard_key := key;
         thread_new_location := new_loc; thread_exception := exc |} w
    = (Ok tt, w') ∧
    database_writes (journal w') = database_writes (journal w) ∧
    servers w' = servers w ∧
    inserted (manager w') = 0%Z ∧
    deleted (manager w') = 0%Z ∧
    phase (manager w') = Some "complete" ∧
    shards_of (realm_name realm) key (shards w')
    = [{| shard_realm := realm_name realm; shard_shard_key := key;
          shard_status := AT_REST; shard_location := new_loc;
          shard_new_location := None |}].
Proof.
  intros reader shard_selector Hrs Hsh Hold Hnew Hsrc Hdst Hes Her Hns
    Hnewest Holdest Hcover Hfuel Hins Hdel.
  destruct (run_phases_settled cname key realm cluster db cluster' db'
              old_loc new_loc (realms w) (servers w) src dst newest oldest
              Hrs Hold Hnew Hsrc Hdst Hes Her Hns Hnewest Holdest
              destination exc fuel w Hsh eq_refl eq_refl Hcover Hfuel)
    as (w1 & Hrun & Hs1 & Hsh1 & Hj1 & Hi1 & Hd1 & Hp1).
  unfold run, try_finally, try_except. rewrite Hrun.
  eexists. split; [reflexivity|].
  cbn. rewrite !database_writes_snoc by done.
  repeat split; try done; congruence.
Qed.

(** ** Replaying twice *)

Lemma same_but_refl target w : same_but target w w.
Proof. repeat split; try done. intros n s s' H1 H2. congruence. Qed.

Lemma same_but_trans target w1 w2 w3 :
  same_but target w1 w2 → same_but target w2 w3 → same_but target w1 w3.
Proof.
  intros (Hr1&Hs1&Hp1&Ho1&Hd1) (Hr2&Hs2&Hp2&Ho2&Hd2). repeat split.
  - congruence.
  - congruence.
  - intros H. by apply Hp1, Hp2.
  - intros H. by apply Hp2, Hp1.
  - intros n s s' H1 H3.
    destruct (proj2 (Hp1 n) (mk_is_Some _ _ H1)) as [s2 H2].
    rewrite (Ho2 n s2 s' H2 H3). by apply (Ho1 n s s2).
  - intros c Hc. rewrite Hd2, Hd1 by done. done.
Qed.

Lemma same_but_journal target w f : same_but target w (with_journal f w).
Proof. repeat split; try done. intros n s s' H1 H2. cbn in H2. congruence. Qed.

Lemma same_but_store target w m oid :
  same_but target w
    (with_servers (alter (pymongo.with_stored target m oid) (coll_client target)) w).
Proof.
  repeat split; try done.
  - cbn. rewrite lookup_alter. intros [s Hs].
    case_decide; [|by eexists].
    destruct (servers w !! coll_client target) eqn:E; [|done].
    subst. rewrite E. by eexists.
  - cbn. rewrite lookup_alter. intros [s Hs].
    case_decide; [|by eexists]. subst. rewrite Hs. by eexists.
  - cbn. intros n s s' H1. rewrite lookup_alter. case_decide.
    + subst. rewrite H1. by intros [= <-].
    + congruence.
  - intros c Hc. unfold documents_in. cbn. rewrite lookup_alter.
    case_decide as Hn; [|done]. rewrite Hn.
    destruct (servers w !! coll_client c) as [s|] eqn:E; [|done].
    cbn. unfold pymongo.stored, pymongo.with_stored. cbn.
    rewrite lookup_insert_ne; [done|].
    intros [= Hdb Hname]. apply Hc.
    destruct c, target; cbn in *; congruence.
Qed.

Lemma documents_in_store target w m oid :
  is_Some (servers w !! coll_client target) →
  documents_in
    (with_servers (alter (pymongo.with_stored target m oid) (coll_client target)) w)
    target = m.
Proof.
  intros [s Hs]. unfold documents_in. cbn.
  rewrite lookup_alter, decide_True, Hs by done. cbn.
  unfold pymongo.stored, pymongo.with_stored. cbn.
  by rewrite lookup_insert_eq.
Qed.

Lemma insert_run c d i w s :
  servers w !! coll_client c = Some s → d !! "_id" = Some i →
  pymongo.insert c d w =
  match pymongo.stored s c !! i with
  | Some _ =>
      (Raise DuplicateKeyError, with_journal (λ j, j ++ [InsertCall c d]) w)
  | None =>
      (Ok tt,
       with_servers
         (alter (pymongo.with_stored c
                   (<[i := delete "_id" d]> (pymongo.stored s c)) (next_oid s))
                (coll_client c))
         (with_journal (λ j, j ++ [InsertCall c d]) w))
  end.
Proof.
  intros Hs Hd. unfold pymongo.insert.
  rewrite run_bind, record_call_run, run_bind, (server_of_run _ _ s) by done.
  unfold pymongo.assign_id. rewrite Hd.
  by destruct (pymongo.stored s c !! i).
Qed.

Lemma remove_filter_by_id i (m : gmap value doc) :
  filter (λ p, pymongo.matches {["_id" := i]} (pymongo.document_of p) = false) m
  = delete i m.
Proof.
  apply map_eq. intros k. rewrite map_lookup_filter.
  destruct (decide (k = i)) as [->|Hk].
  - rewrite lookup_delete_eq. destruct (m !! i) as [body|]; [|done].
    cbn [mbind option_bind].
    rewrite option_guard_False; [done|].
    intros Hm. pose proof (matches_singleton_id i body). congruence.
  - rewrite lookup_delete_ne by done.
    destruct (m !! k) as [body|]; [|done]. cbn [mbind option_bind].
    rewrite option_guard_True; [done|].
    apply not_true_is_false. intros Hm.
    apply (matches_id _ _ i) in Hm; [done | apply lookup_singleton_eq].
Qed.

Lemma remove_by_id c i w s :
  servers w !! coll_client c = Some s →
  pymongo.remove c {["_id" := i]} w
  = (Ok tt,
     with_servers
       (alter (pymongo.with_stored c (delete i (pymongo.stored s c)) (next_oid s))
              (coll_client c))
       (with_journal (λ j, j ++ [RemoveCall c {["_id" := i]}]) w)).
Proof.
  intros Hs. unfold pymongo.remove.
  rewrite run_bind, record_call_run, run_bind, (server_of_run _ _ s) by done.
  by rewrite remove_filter_by_id.
Qed.

Ltac unchanged Hdt :=
  cbn [fmap list_fmap fetch_one head truthy];
  rewrite ?run_bind; unfold raise; rewrite ?run_ret; cbn [fst snd];
  split; [done|split; [exact Hdt|apply same_but_refl]].

Lemma replay_view entry sel source target w :
  source ≠ target →
  is_Some (servers w !! coll_client source) →
  is_Some (servers w !! coll_client target) →
  (replay_oplog_entry entry sel source target w).1 = entry_outcome entry ∧
  documents_in (replay_oplog_entry entry sel source target w).2 target
  = replayed sel (documents_in w source) entry (documents_in w target) ∧
  same_but target w (replay_oplog_entry entry sel source target w).2.
Proof.
  intros Hne [src Hsrc] [dst Hdst].
  assert (Hds : documents_in w source = pymongo.stored src source)
    by (unfold documents_in; by rewrite Hsrc).
  assert (Hdt : documents_in w target = pymongo.stored dst target)
    by (unfold documents_in; by rewrite Hdst).
  unfold replay_oplog_entry, replayed, entry_outcome. rewrite Hds.
  rewrite Hdt.
  destruct (decide (op entry = "i")) as [Hi|Hni].
  { rewrite !bool_decide_eq_true_2 by done. cbn [orb].
    destruct (o entry !! "_id") as [i|] eqn:Ho; cbn [subscript].
    2: { unchanged Hdt. }
    rewrite run_bind, run_ret, run_bind, (find_run _ _ _ _ Hsrc).
    rewrite (truthy_find _ i) by apply merge_selector_id.
    fold (id_query sel i).
    destruct (selected _ _ _).
    2: { unchanged Hdt. }
    unfold try_except. rewrite (insert_run _ _ i _ dst) by done.
    destruct (pymongo.stored dst target !! i) as [body|] eqn:Ht.
    - cbn [is_DuplicateKeyError]. rewrite run_ret. cbn [fst snd].
      split; [done|split; [exact Hdt|apply same_but_journal]].
    - cbn [fst snd]. split; [done|]. split.
      + apply documents_in_store. cbn. by rewrite Hdst.
      + eapply same_but_trans; [apply same_but_journal | apply same_but_store]. }
  rewrite (bool_decide_eq_false_2 (op entry = "i")) by done. cbn [orb].
  destruct (decide (op entry = "u")) as [Hu|Hnu].
  { rewrite !bool_decide_eq_true_2 by done.
    rewrite (bool_decide_eq_false_2 (op entry = "d")) by congruence.
    destruct (o2 entry) as [selector|] eqn:Ho2; cbn [subscript mbind option_bind].
    2: { unchanged Hdt. }
    rewrite run_bind, run_ret.
    destruct (selector !! "_id") as [i|] eqn:Hsel; cbn [subscript].
    2: { unchanged Hdt. }
    rewrite run_bind, run_ret, run_bind, (find_run _ _ _ _ Hsrc).
    rewrite (scan_by_id _ _ i) by apply merge_selector_id.
    fold (id_query sel i).
    destruct (pymongo.stored src source !! i) as [body|] eqn:Hs.
    2: { unchanged Hdt. }
    destruct (pymongo.matches _ _).
    2: { unchanged Hdt. }
    cbn [fmap list_fmap fetch_one head truthy andb].
    rewrite bool_decide_eq_true_2 by apply insert_non_empty.
    destruct (decide (pymongo.document_of (i, body) = o entry)) as [Hsame|Hdiff].
    - rewrite (bool_decide_eq_false_2 (Some _ ≠ Some _))
        by (rewrite Hsame; auto).
      rewrite (bool_decide_eq_false_2 (_ ≠ o entry)) by auto.
      unchanged Hdt.
    - rewrite (bool_decide_eq_true_2 (Some _ ≠ Some _)) by congruence.
      rewrite (bool_decide_eq_true_2 (_ ≠ o entry)) by done.
      cbn [mbind option_bind]. rewrite document_of_id. cbn [fst].
      rewrite run_bind. cbn [subscript]. rewrite run_ret. cbn [default].
      rewrite (update_by_id _ _ _ _ dst) by (done || apply document_of_id).
      cbn [fst snd]. split; [done|]. split.
      + apply documents_in_store. cbn. by rewrite Hdst.
      + eapply same_but_trans; [apply same_but_journal | apply same_but_store]. }
  rewrite (bool_decide_eq_false_2 (op entry = "u")) by done.
  destruct (decide (op entry = "d")) as [Hd|Hnd].
  { rewrite !bool_decide_eq_true_2 by done.
    destruct (o entry !! "_id") as [i|] eqn:Ho; cbn [subscript].
    2: { unchanged Hdt. }
    rewrite run_bind, run_ret, run_bind, (find_run _ _ _ _ Hdst).
    rewrite (truthy_find _ i) by apply merge_selector_id.
    fold (id_query sel i).
    destruct (selected _ _ _).
    2: { unchanged Hdt. }
    rewrite (remove_by_id _ _ _ dst) by done.
    cbn [fst snd]. split; [done|]. split.
    - apply documents_in_store. cbn. by rewrite Hdst.
    - eapply same_but_trans; [apply same_but_journal | apply same_but_store]. }
  rewrite !bool_decide_eq_false_2 by done.
  unchanged Hdt.
Qed.

Section Shapes.
Variables (sel : doc) (k : value).

Lemma act_all_app l1 l2 x :
  act_all sel k (l1 ++ l2) x = act_all sel k l2 (act_all sel k l1 x).
Proof. apply foldl_app. Qed.

Lemma found_or_none (f : shape → bool) l :
  Exists (λ s, f s = true) l ∨ Forall (λ s, f s = false) l.
Proof.
  induction l as [|s l [IH|IH]]; [right; constructor | left; by right |].
  destruct (f s) eqn:Hs; [left; by left | right; by constructor].
Qed.

Lemma last_found (f : shape → bool) l :
  Exists (λ s, f s = true) l →
  ∃ l1 s l2, l = l1 ++ s :: l2 ∧ f s = true ∧
             Forall (λ s, f s = false) l2.
Proof.
  induction l as [|s l IH]; intros Hex; [by inversion Hex|].
  destruct (found_or_none f l) as [Hl|Hl].
  - destruct (IH Hl) as (l1 & s' & l2 & -> & Hs & Hl2).
    by exists (s :: l1), s', l2.
  - inversion Hex as [?? Hs|?? Hl']; subst; [by exists [], s, l|].
    exfalso. apply Exists_exists in Hl' as (s' & Hin & Hs').
    rewrite list.Forall_forall in Hl. rewrite (Hl s' Hin) in Hs'. done.
Qed.

Lemma clear_twice x :
  act sel k Clear (act sel k Clear x) = act sel k Clear x.
Proof.
  destruct x as [b|]; cbn; [|done].
  destruct (in_shard sel k b) eqn:Hb; cbn; by rewrite ?Hb.
Qed.

Lemma clear_Some y b :
  act sel k Clear y = Some b → y = Some b ∧ in_shard sel k b = false.
Proof.
  destruct y as [b'|]; cbn; [|done].
  destruct (in_shard sel k b') eqn:Hb; [done|]. by intros [= <-].
Qed.

(** A list with an overwrite forgets what was stored. *)
Lemma overwritten l x y :
  Exists (λ s, overwrites s = true) l → act_all sel k l x = act_all sel k l y.
Proof.
  intros (s & Hin & Hs)%Exists_exists.
  apply list_elem_of_split in Hin as (l1 & l2 & ->).
  rewrite !act_all_app. unfold act_all. cbn [foldl]. by destruct s.
Qed.

(** Without an overwrite, another shard's document stays. *)
Lemma outside_stays l b :
  Forall (λ s, overwrites s = false) l → in_shard sel k b = false →
  act_all sel k l (Some b) = Some b.
Proof.
  unfold act_all.
  induction 1 as [|s l Hs _ IH]; intros Hb; [done|]. cbn [foldl].
  destruct s; cbn [act]; rewrite ?Hb; try done; by apply IH.
Qed.

(** Inserts alone leave a stored document alone... *)
Lemma filled_stays l b :
  Forall (λ s, overwrites s = false) l → Forall (λ s, clears s = false) l →
  act_all sel k l (Some b) = Some b.
Proof.
  unfold act_all.
  induction 1 as [|s l Hs _ IH]; intros Hl; [done|].
  inversion_clear Hl as [|?? Hs' Hl']. cbn [foldl].
  destruct s; cbn [act]; try done; by apply IH.
Qed.

(** ... and store one where there was none. *)
Lemma filled_from_none l :
  Forall (λ s, overwrites s = false) l → Forall (λ s, clears s = false) l →
  Exists (λ s, fills s = true) l →
  ∃ q, act_all sel k l None = Some q.
Proof.
  induction l as [|s l IH]; intros Ho Hc Hf; [by inversion Hf|].
  inversion_clear Ho as [|?? Hs Ho']. inversion_clear Hc as [|?? Hs' Hc'].
  destruct s; try done.
  - inversion_clear Hf as [?? Hs''|?? Hf']; [done|]. by apply IH.
  - exists b. by apply filled_stays.
Qed.

Lemma fills_idempotent l x :
  Forall (λ s, overwrites s = false) l → Forall (λ s, clears s = false) l →
  act_all sel k l (act_all sel k l x) = act_all sel k l x.
Proof.
  intros Ho Hc. destruct x as [b|]; [by rewrite !filled_stays|].
  destruct (act_all sel k l None) as [q|] eqn:Hq; [by apply filled_stays|done].
Qed.

(** Deletes alone act as one delete, or as none. *)
Lemma cleared_or_kept l : ∀ x,
  Forall (λ s, overwrites s = false) l → Forall (λ s, fills s = false) l →
  act_all sel k l x = x ∨ act_all sel k l x = act sel k Clear x.
Proof.
  unfold act_all.
  induction l as [|s l IH]; intros x Ho Hf; [by left|].
  inversion_clear Ho as [|?? Hs Ho']. inversion_clear Hf as [|?? Hs' Hf'].
  cbn [foldl]. destruct s; try done.
  - by apply IH.
  - right. destruct (IH (act sel k Clear x) Ho' Hf') as [->| ->]; [done|].
    apply clear_twice.
Qed.

Lemma clear_fixed l y :
  Forall (λ s, overwrites s = false) l → Forall (λ s, fills s = false) l →
  act sel k Clear y = y → act_all sel k l y = y.
Proof.
  unfold act_all.
  induction l as [|s l IH]; intros Ho Hf Hy; [done|].
  inversion_clear Ho as [|?? Hs Ho']. inversion_clear Hf as [|?? Hs' Hf'].
  cbn [foldl]. destruct s; try done.
  - by apply IH.
  - rewrite Hy. by apply IH.
Qed.

Lemma clears_idempotent l x :
  Forall (λ s, overwrites s = false) l → Forall (λ s, fills s = false) l →
  act_all sel k l (act_all sel k l x) = act_all sel k l x.
Proof.
  intros Ho Hf. destruct (cleared_or_kept l x Ho Hf) as [Hx|Hx]; rewrite Hx.
  - exact Hx.
  - apply clear_fixed; [done..|]. apply clear_twice.
Qed.

(** Without an overwrite, what a delete finds after the list does not
    depend on which document of the shard was stored before it. *)
Lemma cleared_alike l : ∀ x b,
  Forall (λ s, overwrites s = false) l → in_shard sel k b = true →
  act sel k Clear (act_all sel k l x) = None →
  act sel k Clear (act_all sel k l (Some b)) = None.
Proof.
  induction l as [|s l IH]; intros x b Ho Hb Hx.
  { cbn. by rewrite Hb. }
  inversion_clear Ho as [|?? Hs Ho'].
  change (act_all sel k (s :: l) x)
    with (act_all sel k l (act sel k s x)) in Hx.
  change (act_all sel k (s :: l) (Some b))
    with (act_all sel k l (act sel k s (Some b))).
  destruct s as [|p| |c]; try done.
  - by apply (IH x).
  - cbn [act]. destruct x as [stored|]; by eapply IH.
  - cbn [act] in *. rewrite Hb.
    destruct x as [stored|]; [|done].
    destruct (in_shard sel k stored) eqn:Hstored; [done|].
    rewrite outside_stays in Hx by done. cbn in Hx.
    by rewrite Hstored in Hx.
Qed.

(** A list whose last delete is followed by an insert. *)
Lemma refilled_idempotent l1 s l2 x :
  Forall (λ s, overwrites s = false) (l1 ++ s :: l2) →
  clears s = true → Forall (λ s, clears s = false) l2 →
  Exists (λ s, fills s = true) l2 →
  act_all sel k (l1 ++ s :: l2) (act_all sel k (l1 ++ s :: l2) x)
  = act_all sel k (l1 ++ s :: l2) x.
Proof.
  intros Ho Hs Hc Hf. pose proof Ho as Hall.
  apply Forall_app in Ho as [Ho1 Ho2].
  inversion_clear Ho2 as [|?? _ Ho2'].
  destruct s; try done.
  destruct (filled_from_none l2 Ho2' Hc Hf) as [q Hq].
  assert (Hrun : ∀ y, act_all sel k (l1 ++ Clear :: l2) y
                      = act_all sel k l2
                          (act sel k Clear (act_all sel k l1 y)))
    by (intros y; by rewrite act_all_app).
  rewrite (Hrun x).
  destruct (act sel k Clear (act_all sel k l1 x)) as [b|] eqn:Hx.
  - apply clear_Some in Hx as [_ Hb].
    rewrite filled_stays by done. by apply outside_stays.
  - rewrite Hq. destruct (in_shard sel k q) eqn:Hin.
    + rewrite Hrun, (cleared_alike l1 x q) by done. done.
    + by apply outside_stays.
Qed.

(** A list is idempotent if, whenever it has an insert, each of its
    deletes is followed by one. *)
Lemma act_all_idempotent l x :
  (Exists (λ s, fills s = true) l →
   ∀ l1 s l2, l = l1 ++ s :: l2 → clears s = true →
              Exists (λ s, fills s = true) l2) →
  act_all sel k l (act_all sel k l x) = act_all sel k l x.
Proof.
  intros Hrefilled.
  destruct (found_or_none overwrites l) as [Ho|Ho]; [by apply overwritten|].
  destruct (found_or_none fills l) as [Hf|Hf]; [|by apply clears_idempotent].
  destruct (found_or_none clears l) as [Hc|Hc]; [|by apply fills_idempotent].
  destruct (last_found clears l Hc) as (l1 & s & l2 & -> & Hs & Hl2).
  apply refilled_idempotent; try done. by apply (Hrefilled Hf l1 s l2).
Qed.
End Shapes.

Lemma replayed_lookup sel source entry target k :
  replayed sel source entry target !! k
  = act sel k (shape_of sel source entry k) (target !! k).
Proof.
  unfold replayed, shape_of.
  destruct (decide (op entry = "i")) as [Hi|Hni].
  { rewrite !bool_decide_eq_true_2 by done.
    destruct (o entry !! "_id") as [i|] eqn:Ho.
    2: { by rewrite bool_decide_eq_false_2. }
    destruct (decide (i = k)) as [->|Hik].
    - rewrite bool_decide_eq_true_2 by done. cbn [andb].
      destruct (selected _ _ _); [|done].
      destruct (target !! k) eqn:Ht; cbn; [by rewrite Ht|].
      by rewrite lookup_insert_eq.
    - rewrite bool_decide_eq_false_2 by congruence. cbn.
      destruct (selected _ _ _); [|done].
      destruct (target !! i); [done|]. by rewrite lookup_insert_ne. }
  rewrite !(bool_decide_eq_false_2 (op entry = "i")) by done.
  destruct (decide (op entry = "u")) as [Hu|Hnu].
  { rewrite !bool_decide_eq_true_2 by done.
    destruct (o2 entry ≫= lookup "_id") as [i|] eqn:Ho.
    2: { by rewrite bool_decide_eq_false_2. }
    destruct (decide (i = k)) as [->|Hik].
    - rewrite bool_decide_eq_true_2 by done.
      destruct (source !! k) as [body|]; [|done]. unfold in_shard.
      destruct (_ && _); [|done]. cbn. by rewrite lookup_insert_eq.
    - rewrite bool_decide_eq_false_2 by congruence. cbn.
      destruct (source !! i) as [body|]; [|done].
      destruct (_ && _); [|done]. by rewrite lookup_insert_ne. }
  rewrite !(bool_decide_eq_false_2 (op entry = "u")) by done.
  destruct (decide (op entry = "d")) as [Hd|Hnd].
  { rewrite !bool_decide_eq_true_2 by done.
    destruct (o entry !! "_id") as [i|] eqn:Ho.
    2: { by rewrite bool_decide_eq_false_2. }
    destruct (decide (i = k)) as [->|Hik].
    - rewrite bool_decide_eq_true_2 by done. cbn. unfold selected, in_shard.
      destruct (target !! k) as [body|] eqn:Ht; [|by rewrite Ht].
      destruct (pymongo.matches _ _); [|by rewrite Ht].
      by rewrite lookup_delete_eq.
    - rewrite bool_decide_eq_false_2 by congruence. cbn.
      destruct (selected _ _ _); [|done]. by rewrite lookup_delete_ne. }
  by rewrite !bool_decide_eq_false_2.
Qed.

(** Replaying any one entry twice is replaying it once. *)
Lemma replayed_twice sel source entry target :
  replayed sel source entry (replayed sel source entry target)
  = replayed sel source entry target.
Proof.
  unfold replayed.
  repeat case_bool_decide; try done.
  - destruct (o entry !! "_id") as [i|]; [|done].
    destruct (selected _ _ source); [|done].
    destruct (target !! i) as [body|] eqn:Ht; [by rewrite Ht|].
    by rewrite lookup_insert_eq.
  - destruct (o2 entry ≫= lookup "_id") as [i|]; [|done].
    destruct (source !! i) as [body|]; [|done].
    destruct (_ && _); [|done]. by rewrite insert_insert_eq.
  - destruct (o entry !! "_id") as [i|]; [|done].
    destruct (selected _ _ target) eqn:Hsel; [|by rewrite Hsel].
    unfold selected at 1. by rewrite lookup_delete_eq.
Qed.

Lemma replayed_all_lookup sel source k cursor : ∀ target,
  replayed_all sel source cursor target !! k
  = act_all sel k ((λ entry, shape_of sel source entry k) <$> cursor)
      (target !! k).
Proof.
  unfold replayed_all, act_all.
  induction cursor as [|entry cursor IH]; intros target; [done|].
  cbn [foldl fmap list_fmap]. by rewrite IH, replayed_lookup.
Qed.

(** ** Logs of writes *)

Lemma written_delete entry before after k :
  written entry before after → op entry = "d" → o entry !! "_id" = Some k →
  after !! k = None.
Proof.
  unfold written. intros Hw Hd Hk.
  rewrite (bool_decide_eq_false_2 (op entry = "i")),
    (bool_decide_eq_false_2 (op entry = "u")),
    (bool_decide_eq_true_2 (op entry = "d")) in Hw by congruence.
  destruct Hw as (i & Hi & ->). rewrite Hk in Hi. injection Hi as <-.
  apply lookup_delete_eq.
Qed.

(** Only an insert makes a missing document appear. *)
Lemma written_absent entry before after k :
  written entry before after → before !! k = None → is_Some (after !! k) →
  op entry = "i" ∧ o entry !! "_id" = Some k.
Proof.
  unfold written. intros Hw Hnone Hsome.
  case_bool_decide as Hi.
  { destruct Hw as (i & Hid & ->). split; [done|].
    destruct (decide (i = k)) as [->|Hne]; [done|].
    rewrite lookup_insert_ne, Hnone in Hsome by done.
    by destruct Hsome. }
  exfalso. case_bool_decide as Hu.
  { destruct Hw as (i & f & _ & ->). rewrite lookup_alter in Hsome.
    case_decide; subst; rewrite Hnone in Hsome; by destruct Hsome. }
  case_bool_decide as Hd.
  { destruct Hw as (i & _ & ->).
    destruct (decide (i = k)) as [->|Hne].
    - rewrite lookup_delete_eq in Hsome. by destruct Hsome.
    - rewrite lookup_delete_ne, Hnone in Hsome by done. by destruct Hsome. }
  subst. rewrite Hnone in Hsome. by destruct Hsome.
Qed.

Lemma history_app l1 : ∀ before l2 after,
  history before (l1 ++ l2) after →
  ∃ mid, history before l1 mid ∧ history mid l2 after.
Proof.
  induction l1 as [|entry l1 IH]; intros before l2 after; cbn.
  - intros H. by exists before.
  - intros (m & Hw & Hrest). apply IH in Hrest as (mid & H1 & H2).
    exists mid. split; [by exists m | done].
Qed.

(** A document that was missing and is there at the end was inserted. *)
Lemma inserted_again log : ∀ before after k,
  history before log after → before !! k = None → is_Some (after !! k) →
  Exists (λ entry, op entry = "i" ∧ o entry !! "_id" = Some k) log.
Proof.
  induction log as [|entry log IH]; intros before after k; cbn.
  - intros -> Hnone Hsome. rewrite Hnone in Hsome. by destruct Hsome.
  - intros (mid & Hw & Hrest) Hnone Hsome.
    destruct (mid !! k) as [body|] eqn:Hmid.
    + left. by apply (written_absent _ before mid k).
    + right. by apply (IH mid after k).
Qed.

Lemma shape_of_fills sel source entry k :
  fills (shape_of sel source entry k) = true →
  selected (id_query sel k) k source = true.
Proof.
  unfold shape_of. repeat case_bool_decide; try done.
  - by destruct (selected _ _ _).
  - destruct (source !! k); [|done]. by destruct (_ && _).
Qed.

Lemma shape_of_clears sel source entry k :
  clears (shape_of sel source entry k) = true →
  op entry = "d" ∧ o entry !! "_id" = Some k.
Proof.
  unfold shape_of. repeat case_bool_decide; try done.
  - by destruct (selected _ _ _).
  - destruct (source !! k); [|done]. by destruct (_ && _).
Qed.

Lemma shape_of_insert sel source entry k :
  op entry = "i" → o entry !! "_id" = Some k →
  selected (id_query sel k) k source = true →
  fills (shape_of sel source entry k) = true.
Proof.
  intros Hi Hk Hsel. unfold shape_of.
  by rewrite !bool_decide_eq_true_2, Hsel by done.
Qed.

(** In the log of the writes that made the source's documents, a delete of
    a document the source holds is followed by an insert of it. *)
Lemma history_refilled sel source k cursor before :
  history before cursor source →
  let l := (λ entry, shape_of sel source entry k) <$> cursor in
  Exists (λ s, fills s = true) l →
  ∀ l1 s l2, l = l1 ++ s :: l2 → clears s = true →
             Exists (λ s, fills s = true) l2.
Proof.
  intros Hhistory l Hfill l1 s l2 Hl Hs. subst l.
  apply Exists_fmap, Exists_exists in Hfill as (e0 & _ & Hsel).
  apply shape_of_fills in Hsel.
  assert (Hheld : is_Some (source !! k)).
  { unfold selected in Hsel. destruct (source !! k); [by eexists|done]. }
  apply fmap_app_inv in Hl as (c1 & c & -> & Hc & ->).
  symmetry in Hc. apply fmap_cons_inv in Hc as (entry & c2 & -> & -> & ->).
  apply shape_of_clears in Hs as [Hd Hk].
  apply history_app in Hhistory as (m1 & _ & m2 & Hw & Hrest).
  pose proof (written_delete _ _ _ k Hw Hd Hk) as Hgone.
  apply Exists_fmap.
  eapply Exists_impl; [by apply (inserted_again c2 m2 source k)|].
  intros e [Hi He]. by apply shape_of_insert.
Qed.

(** Replaying the log of the source's writes twice is replaying it once. *)
Lemma replayed_all_twice sel source cursor target :
  (∃ before, history before cursor source) →
  replayed_all sel source cursor (replayed_all sel source cursor target)
  = replayed_all sel source cursor target.
Proof.
  intros [before Hhistory]. apply map_eq. intros k.
  rewrite !replayed_all_lookup. apply act_all_idempotent.
  by apply (history_refilled sel source k cursor before).
Qed.

Lemma replay_entries_view sel source target cursor : ∀ pos w p w',
  source ≠ target →
  is_Some (servers w !! coll_client source) →
  is_Some (servers w !! coll_client target) →
  replay_entries sel source target cursor pos w = (Ok p, w') →
  documents_in w' target
  = replayed_all sel (documents_in w source) cursor (documents_in w target) ∧
  same_but target w w' ∧
  Forall (λ entry, entry_outcome entry = Ok tt) cursor ∧
  p = final_pos pos cursor.
Proof.
  induction cursor as [|entry cursor IH]; intros pos w p w' Hne Hsrc Hdst;
    cbn [replay_entries].
  - intros [= <- <-].
    split; [done|split; [apply same_but_refl|split; [constructor|done]]].
  - rewrite run_bind.
    destruct (replay_view entry sel source target w Hne Hsrc Hdst)
      as (Hout & Hdocs & Hsame).
    destruct (replay_oplog_entry entry sel source target w) as [[[]|e|] w1];
      [|done..].
    cbn [fst snd] in *. intros Hrest.
    pose proof Hsame as (_&_&Hpresent&_&Hother).
    apply IH in Hrest as (Hdocs' & Hsame' & Hall & ->);
      [|done|by apply Hpresent..].
    rewrite Hother in Hdocs' by done. rewrite Hdocs in Hdocs'.
    split; [done|split; [by eapply same_but_trans|split; [by constructor|done]]].
Qed.

Lemma replay_entries_total sel source target cursor : ∀ pos w,
  source ≠ target →
  is_Some (servers w !! coll_client source) →
  is_Some (servers w !! coll_client target) →
  Forall (λ entry, entry_outcome entry = Ok tt) cursor →
  (replay_entries sel source target cursor pos w).1
  = Ok (final_pos pos cursor).
Proof.
  induction cursor as [|entry cursor IH]; intros pos w Hne Hsrc Hdst Hall;
    cbn [replay_entries]; [done|].
  inversion_clear Hall as [|? ? Hentry Hall'].
  rewrite run_bind.
  destruct (replay_view entry sel source target w Hne Hsrc Hdst)
    as (Hout & _ & (_&_&Hpresent&_)).
  destruct (replay_oplog_entry entry sel source target w) as [[[]|e|] w1];
    cbn [fst] in Hout; [|congruence..].
  apply IH; [done| by apply Hpresent..|done].
Qed.

Lemma documents_in_journal w f c :
  documents_in (with_journal f w) c = documents_in w c.
Proof. reflexivity. Qed.

(** C8: replaying one entry a second time leaves the destination's
    documents as the first replay left them; and a second sync from the
    same [ts0] returns the same position and leaves the destination's
    documents as the first sync left them, whatever documents the source
    and the destination hold.  The oplog is the source's own: the entries
    the sync tails are the log of the writes that made the source's
    documents of some earlier ones ([history]). *)
Theorem sync_twice_is_sync_once :
  (∀ entry shard_selector source target w,
     source ≠ target →
     is_Some (servers w !! coll_client source) →
     is_Some (servers w !! coll_client target) →
     let w1 := (replay_oplog_entry entry shard_selector source target w).2 in
     let w2 := (replay_oplog_entry entry shard_selector source target w1).2 in
     documents_in w2 target = documents_in w1 target) ∧
  (∀ cname key ts0 w w1 pos1 realm shard_metadata cluster db cluster' db'
     new_loc src,
     let source := {| coll_client := Primary cluster; coll_database := db;
                      coll_name := cname |} in
     let target := {| coll_client := Primary cluster'; coll_database := db';
                      coll_name := cname |} in
     let shard_selector : doc := {[realm_shard_field realm := key]} in
     head (filter (λ r, realm_collection r = cname) (realms w)) = Some realm →
     shards_of (realm_name realm) key (shards w) = [shard_metadata] →
     connection.split_location (shard_location shard_metadata)
       = Some (cluster, db) →
     shard_new_location shard_metadata = Some new_loc →
     connection.split_location new_loc = Some (cluster', db') →
     source ≠ target →
     servers w !! Primary cluster = Some src →
     is_Some (servers w !! Primary cluster') →
     (∃ before,
        history before
          (filter (λ entry, (ts entry >= ts0)%Z ∧
                            ns entry = namespace source) (oplog_rs src))
          (documents_in w source)) →
     _sync_from_oplog cname key ts0 w = (Ok pos1, w1) →
     ∃ w2, _sync_from_oplog cname key ts0 w1 = (Ok pos1, w2) ∧
           documents_in w2 target = documents_in w1 target).
Proof.
  split.
  - intros entry sel source target w Hne Hsrc Hdst w1 w2. subst w1 w2.
    destruct (replay_view entry sel source target w Hne Hsrc Hdst)
      as (_ & Hdocs1 & (_&_&Hpresent&_&Hother)).
    destruct (replay_view entry sel source target
                (replay_oplog_entry entry sel source target w).2 Hne)
      as (_ & Hdocs2 & _); [by apply Hpresent..|].
    rewrite Hdocs2, (Hother source Hne), Hdocs1. apply replayed_twice.
  - intros cname key ts0 w w1 pos1 realm sm cluster db cluster' db' new_loc src
      source target sel Hrealm Hshard Hold Hnl Hnew Hne Hsrc Hdst Hhistory.
    rewrite (sync_from_oplog_resolved cname key ts0 w realm sm source new_loc
               target src)
      by (done || by apply get_realm_run || by apply get_shard_run
          || by apply location_run).
    destruct (head (oplog_rs src)) as [oldest|] eqn:Hhead; [|done].
    case_bool_decide as Hpos; [|done].
    unfold try_finally. fold sel.
    set (cursor := filter _ (oplog_rs src)).
    destruct (replay_entries sel source target cursor ts0 w)
      as [[p|e|] wr] eqn:Hreplay; rewrite ?record_call_run;
      [|by intros [=]..].
    intros [= <- <-].
    apply replay_entries_view in Hreplay
      as (Hdocs & Hsame & Hall & ->); [|done|by eexists|done].
    pose proof Hsame as (Hrealms & Hshards & Hpresent & Hoplog & Hother).
    destruct (proj2 (Hpresent (Primary cluster)) (mk_is_Some _ _ Hsrc))
      as [src1 Hsrc1].
    pose proof (Hoplog _ _ _ Hsrc Hsrc1) as Hsame_oplog.
    set (w1 := with_journal (λ j, j ++ [CursorClose]) wr).
    rewrite (sync_from_oplog_resolved cname key ts0 w1 realm sm source new_loc
               target src1);
      [ | apply get_realm_run; cbn; by rewrite Hrealms
        | apply get_shard_run; cbn; by rewrite Hshards
        | by apply location_run | done | by apply location_run | done ].
    rewrite Hsame_oplog, Hhead, bool_decide_eq_true_2 by done.
    unfold try_finally. fold sel. fold cursor.
    pose proof (replay_entries_total sel source target cursor ts0 w1 Hne)
      as Htotal.
    destruct (replay_entries sel source target cursor ts0 w1)
      as [[p2|e2|] wr2] eqn:Hreplay2;
      cbn [fst] in Htotal;
      try (specialize (Htotal ltac:(cbn; by eexists)
                         ltac:(cbn; by apply Hpresent) Hall); congruence).
    specialize (Htotal ltac:(cbn; by eexists)
                  ltac:(cbn; by apply Hpresent) Hall).
    injection Htotal as ->.
    rewrite record_call_run. eexists. split; [reflexivity|].
    apply replay_entries_view in Hreplay2 as (Hdocs2 & _);
      [|done|cbn; by eexists|cbn; by apply Hpresent].
    rewrite !documents_in_journal. rewrite Hdocs2.
    unfold w1. rewrite !documents_in_journal.
    rewrite (Hother source Hne), Hdocs.
    by apply replayed_all_twice.
Qed.

(** The log has to be the source's.  The oplog of [stray_insert_world]
    ends with the delete of document 1, which the source holds: the insert
    that put it back is missing, so this is the log of no sequence of
    writes.  There, after the copy, the first sync from position 5 deletes
    the copied document and the second one stores the first insert's
    payload, which the delete, looking for tenant 7, leaves in place. *)
Lemma sync_of_a_log_without_the_last_insert :
  let copied := _do_copy "users" (VInt 7) stray_insert_world in
  let first := _sync_from_oplog "users" (VInt 7) 5 copied.2 in
  let second := _sync_from_oplog "users" (VInt 7) 5 first.2 in
  (copied.1 = Ok tt ∧
   documents_in copied.2 users_at_B = {[VInt 1 := {["tenant_id" := VInt 7]}]}) ∧
  first.1 = Ok 6%Z ∧ second.1 = Ok 6%Z ∧
  documents_in first.2 users_at_B = ∅ ∧
  documents_in second.2 users_at_B = {[VInt 1 := {["tenant_id" := VInt 8]}]} ∧
  (∀ before,
     ¬ history before
         [entry_of 5 "i" {["_id" := VInt 1; "tenant_id" := VInt 8]} None;
          entry_of 6 "d" {["_id" := VInt 1]} None]
         (documents_in stray_insert_world users_at_A)).
Proof.
  split; [by vm_compute|]. split; [by vm_compute|].
  split; [by vm_compute|]. split; [by vm_compute|].
  split; [by vm_compute|].
  intros before (m1 & _ & m2 & Hd & Hlast). cbn in Hlast. subst m2.
  apply (written_delete _ _ _ (VInt 1)) in Hd; [|done..].
  by vm_compute in Hd.
Qed.

(** ** The scenarios, run *)

Lemma wrong_status_raises_witness :
  _do_copy "users" (VInt 7) empty_shard_world
  = (Raise (Exception "Shard not in copy state (phase 1)"), empty_shard_world) ∧
  ∀ use_hidden_secondary,
    _delete_source_data "users" (VInt 7) use_hidden_secondary empty_shard_world
    = (Raise (Exception "Shard not in delete state"), empty_shard_world).
Proof.
  destruct (wrong_status_raises_before_any_write "users" (VInt 7)
              empty_shard_world users_realm
              {| shard_realm := "users"; shard_shard_key := VInt 7;
                 shard_status := AT_REST; shard_location := "A/appdb";
                 shard_new_location := None |}
              eq_refl eq_refl) as [Hcopy Hdelete].
  split; [apply Hcopy | apply Hdelete]; discriminate.
Defined.

Lemma batch_size_read_witness :
  size_reads (λ _, 2%Z) [1; 2; 3]%nat = 3%nat ∧
  (Z.of_nat 1 < 2)%Z ∧ (Z.of_nat 2 >= 2)%Z.
Proof.
  destruct (batch_size_read_after_every_record (λ _, 2%Z) [1; 2; 3]%nat)
    as [Hreads Hshape].
  split; [exact Hreads|].
  destruct (Hshape 0%nat [1; 2]%nat eq_refl) as [Hbefore Hfull].
  split; [apply (Hbefore 1%nat); cbn; lia | apply Hfull].
  vm_compute. repeat constructor.
Defined.

Lemma oplog_window_check_witness :
  (_sync_from_oplog "users" (VInt 7) 4 update_world).1 = Raise window_missed ∧
  _sync_from_oplog "users" (VInt 7) 4 update_world
  = (Raise window_missed, update_world).
Proof.
  destruct (oplog_window_check "users" (VInt 7) 4 update_world users_realm
              {| shard_realm := "users"; shard_shard_key := VInt 7;
                 shard_status := MIGRATING_SYNC; shard_location := "A/appdb";
                 shard_new_location := Some "B/appdb" |}
              users_at_A users_at_B "B/appdb"
              (server_with
                 {[VInt 1 := {["tenant_id" := VInt 7; "v" := VStr "c"]}]}
                 [noise_entry; update_entry])
              noise_entry [update_entry]
              eq_refl eq_refl eq_refl eq_refl eq_refl eq_refl eq_refl)
    as (Hiff & Hmissed & _).
  split; [apply Hiff; cbn; lia | apply Hmissed; cbn; lia].
Defined.


Lemma update_entry_replay_witness :
  replay_oplog_entry update_entry {["tenant_id" := VInt 7]} users_at_A
    users_at_B update_world
  = (Ok tt,
     with_servers
       (alter (pymongo.with_stored users_at_B
                 {[VInt 1 := {["tenant_id" := VInt 7; "v" := VStr "c"]}]} 0)
              (Primary "B"))
       (with_journal
          (λ j, j ++ [UpdateCall users_at_B {["_id" := VInt 1]}
                        {["_id" := VInt 1; "tenant_id" := VInt 7;
                          "v" := VStr "c"]} true])
          update_world)).
Proof.
  rewrite (update_entry_replays_current_source_document update_entry
             {["tenant_id" := VInt 7]} users_at_A users_at_B update_world
             {["_id" := VInt 1]} (VInt 1)
             (server_with
                {[VInt 1 := {["tenant_id" := VInt 7; "v" := VStr "c"]}]}
                [noise_entry; update_entry])
             (server_with
                {[VInt 1 := {["tenant_id" := VInt 7; "v" := VStr "a"]}]} [])
             eq_refl eq_refl eq_refl eq_refl eq_refl).
  by vm_compute.
Defined.

Lemma copy_bulk_upserts_witness :
  bulk_writes (journal (_do_copy "users" (VInt 7) copy_world).2)
  = [(users_at_B,
      [{| op_filter := {["_id" := VInt 3]};
          op_set := {["tenant_id" := VInt 7; "v" := VStr "c"]};
          op_upsert := true |};
       {| op_filter := {["_id" := VInt 2]};
          op_set := {["tenant_id" := VInt 7; "v" := VStr "b"]};
          op_upsert := true |}], true);
     (users_at_B,
      [{| op_filter := {["_id" := VInt 1]};
          op_set := {["tenant_id" := VInt 7; "v" := VStr "a"]};
          op_upsert := true |}], true)].
Proof.
  rewrite (copy_issues_one_ordered_bulk_upsert_per_batch "users" (VInt 7)
             copy_world (_do_copy "users" (VInt 7) copy_world).2 users_realm
             {| shard_realm := "users"; shard_shard_key := VInt 7;
                shard_status := MIGRATING_COPY; shard_location := "A/appdb";
                shard_new_location := Some "B/appdb" |}
             users_at_A users_at_B "B/appdb"
             (server_with
                {[VInt 1 := {["tenant_id" := VInt 7; "v" := VStr "a"]};
                  VInt 2 := {["tenant_id" := VInt 7; "v" := VStr "b"]};
                  VInt 3 := {["tenant_id" := VInt 7; "v" := VStr "c"]}]}
                [noise_entry])
             (server_with ∅ [])
             eq_refl eq_refl eq_refl eq_refl eq_refl eq_refl eq_refl
             ltac:(discriminate) ltac:(by vm_compute)).
  by vm_compute.
Defined.

Lemma empty_shard_migration_witness :
  ∃ w',
    run 3 worker other_tenant_world = (Ok tt, w') ∧
    database_writes (journal w')
    = database_writes (journal other_tenant_world) ∧
    servers w' = servers other_tenant_world ∧
    inserted (manager w') = 0%Z ∧
    deleted (manager w') = 0%Z ∧
    phase (manager w') = Some "complete" ∧
    shards_of "users" (VInt 7) (shards w')
    = [{| shard_realm := "users"; shard_shard_key := VInt 7;
          shard_status := AT_REST; shard_location := "B/appdb";
          shard_new_location := None |}].
Proof.
  apply (empty_shard_migration_completes 3 other_tenant_world "users" (VInt 7)
           users_realm "A" "appdb" "B" "appdb" "A/appdb" "B/appdb"
           (server_with {[VInt 2 := {["tenant_id" := VInt 8; "v" := VStr "x"]}]}
              other_tenant_oplog)
           (server_with {[VInt 5 := {["tenant_id" := VInt 9]}]} [])
           (entry_of 8 "d" {["_id" := VInt 3]} None) noise_entry None None).
  9: { repeat constructor; by vm_compute. }
  all: by vm_compute.
Defined.

Lemma sync_twice_witness :
  (let w1 := (replay_oplog_entry update_entry {["tenant_id" := VInt 7]}
                users_at_A users_at_B update_world).2 in
   let w2 := (replay_oplog_entry update_entry {["tenant_id" := VInt 7]}
                users_at_A users_at_B w1).2 in
   documents_in w2 users_at_B = documents_in w1 users_at_B) ∧
  ∃ w2,
    _sync_from_oplog "users" (VInt 7) 5
      (_sync_from_oplog "users" (VInt 7) 5 reinserted_world).2
    = (Ok 7%Z, w2) ∧
    documents_in w2 users_at_B
    = documents_in (_sync_from_oplog "users" (VInt 7) 5 reinserted_world).2
        users_at_B.
Proof.
  destruct sync_twice_is_sync_once as [Hentry Hsync]. split.
  - apply (Hentry update_entry {["tenant_id" := VInt 7]} users_at_A users_at_B
             update_world); [discriminate | by eexists..].
  - apply (Hsync "users" (VInt 7) 5%Z reinserted_world
             (_sync_from_oplog "users" (VInt 7) 5 reinserted_world).2 7%Z
             users_realm
             {| shard_realm := "users"; shard_shard_key := VInt 7;
                shard_status := MIGRATING_SYNC; shard_location := "A/appdb";
                shard_new_location := Some "B/appdb" |}
             "A" "appdb" "B" "appdb" "B/appdb"
             (server_with
                {[VInt 1 := {["tenant_id" := VInt 7]}]}
                [entry_of 5 "i" {["_id" := VInt 1; "tenant_id" := VInt 8]}
                   None;
                 entry_of 6 "d" {["_id" := VInt 1]} None;
                 entry_of 7 "i" {["_id" := VInt 1; "tenant_id" := VInt 7]}
                   None])).
    9: { exists ∅.
         exists {[VInt 1 := {["tenant_id" := VInt 8]}]}.
         split; [by exists (VInt 1)|].
         exists ∅. split; [by exists (VInt 1)|].
         exists {[VInt 1 := {["tenant_id" := VInt 7]}]}.
         split; [by exists (VInt 1)|]. reflexivity. }
    all: first [by vm_compute | discriminate | by eexists].
Defined.

(** * More properties of the sharder *)

(** ** More on the generator *)

(** X1: with a batch size that stays at [n], at least 1, no yielded batch
    is longer than [n] and every batch but the last one has exactly [n]
    records. *)
Theorem constant_size_batches_are_full {A} (n : Z) (cursor : list A) :
  (1 <= n)%Z →
  ∀ i batch, batches (λ _, n) cursor !! i = Some batch →
    (Z.of_nat (length batch) <= n)%Z ∧
    ((S i < length (batches (λ _, n) cursor))%nat →
     Z.of_nat (length batch) = n).
Proof.
  intros Hn i batch Hb. rewrite batches_chunks in *.
  apply (chunks_shape (λ _, n) cursor 0%nat []) in Hb as [Hbelow Hfull];
    [| cbn; lia | cbn; lia].
  assert (Hle : (Z.of_nat (length batch) <= n)%Z).
  { destruct (decide (length batch ≤ 1)%nat) as [|Hlong]; [lia|].
    specialize (Hbelow (length batch - 1)%nat ltac:(lia)). lia. }
  split; [done|]. intros Hi. specialize (Hfull Hi). lia.
Qed.

Lemma chunks_singletons {A} (sizes : nat → Z) (cursor : list A) : ∀ reads,
  (∀ k, (sizes k <= 1)%Z) →
  chunks sizes reads cursor [] = (λ record, [record]) <$> cursor.
Proof.
  induction cursor as [|record cursor IH]; intros reads Hsizes; [done|].
  cbn [chunks]. cbv zeta. rewrite bool_decide_eq_true_2.
  - rewrite fmap_cons. f_equal. by apply IH.
  - cbn. specialize (Hsizes reads). lia.
Qed.

(** X2: a batch size of 1, 0 or below neither stalls nor fails the
    generator: every record is yielded as a batch of its own. *)
Theorem batch_size_below_two_gives_singletons {A} (sizes : nat → Z)
    (cursor : list A) :
  (∀ k, (sizes k <= 1)%Z) →
  batches sizes cursor = (λ record, [record]) <$> cursor.
Proof. intros Hsizes. rewrite batches_chunks. by apply chunks_singletons. Qed.

(** ** [merge] *)

Lemma merge_snoc (dicts : list doc) (d : doc) :
  merge (dicts ++ [d]) = d ∪ merge dicts.
Proof. unfold merge. by rewrite foldl_app. Qed.

(** X3: [merge] of no dict is the empty dict, and in a merge a key has the
    value of the last dict that has the key. *)
Theorem merge_later_dict_wins (dicts : list doc) (d : doc) (k : string) :
  merge [] = ∅ ∧
  merge (dicts ++ [d]) !! k
  = match d !! k with
    | Some v => Some v
    | None => merge dicts !! k
    end.
Proof.
  split; [done|]. rewrite merge_snoc, lookup_union.
  destruct (d !! k), (merge dicts !! k); done.
Qed.

(** ** Replaying inserts, deletes and entries that are neither *)

(** X4: replaying an insert entry inserts the entry's payload into the
    destination when the source holds a document with the payload's [_id]
    that the shard selector selects; a destination that already holds that
    [_id] is left as it is (the duplicate key error is swallowed), and
    when the source holds no such document nothing is sent at all. *)
Theorem insert_entry_replays_payload_once
    (entry : OplogEntry) (shard_selector : doc) (source target : Collection)
    (w : World) (i : value) (src dst : Server) :
  op entry = "i" →
  o entry !! "_id" = Some i →
  servers w !! coll_client source = Some src →
  servers w !! coll_client target = Some dst →
  replay_oplog_entry entry shard_selector source target w =
  if selected (id_query shard_selector i) i (pymongo.stored src source) then
    match pymongo.stored dst target !! i with
    | Some _ =>
        (Ok tt, with_journal (λ j, j ++ [InsertCall target (o entry)]) w)
    | None =>
        (Ok tt,
         with_servers
           (alter (pymongo.with_stored target
                     (<[i := delete "_id" (o entry)]>
                        (pymongo.stored dst target))
                     (next_oid dst)) (coll_client target))
           (with_journal (λ j, j ++ [InsertCall target (o entry)]) w))
    end
  else (Ok tt, w).
Proof.
  intros Hop Hid Hsrc Hdst. unfold replay_oplog_entry.
  rewrite bool_decide_eq_true_2 by done. rewrite Hid. cbn [subscript].
  rewrite run_bind, run_ret, run_bind, (find_run _ _ _ _ Hsrc).
  rewrite (truthy_find _ i) by apply merge_selector_id.
  fold (id_query shard_selector i).
  destruct (selected _ _ _); [|reflexivity].
  unfold try_except. rewrite (insert_run _ _ i _ dst) by done.
  by destruct (pymongo.stored dst target !! i).
Qed.

(** X5: replaying a delete entry removes the document with the entry's
    [_id] from the destination when the destination holds it for this
    shard, and sends nothing otherwise; the source is not consulted. *)
Theorem delete_entry_removes_shard_document
    (entry : OplogEntry) (shard_selector : doc) (source target : Collection)
    (w : World) (i : value) (dst : Server) :
  op entry = "d" →
  o entry !! "_id" = Some i →
  servers w !! coll_client target = Some dst →
  replay_oplog_entry entry shard_selector source target w =
  if selected (id_query shard_selector i) i (pymongo.stored dst target) then
    (Ok tt,
     with_servers
       (alter (pymongo.with_stored target
                 (delete i (pymongo.stored dst target)) (next_oid dst))
              (coll_client target))
       (with_journal (λ j, j ++ [RemoveCall target {["_id" := i]}]) w))
  else (Ok tt, w).
Proof.
  intros Hop Hid Hdst. unfold replay_oplog_entry.
  rewrite Hop.
  rewrite !bool_decide_eq_false_2 by done.
  rewrite bool_decide_eq_true_2 by done. rewrite Hid. cbn [subscript].
  rewrite run_bind, run_ret, run_bind, (find_run _ _ _ _ Hdst).
  rewrite (truthy_find _ i) by apply merge_selector_id.
  fold (id_query shard_selector i).
  destruct (selected _ _ _); [|reflexivity].
  by rewrite (remove_by_id _ _ _ dst).
Qed.

(** X6: an entry whose [op] is none of [i], [u], [d] is skipped, and an
    entry that lacks the [_id] (or the [o2]) its [op] needs raises
    [KeyError]; in all these cases the world is as it was. *)
Theorem other_entries_write_nothing
    (entry : OplogEntry) (shard_selector : doc) (source target : Collection)
    (w : World) :
  (op entry ≠ "i" → op entry ≠ "u" → op entry ≠ "d" →
   replay_oplog_entry entry shard_selector source target w = (Ok tt, w)) ∧
  (op entry = "i" ∨ op entry = "d" → o entry !! "_id" = None →
   replay_oplog_entry entry shard_selector source target w
   = (Raise (KeyError "_id"), w)) ∧
  (op entry = "u" → o2 entry = None →
   replay_oplog_entry entry shard_selector source target w
   = (Raise (KeyError "o2"), w)) ∧
  (op entry = "u" → (∃ selector, o2 entry = Some selector ∧
                                 selector !! "_id" = None) →
   replay_oplog_entry entry shard_selector source target w
   = (Raise (KeyError "_id"), w)).
Proof.
  unfold replay_oplog_entry. repeat split.
  - intros Hi Hu Hd. by rewrite !bool_decide_eq_false_2.
  - intros [Hop|Hop] Hid; rewrite Hop.
    + rewrite bool_decide_eq_true_2 by done. by rewrite Hid.
    + rewrite !bool_decide_eq_false_2 by done.
      rewrite bool_decide_eq_true_2 by done. by rewrite Hid.
  - intros Hop Ho2. rewrite Hop. rewrite bool_decide_eq_false_2 by done.
    rewrite bool_decide_eq_true_2 by done. by rewrite Ho2.
  - intros Hop (selector & Ho2 & Hid). rewrite Hop.
    rewrite bool_decide_eq_false_2 by done.
    rewrite bool_decide_eq_true_2 by done. rewrite Ho2. cbn [subscript].
    rewrite run_bind, run_ret. by rewrite Hid.
Qed.

Section Preserves.
Context {S : Type} (R : relation S) `{!PreOrder R}.

Lemma preserves_bind {A B} (m : M S A) (k : A → M S B) :
preserves R m → (∀ a, preserves R (k a)) → preserves R (m ≫= k).
Proof.
intros Hm Hk s. rewrite run_bind. specialize (Hm s).
destruct (m s) as [[a|e|] s']; cbn [snd] in *; [|done..].
by etrans; [|apply Hk].
Qed.

Lemma preserves_ret {A} (a : A) : preserves R (mret a).
Proof. by intros s. Qed.

Lemma preserves_raise {A} e : preserves R (raise (A:=A) e).
Proof. by intros s. Qed.

Lemma preserves_gets {A} (f : S → A) : preserves R (gets f).
Proof. by intros s. Qed.

Lemma preserves_get : preserves R get.
Proof. by intros s. Qed.

Lemma preserves_subscript {A} key (x : option A) :
preserves R (subscript key x).
Proof. by destruct x; intros s. Qed.

Lemma preserves_try_except {A} (body : M S A) (catches : exn → bool) handler :
preserves R body → (∀ e, preserves R (handler e)) →
preserves R (try_except body catches handler).
Proof.
intros Hb Hh s. unfold try_except. specialize (Hb s).
destruct (body s) as [[a|e|] s']; cbn [snd] in *; [done| |done].
destruct (catches e); [|done]. by etrans; [|apply Hh].
Qed.

Lemma preserves_try_finally {A} (body : M S A) (cleanup : M S unit) :
preserves R body → preserves R cleanup →
preserves R (try_finally body cleanup).
Proof.
intros Hb Hc s. unfold try_finally. specialize (Hb s).
destruct (body s) as [[a|e|] s']; cbn [snd] in *; [| |done];
  specialize (Hc s'); destruct (cleanup s') as [[[]|e'|] s''];
  cbn [snd] in *; by etrans.
Qed.
End Preserves.

#[global] Instance touches_only_preorder target : PreOrder (touches_only target).
Proof.
  split.
  - intros w. split; [apply same_but_refl | done].
  - intros w1 w2 w3 [Hs1 (?&?&?&?)] [Hs2 (?&?&?&?)].
    split; [by eapply same_but_trans|]. repeat split; congruence.
Qed.

Lemma touches_only_journal target c :
  preserves (touches_only target) (record_call c).
Proof. intros w. split; [apply same_but_journal | done]. Qed.

Lemma touches_only_store target m oid :
  preserves (touches_only target) (pymongo.store target m oid).
Proof. intros w. split; [apply same_but_store | done]. Qed.

Lemma touches_only_server_of target c :
  preserves (touches_only target) (pymongo.server_of c).
Proof.
  intros w. unfold pymongo.server_of. rewrite run_bind. cbn.
  by destruct (servers w !! coll_client c).
Qed.

Ltac preserves_step :=
  lazymatch goal with
  | |- PreOrder _ => apply _
  | |- preserves _ (_ ≫= _) => apply preserves_bind; [.. | intros ?]
  | |- preserves _ (mret _) => apply preserves_ret
  | |- preserves _ (raise _) => apply preserves_raise
  | |- preserves _ (gets _) => apply preserves_gets
  | |- preserves _ get => apply preserves_get
  | |- preserves _ (subscript _ _) => apply preserves_subscript
  | |- preserves _ (record_call _) => apply touches_only_journal
  | |- preserves _ (pymongo.store _ _ _) => apply touches_only_store
  | |- preserves _ (pymongo.server_of _) => apply touches_only_server_of
  | |- preserves _ (if ?b then _ else _) => destruct b
  | |- preserves _ (match ?x with _ => _ end) => destruct x
  | |- preserves _ (let '(_, _) := ?x in _) => destruct x
  end.

Lemma touches_only_find target c spec :
  preserves (touches_only target) (pymongo.find c spec).
Proof. unfold pymongo.find. repeat preserves_step. Qed.

Lemma touches_only_insert target d :
  preserves (touches_only target) (pymongo.insert target d).
Proof. unfold pymongo.insert. repeat preserves_step. Qed.

Lemma touches_only_update target spec d upsert :
  preserves (touches_only target) (pymongo.update target spec d upsert).
Proof. unfold pymongo.update. repeat preserves_step. Qed.

Lemma touches_only_remove target spec :
  preserves (touches_only target) (pymongo.remove target spec).
Proof. unfold pymongo.remove. repeat preserves_step. Qed.

Lemma touches_only_replay entry sel source target :
  preserves (touches_only target) (replay_oplog_entry entry sel source target).
Proof.
  unfold replay_oplog_entry.
  repeat first
    [ apply touches_only_find | apply touches_only_remove
    | apply touches_only_update
    | apply preserves_try_except;
      [apply _ | apply touches_only_insert | intros ?]
    | preserves_step ].
Qed.

Lemma touches_only_replay_entries sel source target cursor : ∀ pos,
  preserves (touches_only target)
    (replay_entries sel source target cursor pos).
Proof.
  induction cursor as [|entry cursor IH]; intros pos; cbn [replay_entries].
  - repeat preserves_step.
  - apply preserves_bind;
      [apply _ | apply touches_only_replay | intros _; apply IH].
Qed.

(** X7: however a sync ends, it has changed nothing but the documents of
    the destination collection and the journal: the routing metadata, the
    settings, the clock, the manager, the thread, the oplogs and every
    other collection (the source among them) are as they were. *)
Theorem sync_writes_only_destination_documents
    (cname : string) (key : value) (oplog_pos : Z) (w : World)
    (realm : Realm) (shard_metadata : ShardMetadata)
    (source target : Collection) (new_loc : string) (s : Server) :
  metadata._get_realm_for_collection cname w = (Ok realm, w) →
  _get_metadata_for_shard (realm_name realm) key w = (Ok shard_metadata, w) →
  _get_collection_from_location_string (shard_location shard_metadata) cname w
    = (Ok source, w) →
  shard_new_location shard_metadata = Some new_loc →
  _get_collection_from_location_string new_loc cname w = (Ok target, w) →
  servers w !! coll_client source = Some s →
  let w' := (_sync_from_oplog cname key oplog_pos w).2 in
  realms w' = realms w ∧ shards w' = shards w ∧
  caching_duration w' = caching_duration w ∧ now w' = now w ∧
  manager w' = manager w ∧ migration_thread w' = migration_thread w ∧
  (∀ n, is_Some (servers w' !! n) ↔ is_Some (servers w !! n)) ∧
  (∀ n s s', servers w !! n = Some s → servers w' !! n = Some s' →
             oplog_rs s' = oplog_rs s) ∧
  (∀ c, c ≠ target → documents_in w' c = documents_in w c).
Proof.
  intros Hrealm Hshard Hsource Hnew Htarget Hs w'.
  assert (Hw' : touches_only target w w').
  { unfold w'.
    rewrite (sync_from_oplog_resolved _ _ _ _ _ _ _ _ _ _
               Hrealm Hshard Hsource Hnew Htarget Hs).
    destruct (head (oplog_rs s)); [|reflexivity].
    case_bool_decide; [|reflexivity].
    apply preserves_try_finally; [apply _ | | apply touches_only_journal].
    apply touches_only_replay_entries. }
  destruct Hw' as [(?&?&?&?&?) (?&?&?&?)]. done.
Qed.

Lemma final_pos_last pos cursor :
  final_pos pos cursor = default pos (ts <$> last cursor).
Proof.
  unfold final_pos.
  destruct cursor as [|entry cursor _] using rev_ind; [done|].
  by rewrite foldl_app, last_snoc.
Qed.

(** X8: a sync whose start position is still in the oplog and whose tailed
    entries are well formed returns the [ts] of the last tailed entry, and
    the position it was given when it tailed none. *)
Theorem sync_returns_last_tailed_position
    (cname : string) (key : value) (oplog_pos : Z) (w : World)
    (realm : Realm) (shard_metadata : ShardMetadata)
    (source target : Collection) (new_loc : string) (s : Server)
    (oldest_op : OplogEntry) :
  metadata._get_realm_for_collection cname w = (Ok realm, w) →
  _get_metadata_for_shard (realm_name realm) key w = (Ok shard_metadata, w) →
  _get_collection_from_location_string (shard_location shard_metadata) cname w
    = (Ok source, w) →
  shard_new_location shard_metadata = Some new_loc →
  _get_collection_from_location_string new_loc cname w = (Ok target, w) →
  source ≠ target →
  servers w !! coll_client source = Some s →
  is_Some (servers w !! coll_client target) →
  head (oplog_rs s) = Some oldest_op →
  (ts oldest_op <= oplog_pos)%Z →
  let cursor :=
    filter (λ entry, (ts entry >= oplog_pos)%Z ∧ ns entry = namespace source)
           (oplog_rs s) in
  Forall (λ entry, entry_outcome entry = Ok tt) cursor →
  (_sync_from_oplog cname key oplog_pos w).1
  = Ok (default oplog_pos (ts <$> last cursor)).
Proof.
  intros Hrealm Hshard Hsource Hnew Htarget Hne Hs Hdst Hhead Hpos cursor
    Hall.
  rewrite (sync_from_oplog_resolved _ _ _ _ _ _ _ _ _ _
             Hrealm Hshard Hsource Hnew Htarget Hs).
  rewrite Hhead, bool_decide_eq_true_2 by lia.
  pose proof (replay_entries_total {[realm_shard_field realm := key]}
                source target cursor oplog_pos w Hne
                ltac:(by eexists) Hdst Hall) as Htotal.
  unfold try_finally. fold cursor.
  destruct (replay_entries _ source target cursor oplog_pos w)
    as [[p|e|] w1]; cbn [fst] in Htotal; [|done..].
  rewrite record_call_run. cbn [fst]. rewrite Htotal. f_equal.
  apply final_pos_last.
Qed.

(** X9: on a source whose oplog is empty a sync raises [IndexError], not
    the window error, and writes nothing. *)
Theorem sync_on_an_empty_oplog_raises_IndexError
    (cname : string) (key : value) (oplog_pos : Z) (w : World)
    (realm : Realm) (shard_metadata : ShardMetadata)
    (source target : Collection) (new_loc : string) (s : Server) :
  metadata._get_realm_for_collection cname w = (Ok realm, w) →
  _get_metadata_for_shard (realm_name realm) key w = (Ok shard_metadata, w) →
  _get_collection_from_location_string (shard_location shard_metadata) cname w
    = (Ok source, w) →
  shard_new_location shard_metadata = Some new_loc →
  _get_collection_from_location_string new_loc cname w = (Ok target, w) →
  servers w !! coll_client source = Some s →
  oplog_rs s = [] →
  _sync_from_oplog cname key oplog_pos w = (Raise IndexError, w).
Proof.
  intros Hrealm Hshard Hsource Hnew Htarget Hs Hempty.
  rewrite (sync_from_oplog_resolved _ _ _ _ _ _ _ _ _ _
             Hrealm Hshard Hsource Hnew Htarget Hs).
  by rewrite Hempty.
Qed.

(** X10: the position the migration starts from is the [ts] of the newest
    oplog entry of the server the copy reads from: the hidden secondary of
    the source cluster when one is configured, its primary otherwise; an
    empty oplog there raises [IndexError]. *)
Theorem oplog_pos_is_read_where_the_copy_reads
    (cname : string) (key : value) (w : World) (realm : Realm)
    (shard_metadata : ShardMetadata) (cluster db : string) :
  metadata._get_realm_for_collection cname w = (Ok realm, w) →
  _get_metadata_for_shard (realm_name realm) key w = (Ok shard_metadata, w) →
  connection.split_location (shard_location shard_metadata)
    = Some (cluster, db) →
  _get_oplog_pos cname key w =
  match servers w !! HiddenSecondary cluster, servers w !! Primary cluster with
  | Some s, _ | None, Some s =>
      match last (oplog_rs s) with
      | Some most_recent_op => (Ok (ts most_recent_op), w)
      | None => (Raise IndexError, w)
      end
  | None, None => (Raise ConnectionFailure, w)
  end.
Proof.
  intros Hrealm Hshard Hloc. unfold _get_oplog_pos.
  rewrite run_bind, Hrealm, run_bind, Hshard.
  rewrite run_bind, (reading_run _ _ cluster db) by done.
  rewrite run_bind. unfold pymongo.server_of. rewrite run_bind. cbn [get].
  cbn [coll_client].
  destruct (servers w !! HiddenSecondary cluster) as [hs|] eqn:Hh.
  - rewrite Hh, run_ret. by destruct (last (oplog_rs hs)).
  - destruct (servers w !! Primary cluster) as [p|]; [|done].
    rewrite run_ret. by destruct (last (oplog_rs p)).
Qed.

Ltac finished_step :=
  lazymatch goal with
  | |- yields (_ ≫= _) finished =>
      eapply (yields_bind _ _ finished finished);
      [ | intros ? _ | by intros ? _ | by intros ? ]
  | |- yields (mret _) finished => by intros ?
  | |- yields (raise ?e) finished => by intros ?
  | |- yields (gets _) finished => by intros ?
  | |- yields get finished => by intros ?
  | |- yields (modify _) finished => by intros ?
  | |- yields (record_call _) finished => by intros ?
  | |- yields (pretty_log _) finished => by intros ?
  | |- yields (log _) finished => by intros ?
  | |- yields (pymongo.store _ _ _) finished => by intros ?
  | |- yields (inc_inserted _) finished => by intros ?
  | |- yields (inc_deleted _) finished => by intros ?
  | |- yields (subscript _ ?x) finished => by destruct x; intros ?
  | |- yields (try_except _ _ _) finished =>
      eapply (yields_try_except _ _ _ finished);
      [ | by intros ? _ | intros ? _ | by intros ? ]
  | |- if ?b then yields _ finished else finished (Raise _) =>
      destruct b; [|done]
  | |- yields (if ?b then _ else _) finished => destruct b
  | |- yields (match ?x with _ => _ end) finished => destruct x
  | |- yields (let '(_, _) := ?x in _) finished => destruct x
  end.

Lemma server_of_finished c : yields (pymongo.server_of c) finished.
Proof. unfold pymongo.server_of. repeat finished_step. Qed.

Lemma time_sleep_finished t : yields (time_sleep t) finished.
Proof. unfold time_sleep. repeat finished_step. Qed.

Lemma tum_ti_tum_finished wait_time : yields (tum_ti_tum wait_time) finished.
Proof.
  unfold tum_ti_tum. repeat first [apply time_sleep_finished | finished_step].
Qed.

Lemma bulk_write_finished c requests ordered :
  yields (pymongo.bulk_write c requests ordered) finished.
Proof.
  unfold pymongo.bulk_write.
  repeat first [apply server_of_finished | finished_step].
Qed.

Lemma copy_batch_finished target target_key batch :
  yields (copy_batch target target_key batch) finished.
Proof.
  unfold copy_batch.
  repeat first [apply bulk_write_finished | apply tum_ti_tum_finished
               | finished_step].
Qed.

Lemma batched_loop_finished {A} size_fn (consume : list A → M World unit)
    cursor :
  yields size_fn finished → (∀ batch, yields (consume batch) finished) →
  ∀ batch, yields (batched_loop size_fn consume cursor batch) finished.
Proof.
  intros Hsize Hconsume.
  induction cursor as [|record cursor IH]; intros batch; cbn [batched_loop].
  - case_bool_decide; [apply Hconsume | finished_step].
  - cbv zeta. finished_step; [apply Hsize|].
    case_bool_decide; [|apply IH].
    finished_step; [apply Hconsume | apply IH].
Qed.

Lemma copy_loop_issues target target_key cursor : ∀ reads batch w r w',
  batched_loop (gets (λ w, insert_batch_size (manager w)))
    (copy_batch target target_key) cursor batch w = (r, w') →
  ∃ n,
    bulk_writes (journal w')
    = bulk_writes (journal w)
      ++ take n ((λ b, (target, batch_of_upsert_ops b target_key, true))
                   <$> chunks (λ _, insert_batch_size (manager w)) reads
                         cursor batch) ∧
    (r = Ok tt →
     n = length (chunks (λ _, insert_batch_size (manager w)) reads
                   cursor batch)).
Proof.
  induction cursor as [|record cursor IH]; intros reads batch w r w';
    cbn [batched_loop chunks].
  - case_bool_decide as Hlen.
    + intros Hrun.
      destruct (copy_batch_effect target target_key batch w) as [Hj _].
      { intros ->. by apply Hlen. }
      rewrite Hrun in Hj. cbn [snd] in Hj. exists 1%nat. by rewrite Hj.
    + intros [= <- <-]. exists 0%nat. cbn. by rewrite app_nil_r.
  - cbv zeta. rewrite run_bind. unfold gets at 1. cbv beta iota.
    case_bool_decide as Hfull.
    + rewrite run_bind.
      destruct (copy_batch_effect target target_key (batch ++ [record]) w)
        as [Hj Hsize].
      { by destruct batch. }
      destruct (copy_batch target target_key (batch ++ [record]) w)
        as [[[]|e|] w1]; cbn [fst snd] in *.
      * intros Hrest.
        destruct (IH (S reads) [] w1 r w' Hrest) as (n & Hn & Hall).
        exists (S n). rewrite Hn, Hj, Hsize, fmap_cons, <- app_assoc.
        split; [reflexivity|]. intros Hok. cbn [length]. f_equal.
        rewrite Hsize in Hall. by apply Hall.
      * intros [= <- <-]. exists 1%nat. by rewrite Hj.
      * intros [= <- <-]. exists 1%nat. by rewrite Hj.
    + apply (IH (S reads)).
Qed.

(** X11: however a copy ends once the shard is in its copy state, the bulk
    writes it has issued are those of the first [n] batches of the copy
    cursor, in order, all of them when it ends well; and the last thing it
    does is close the cursor. *)
Theorem copy_issues_bulk_writes_of_leading_batches
    (cname : string) (key : value) (w : World) (realm : Realm)
    (shard_metadata : ShardMetadata) (source target : Collection)
    (new_loc : string) (src dst : Server) :
  metadata._get_realm_for_collection cname w = (Ok realm, w) →
  _get_metadata_for_shard (realm_name realm) key w = (Ok shard_metadata, w) →
  shard_status shard_metadata = MIGRATING_COPY →
  _get_source_collection_for_reading shard_metadata cname true w
    = (Ok source, w) →
  shard_new_location shard_metadata = Some new_loc →
  _get_collection_from_location_string new_loc cname w = (Ok target, w) →
  servers w !! coll_client source = Some src →
  servers w !! coll_client target = Some dst →
  let result := _do_copy cname key w in
  let issued :=
    (λ batch, (target,
               batch_of_upsert_ops batch
                 (target_key_of (reported_shard_key dst target)), true))
      <$> batches (λ _, insert_batch_size (manager w))
            (copy_cursor src source (realm_shard_field realm) key) in
  ∃ n,
    bulk_writes (journal result.2) = bulk_writes (journal w) ++ take n issued ∧
    (result.1 = Ok tt → n = length issued) ∧
    last (journal result.2) = Some CursorClose.
Proof.
  intros Hrealm Hshard Hstatus Hsource Hnew Htarget Hsrc Hdst result issued.
  unfold result, issued, _do_copy.
  rewrite run_bind, Hrealm, run_bind, Hshard.
  rewrite bool_decide_eq_false_2 by (by intros ?).
  rewrite run_bind, Hsource, Hnew, run_bind. cbn [subscript].
  rewrite run_ret, run_bind, Htarget, run_bind.
  rewrite (sniff_mongos_shard_key_run _ _ _ Hdst).
  rewrite run_bind, (find_run _ _ _ _ Hsrc).
  rewrite run_bind, (shard_field_id_index_run _ _ _ _ Hsrc).
  cbv zeta. unfold try_finally, batched_cursor_iterator.
  rewrite batches_chunks. unfold copy_cursor.
  match goal with
  | |- context [batched_loop ?f ?c ?cur [] w] =>
      pose proof (batched_loop_finished f c cur ltac:(by intros ?)
                    (copy_batch_finished _ _) [] w) as Hfin;
      destruct (batched_loop f c cur [] w) as [r w1] eqn:Hloop
  end.
  cbn [fst] in Hfin.
  apply (copy_loop_issues _ _ _ 0%nat) in Hloop as (n & Hn & Hall).
  exists n. rewrite length_fmap.
  assert (Hsame : ∀ (b : bool) (l : list doc) index,
            match (if b then Some index else None) with
            | Some index => pymongo.sort index l
            | None => l
            end = if b then pymongo.sort index l else l)
    by (by intros []).
  rewrite Hsame in Hn, Hall.
  destruct r as [[]|e|]; [| |done];
    rewrite record_call_run; cbn [fst snd journal with_journal];
    rewrite bulk_writes_app, last_snoc; cbn [bulk_writes omap];
    rewrite app_nil_r; done.
Qed.

Lemma delete_calls_app j1 j2 :
  delete_calls (j1 ++ j2) = delete_calls j1 ++ delete_calls j2.
Proof. apply omap_app. Qed.

Lemma ids_app b1 b2 : batch_ids (b1 ++ b2) = batch_ids b1 ++ batch_ids b2.
Proof. apply omap_app. Qed.

Lemma ids_of_run batch w :
  Forall (λ record : doc, is_Some (record !! "_id")) batch →
  ids_of batch w = (Ok (batch_ids batch), w).
Proof.
  induction 1 as [|record batch [i Hi] _ IH]; [done|].
  cbn [ids_of batch_ids omap list_omap]. rewrite Hi. cbn [subscript].
  by rewrite run_bind, run_ret, run_bind, IH, run_ret.
Qed.

Lemma delete_batch_effect current batch w :
  Forall (λ record : doc, is_Some (record !! "_id")) batch →
  delete_calls (journal (delete_batch current batch w).2)
  = delete_calls (journal w) ++ [(current, batch_ids batch)] ∧
  delete_batch_size (manager (delete_batch current batch w).2)
  = delete_batch_size (manager w).
Proof.
  intros Hids. unfold delete_batch.
  rewrite run_bind, (ids_of_run _ _ Hids).
  destruct w as [rs shs cd svs t mgr th j].
  unfold pymongo.delete_many, pymongo.server_of, pymongo.store, tum_ti_tum,
    time_sleep, record_call, inc_deleted, modify, gets, get, raise,
    mbind, M_bind, mret, M_ret.
  cbn -[delete_calls filter size].
  destruct (svs !! coll_client current) as [s|];
    cbn -[delete_calls filter size].
  2: { rewrite delete_calls_app. cbn. done. }
  destruct (delete_throttle mgr) as [wait|]; cbn -[delete_calls filter size].
  2: { rewrite delete_calls_app. cbn. done. }
  case_bool_decide; cbn -[delete_calls filter size].
  2: { rewrite delete_calls_app. cbn. done. }
  case_bool_decide; cbn -[delete_calls filter size];
    rewrite ?delete_calls_app; cbn; rewrite ?app_nil_r; done.
Qed.

Lemma delete_many_finished c l : yields (pymongo.delete_many c l) finished.
Proof.
  unfold pymongo.delete_many.
  repeat first [apply server_of_finished | finished_step].
Qed.

Lemma ids_of_finished batch : yields (ids_of batch) finished.
Proof.
  induction batch as [|record batch IH]; cbn [ids_of];
    repeat first [apply IH | finished_step].
Qed.

Lemma delete_batch_finished current batch :
  yields (delete_batch current batch) finished.
Proof.
  unfold delete_batch.
  repeat first [apply ids_of_finished | apply delete_many_finished
               | apply tum_ti_tum_finished | finished_step].
Qed.

Lemma delete_loop_issues current cursor : ∀ reads batch w r w',
  Forall (λ record : doc, is_Some (record !! "_id")) (batch ++ cursor) →
  batched_loop (gets (λ w, delete_batch_size (manager w)))
    (delete_batch current) cursor batch w = (r, w') →
  ∃ n,
    delete_calls (journal w')
    = delete_calls (journal w)
      ++ take n ((λ b, (current, batch_ids b))
                   <$> chunks (λ _, delete_batch_size (manager w)) reads
                         cursor batch) ∧
    (r = Ok tt →
     n = length (chunks (λ _, delete_batch_size (manager w)) reads
                   cursor batch)).
Proof.
  induction cursor as [|record cursor IH]; intros reads batch w r w' Hids;
    cbn [batched_loop chunks].
  - rewrite app_nil_r in Hids. case_bool_decide as Hlen.
    + intros Hrun.
      destruct (delete_batch_effect current batch w Hids) as [Hj _].
      rewrite Hrun in Hj. cbn [snd] in Hj. exists 1%nat. by rewrite Hj.
    + intros [= <- <-]. exists 0%nat. cbn. by rewrite app_nil_r.
  - cbv zeta. rewrite run_bind. unfold gets at 1. cbv beta iota.
    assert (Hids' : Forall (λ record : doc, is_Some (record !! "_id"))
                      ((batch ++ [record]) ++ cursor))
      by (by rewrite <- app_assoc).
    case_bool_decide as Hfull.
    + rewrite run_bind.
      apply Forall_app in Hids' as [Hbatch Hcursor].
      destruct (delete_batch_effect current (batch ++ [record]) w Hbatch)
        as [Hj Hsize].
      destruct (delete_batch current (batch ++ [record]) w)
        as [[[]|e|] w1]; cbn [fst snd] in *.
      * intros Hrest.
        destruct (IH (S reads) [] w1 r w' Hcursor Hrest) as (n & Hn & Hall).
        exists (S n). rewrite Hn, Hj, Hsize, fmap_cons, <- app_assoc.
        split; [reflexivity|]. intros Hok. cbn [length]. f_equal.
        rewrite Hsize in Hall. by apply Hall.
      * intros [= <- <-]. exists 1%nat. by rewrite Hj.
      * intros [= <- <-]. exists 1%nat. by rewrite Hj.
    + by apply (IH (S reads)).
Qed.

Lemma find_ids_have_id spec (m : gmap value doc) :
  Forall (λ record : doc, is_Some (record !! "_id"))
    ((λ d : doc, filter (λ kv, kv.1 = "_id") d)
       <$> (pymongo.document_of <$> pymongo.scan spec m)).
Proof.
  rewrite <- list_fmap_compose. apply Forall_fmap, list.Forall_forall.
  intros p _. cbn. exists p.1.
  apply map_lookup_filter_Some. split; [apply document_of_id | done].
Qed.

Lemma sort_Forall (P : doc → Prop) key (l : list doc) :
  Forall P l → Forall P (pymongo.sort key l).
Proof.
  intros Hl. unfold pymongo.sort.
  by rewrite (merge_sort_Permutation (pymongo.doc_le key) l).
Qed.

Lemma delete_cursor_has_ids s c shard_field key :
  Forall (λ record : doc, is_Some (record !! "_id"))
    (delete_cursor s c shard_field key).
Proof.
  unfold delete_cursor. cbv zeta.
  case_bool_decide; [apply sort_Forall|]; apply find_ids_have_id.
Qed.

Lemma find_ids_run c spec w s :
  servers w !! coll_client c = Some s →
  pymongo.find_ids c spec w
  = (Ok ((λ d : doc, filter (λ kv, kv.1 = "_id") d)
           <$> (pymongo.document_of
                  <$> pymongo.scan spec (pymongo.stored s c))), w).
Proof.
  intros Hs. unfold pymongo.find_ids.
  by rewrite run_bind, (find_run _ _ _ _ Hs), run_ret.
Qed.

Lemma sorted_when_indexed (b : bool) (l : list doc) index :
  match (if b then Some index else None) with
  | Some index => pymongo.sort index l
  | None => l
  end = if b then pymongo.sort index l else l.
Proof. by destruct b. Qed.

(** X12: however a delete of source data ends once the shard is in its
    delete state, it has issued one [delete_many], on the collection at
    the shard's location, with the [_id]s of each of the first [n] batches
    of the ids read, in order, all of them when it ends well; and the last
    thing it does is close the cursor. *)
Theorem delete_issues_one_delete_many_per_batch
    (cname : string) (key : value) (use_hidden_secondary : bool) (w : World)
    (realm : Realm) (shard_metadata : ShardMetadata)
    (current_collection read_collection : Collection) (s : Server) :
  metadata._get_realm_for_collection cname w = (Ok realm, w) →
  _get_metadata_for_shard (realm_name realm) key w = (Ok shard_metadata, w) →
  shard_status shard_metadata = POST_MIGRATION_DELETE →
  _get_collection_from_location_string (shard_location shard_metadata) cname w
    = (Ok current_collection, w) →
  _get_source_collection_for_reading shard_metadata cname
    use_hidden_secondary w = (Ok read_collection, w) →
  servers w !! coll_client read_collection = Some s →
  let result := _delete_source_data cname key use_hidden_secondary w in
  let issued :=
    (λ batch, (current_collection, batch_ids batch))
      <$> batches (λ _, delete_batch_size (manager w))
            (delete_cursor s read_collection (realm_shard_field realm) key) in
  ∃ n,
    delete_calls (journal result.2)
    = delete_calls (journal w) ++ take n issued ∧
    (result.1 = Ok tt → n = length issued) ∧
    last (journal result.2) = Some CursorClose.
Proof.
  intros Hrealm Hshard Hstatus Hcurrent Hread Hs result issued.
  unfold result, issued, _delete_source_data.
  rewrite run_bind, Hrealm, run_bind, Hshard.
  rewrite bool_decide_eq_false_2 by (by intros ?).
  cbv zeta. rewrite run_bind, Hcurrent, run_bind, Hread.
  rewrite run_bind, (find_ids_run _ _ _ _ Hs).
  rewrite run_bind, (shard_field_id_index_run _ _ _ _ Hs).
  unfold try_finally, batched_cursor_iterator.
  rewrite batches_chunks, sorted_when_indexed.
  fold (delete_cursor s read_collection (realm_shard_field realm) key).
  pose proof (batched_loop_finished
                (gets (λ w, delete_batch_size (manager w)))
                (delete_batch current_collection)
                (delete_cursor s read_collection (realm_shard_field realm) key)
                ltac:(by intros ?) (delete_batch_finished _) [] w) as Hfin.
  destruct (batched_loop _ _ _ [] w) as [r w1] eqn:Hloop.
  cbn [fst] in Hfin.
  apply (delete_loop_issues _ _ 0%nat) in Hloop as (n & Hn & Hall);
    [|apply delete_cursor_has_ids].
  exists n. rewrite length_fmap.
  destruct r as [[]|e|]; [| |done];
    rewrite record_call_run; cbn [fst snd journal with_journal];
    rewrite delete_calls_app, last_snoc; cbn [delete_calls omap];
    rewrite app_nil_r; done.
Qed.

Lemma same_but_now target w f : same_but target w (with_now f w).
Proof. repeat split; try done. intros n s s' H1 H2. cbn in H2. congruence. Qed.

Lemma same_but_manager target w f : same_but target w (with_manager f w).
Proof. repeat split; try done. intros n s s' H1 H2. cbn in H2. congruence. Qed.

Lemma delete_batch_run current batch w s :
  Forall (λ record : doc, is_Some (record !! "_id")) batch →
  servers w !! coll_client current = Some s →
  (∀ t, delete_throttle (manager w) = Some t → (0 <= t)%Z) →
  ∃ w',
    delete_batch current batch w = (Ok tt, w') ∧
    documents_in w' current
    = filter (λ p, p.1 ∉ batch_ids batch) (documents_in w current) ∧
    deleted (manager w')
    = (deleted (manager w)
       + (Z.of_nat (size (documents_in w current))
          - Z.of_nat (size (documents_in w' current))))%Z ∧
    same_but current w w' ∧
    delete_throttle (manager w') = delete_throttle (manager w).
Proof.
  intros Hids Hs Hwait. unfold delete_batch.
  rewrite run_bind, (ids_of_run _ _ Hids).
  rewrite run_bind. unfold pymongo.delete_many.
  rewrite run_bind, record_call_run.
  rewrite run_bind, (server_of_run _ _ s) by done.
  rewrite run_bind. unfold pymongo.store at 1, modify at 1. cbv beta iota.
  rewrite run_ret, run_bind. unfold gets at 1. cbv beta iota.
  set (kept := filter (λ p : value * doc, p.1 ∉ batch_ids batch)
                 (pymongo.stored s current)).
  set (w1 := with_servers _ _).
  assert (Hdocs : documents_in w current = pymongo.stored s current)
    by (unfold documents_in; by rewrite Hs).
  assert (Hdocs1 : documents_in w1 current = kept).
  { apply documents_in_store. cbn. by rewrite Hs. }
  assert (Hsame1 : same_but current w w1).
  { eapply same_but_trans; [apply same_but_journal | apply same_but_store]. }
  change (delete_throttle (manager w1)) with (delete_throttle (manager w)).
  rewrite run_bind.
  assert (Hsleep : ∃ w2, tum_ti_tum (delete_throttle (manager w)) w1
                         = (Ok tt, w2) ∧
                         servers w2 = servers w1 ∧ manager w2 = manager w1 ∧
                         same_but current w1 w2).
  { unfold tum_ti_tum. destruct (delete_throttle (manager w)) as [t|] eqn:Ht.
    - specialize (Hwait t eq_refl). case_bool_decide.
      + unfold time_sleep. rewrite bool_decide_eq_false_2 by lia.
        eexists. split; [reflexivity|]. split; [done|]. split; [done|].
        eapply same_but_trans; [apply same_but_journal | apply same_but_now].
      + eexists. split; [reflexivity|]. repeat split; try done.
        intros n a b ? ?. congruence.
    - eexists. split; [reflexivity|]. repeat split; try done.
      intros n a b ? ?. congruence. }
  destruct Hsleep as (w2 & -> & Hservers & Hmanager & Hsame2).
  eexists. split; [reflexivity|].
  assert (Hdocs2 : documents_in w2 current = kept).
  { rewrite <- Hdocs1. unfold documents_in. by rewrite Hservers. }
  split; [|split; [|split]].
  - change (documents_in (with_manager _ w2) current)
      with (documents_in w2 current).
    by rewrite Hdocs2, Hdocs.
  - change (documents_in (with_manager _ w2) current)
      with (documents_in w2 current).
    rewrite Hdocs2, Hdocs. cbn. rewrite Hmanager. done.
  - eapply same_but_trans; [exact Hsame1|].
    eapply same_but_trans; [exact Hsame2|]. apply same_but_manager.
  - cbn. by rewrite Hmanager.
Qed.

Lemma filter_not_in_app (l1 l2 : list value) (m : gmap value doc) :
  filter (λ p : value * doc, p.1 ∉ l2) (filter (λ p : value * doc, p.1 ∉ l1) m)
  = filter (λ p : value * doc, p.1 ∉ l1 ++ l2) m.
Proof.
  rewrite map_filter_filter. apply map_filter_ext. intros i x _. cbn.
  rewrite not_elem_of_app. tauto.
Qed.

Lemma filter_not_in_nil (m : gmap value doc) :
  filter (λ p : value * doc, p.1 ∉ []) m = m.
Proof. apply map_filter_id. intros i x _. cbn. apply not_elem_of_nil. Qed.

Lemma delete_loop_run current cursor : ∀ batch w,
  Forall (λ record : doc, is_Some (record !! "_id")) (batch ++ cursor) →
  is_Some (servers w !! coll_client current) →
  (∀ t, delete_throttle (manager w) = Some t → (0 <= t)%Z) →
  ∃ w',
    batched_loop (gets (λ w, delete_batch_size (manager w)))
      (delete_batch current) cursor batch w = (Ok tt, w') ∧
    documents_in w' current
    = filter (λ p, p.1 ∉ batch_ids (batch ++ cursor)) (documents_in w current) ∧
    deleted (manager w')
    = (deleted (manager w)
       + (Z.of_nat (size (documents_in w current))
          - Z.of_nat (size (documents_in w' current))))%Z ∧
    same_but current w w' ∧
    delete_throttle (manager w') = delete_throttle (manager w).
Proof.
  induction cursor as [|record cursor IH]; intros batch w Hids [s Hs] Hwait;
    cbn [batched_loop].
  - rewrite app_nil_r in *. case_bool_decide as Hlen.
    + by apply (delete_batch_run current batch w s).
    + destruct batch; [|done]. exists w. split; [done|].
      cbn [batch_ids omap list_omap]. rewrite filter_not_in_nil.
      split; [done|]. split; [lia|]. split; [apply same_but_refl | done].
  - cbv zeta. rewrite run_bind. unfold gets at 1. cbv beta iota.
    assert (Hids' : Forall (λ record : doc, is_Some (record !! "_id"))
                      ((batch ++ [record]) ++ cursor))
      by (by rewrite <- app_assoc).
    replace (batch ++ record :: cursor) with ((batch ++ [record]) ++ cursor)
      by (by rewrite <- app_assoc).
    case_bool_decide as Hfull.
    + rewrite run_bind.
      apply Forall_app in Hids' as [Hbatch Hcursor].
      destruct (delete_batch_run current (batch ++ [record]) w s Hbatch Hs
                  Hwait) as (w1 & -> & Hdocs1 & Hdel1 & Hsame1 & Hwait1).
      destruct (IH [] w1 Hcursor) as (w' & -> & Hdocs & Hdel & Hsame & Hwt).
      { destruct Hsame1 as (_&_&Hpresent&_). apply Hpresent. by eexists. }
      { by rewrite Hwait1. }
      exists w'. split; [done|]. cbn [app] in Hdocs.
      split; [|split; [|split]].
      * rewrite Hdocs, Hdocs1, filter_not_in_app. by rewrite !ids_app.
      * lia.
      * by eapply same_but_trans.
      * congruence.
    + by apply (IH (batch ++ [record]) w Hids' ltac:(by eexists)).
Qed.

Lemma ids_found spec (m : gmap value doc) :
  batch_ids ((λ d : doc, filter (λ kv, kv.1 = "_id") d)
         <$> (pymongo.document_of <$> pymongo.scan spec m))
  = (pymongo.scan spec m).*1.
Proof.
  unfold batch_ids. induction (pymongo.scan spec m) as [|p l IH]; [done|].
  cbn [fmap list_fmap omap list_omap].
  rewrite (map_lookup_filter_Some_2 _ _ "_id" p.1);
    [| apply document_of_id | done].
  cbn. f_equal. apply IH.
Qed.

Lemma delete_cursor_ids s c shard_field key :
  batch_ids (delete_cursor s c shard_field key)
  ≡ₚ (pymongo.scan {[shard_field := key]} (pymongo.stored s c)).*1.
Proof.
  unfold delete_cursor. cbv zeta. rewrite <- ids_found.
  case_bool_decide; [|done]. unfold batch_ids, pymongo.sort.
  by rewrite merge_sort_Permutation.
Qed.

Lemma scan_after_delete spec (m : gmap value doc) :
  pymongo.scan spec (filter (λ p, p.1 ∉ (pymongo.scan spec m).*1) m) = [].
Proof.
  unfold pymongo.scan at 1. apply filter_none. intros [i body] Hin Hmatch.
  apply elem_of_map_to_list, map_lookup_filter_Some in Hin as [Hm Hout].
  apply Hout. cbn. apply list_elem_of_fmap. exists (i, body). split; [done|].
  unfold pymongo.scan. apply list_elem_of_filter. split; [done|].
  by apply elem_of_map_to_list.
Qed.

Lemma delete_source_data_run
    (cname : string) (key : value) (use_hidden_secondary : bool) (w : World)
    (realm : Realm) (shard_metadata : ShardMetadata)
    (current_collection read_collection : Collection) (s : Server) :
  metadata._get_realm_for_collection cname w = (Ok realm, w) →
  _get_metadata_for_shard (realm_name realm) key w = (Ok shard_metadata, w) →
  shard_status shard_metadata = POST_MIGRATION_DELETE →
  _get_collection_from_location_string (shard_location shard_metadata) cname w
    = (Ok current_collection, w) →
  _get_source_collection_for_reading shard_metadata cname
    use_hidden_secondary w = (Ok read_collection, w) →
  servers w !! coll_client read_collection = Some s →
  is_Some (servers w !! coll_client current_collection) →
  (∀ t, delete_throttle (manager w) = Some t → (0 <= t)%Z) →
  ∃ w',
    _delete_source_data cname key use_hidden_secondary w = (Ok tt, w') ∧
    documents_in w' current_collection
    = filter (λ p, p.1 ∉ (pymongo.scan {[realm_shard_field realm := key]}
                            (pymongo.stored s read_collection)).*1)
             (documents_in w current_collection) ∧
    deleted (manager w')
    = (deleted (manager w)
       + (Z.of_nat (size (documents_in w current_collection))
          - Z.of_nat (size (documents_in w' current_collection))))%Z ∧
    same_but current_collection w w' ∧
    delete_throttle (manager w') = delete_throttle (manager w).
Proof.
  intros Hrealm Hshard Hstatus Hcurrent Hread Hs Hserver Hwait.
  unfold _delete_source_data.
  rewrite run_bind, Hrealm, run_bind, Hshard.
  rewrite bool_decide_eq_false_2 by (by intros ?).
  cbv zeta. rewrite run_bind, Hcurrent, run_bind, Hread.
  rewrite run_bind, (find_ids_run _ _ _ _ Hs).
  rewrite run_bind, (shard_field_id_index_run _ _ _ _ Hs).
  unfold try_finally, batched_cursor_iterator.
  rewrite sorted_when_indexed.
  fold (delete_cursor s read_collection (realm_shard_field realm) key).
  destruct (delete_loop_run current_collection
              (delete_cursor s read_collection (realm_shard_field realm) key)
              [] w (delete_cursor_has_ids _ _ _ _) Hserver Hwait)
    as (w1 & -> & Hdocs & Hdel & Hsame & Hthrottle).
  rewrite record_call_run. eexists. split; [reflexivity|].
  cbn [app] in Hdocs. rewrite !documents_in_journal.
  split; [|split; [done|split; [|done]]].
  - rewrite Hdocs. apply map_filter_ext. intros i body _. cbn.
    by rewrite (delete_cursor_ids s read_collection).
  - eapply same_but_trans; [exact Hsame | apply same_but_journal].
Qed.

(** X13: with a throttle that is not negative, a delete of source data
    ends well; the collection at the shard's location has lost exactly the
    documents whose [_id] the read collection holds for the shard,
    [deleted] has grown by their number, and no other collection has
    changed.  When the ids are read from that collection itself, no
    document of the shard is left in it. *)
Theorem delete_removes_the_documents_it_read
    (cname : string) (key : value) (use_hidden_secondary : bool) (w : World)
    (realm : Realm) (shard_metadata : ShardMetadata)
    (current_collection read_collection : Collection) (s : Server) :
  metadata._get_realm_for_collection cname w = (Ok realm, w) →
  _get_metadata_for_shard (realm_name realm) key w = (Ok shard_metadata, w) →
  shard_status shard_metadata = POST_MIGRATION_DELETE →
  _get_collection_from_location_string (shard_location shard_metadata) cname w
    = (Ok current_collection, w) →
  _get_source_collection_for_reading shard_metadata cname
    use_hidden_secondary w = (Ok read_collection, w) →
  servers w !! coll_client read_collection = Some s →
  is_Some (servers w !! coll_client current_collection) →
  (∀ t, delete_throttle (manager w) = Some t → (0 <= t)%Z) →
  let shard_selector : doc := {[realm_shard_field realm := key]} in
  ∃ w',
    _delete_source_data cname key use_hidden_secondary w = (Ok tt, w') ∧
    documents_in w' current_collection
    = filter (λ p, p.1 ∉ (pymongo.scan shard_selector
                            (pymongo.stored s read_collection)).*1)
             (documents_in w current_collection) ∧
    deleted (manager w')
    = (deleted (manager w)
       + (Z.of_nat (size (documents_in w current_collection))
          - Z.of_nat (size (documents_in w' current_collection))))%Z ∧
    (∀ c, c ≠ current_collection → documents_in w' c = documents_in w c) ∧
    (read_collection = current_collection →
     pymongo.scan shard_selector (documents_in w' current_collection) = []).
Proof.
  intros Hrealm Hshard Hstatus Hcurrent Hread Hs Hserver Hwait sel.
  destruct (delete_source_data_run cname key use_hidden_secondary w realm
              shard_metadata current_collection read_collection s
              Hrealm Hshard Hstatus Hcurrent Hread Hs Hserver Hwait)
    as (w' & Hrun & Hdocs & Hdel & Hsame & _).
  exists w'. split; [done|]. split; [done|]. split; [done|]. split.
  - by destruct Hsame as (_&_&_&_&Hother).
  - intros ->. rewrite Hdocs.
    replace (documents_in w current_collection)
      with (pymongo.stored s current_collection)
      by (unfold documents_in; by rewrite Hs).
    apply scan_after_delete.
Qed.

Lemma pick_id record i :
  record !! "_id" = Some i → pick ["_id"] record = {["_id" := i]}.
Proof.
  intros Hi. unfold pick. apply map_eq. intros k.
  rewrite map_lookup_filter. destruct (decide (k = "_id")) as [->|Hk].
  - rewrite Hi, lookup_singleton_eq. cbn.
    rewrite option_guard_True; [done | cbn; constructor].
  - rewrite lookup_singleton_ne by done.
    destruct (record !! k); [|done]. cbn.
    rewrite option_guard_False; [done|]. cbn. by intros ?%list_elem_of_singleton.
Qed.

Lemma scan_id (m : gmap value doc) i :
  pymongo.scan {["_id" := i]} m
  = match m !! i with Some body => [(i, body)] | None => [] end.
Proof.
  rewrite (scan_by_id _ _ i) by apply lookup_singleton_eq.
  destruct (m !! i); [|done]. by rewrite matches_singleton_id.
Qed.

Lemma apply_upsert_op record i (m : gmap value doc) oid :
  record !! "_id" = Some i →
  pymongo.apply_update_one
    {| op_filter := pick ["_id"] record; op_set := without_id record;
       op_upsert := true |} m oid
  = Some (upserted m record, oid, bool_decide (m !! i = None)).
Proof.
  intros Hi. unfold pymongo.apply_update_one, upserted. cbn [op_filter op_set op_upsert].
  rewrite (pick_id _ _ Hi), scan_id, Hi. unfold without_id.
  destruct (m !! i) as [body|] eqn:Hm; cbn [head default].
  - rewrite bool_decide_eq_true_2 by (left; apply lookup_delete_eq).
    rewrite bool_decide_eq_false_2 by done.
    by rewrite delete_delete_eq.
  - unfold pymongo.assign_id.
    rewrite lookup_union_r by apply lookup_delete_eq.
    rewrite lookup_singleton_eq, Hm, bool_decide_eq_true_2 by done.
    rewrite delete_union, delete_delete_eq, delete_singleton_eq.
    by rewrite (right_id ∅ (∪)).
Qed.

Lemma upserted_size (m : gmap value doc) record i :
  record !! "_id" = Some i →
  Z.of_nat (size (upserted m record))
  = (Z.of_nat (size m) + if bool_decide (m !! i = None) then 1 else 0)%Z.
Proof.
  intros Hi. unfold upserted. rewrite Hi, map_size_insert.
  destruct (m !! i); [rewrite bool_decide_eq_false_2 by done
                     | rewrite bool_decide_eq_true_2 by done]; cbn; lia.
Qed.

Lemma apply_upsert_ops batch : ∀ (m : gmap value doc) oid n,
  Forall (λ record : doc, is_Some (record !! "_id")) batch →
  pymongo.apply_requests true (batch_of_upsert_ops batch ["_id"]) m oid n
  = (foldl upserted m batch, oid,
     (n + (Z.of_nat (size (foldl upserted m batch)) - Z.of_nat (size m)))%Z,
     false).
Proof.
  induction batch as [|record batch IH]; intros m oid n Hids.
  - cbn. do 2 f_equal. lia.
  - inversion_clear Hids as [|? ? [i Hi] Hbatch].
    cbn [batch_of_upsert_ops fmap list_fmap pymongo.apply_requests foldl].
    rewrite (apply_upsert_op _ i) by done.
    rewrite IH by done. do 2 f_equal.
    pose proof (upserted_size m record i Hi).
    destruct (bool_decide (m !! i = None)); lia.
Qed.

Lemma upserted_lookup_ne (m : gmap value doc) record i :
  record !! "_id" ≠ Some i → upserted m record !! i = m !! i.
Proof.
  intros Hi. unfold upserted. destruct (record !! "_id") as [j|]; [|done].
  apply lookup_insert_ne. congruence.
Qed.

Lemma foldl_upserted_other batch : ∀ (m : gmap value doc) i,
  i ∉ batch_ids batch → foldl upserted m batch !! i = m !! i.
Proof.
  induction batch as [|record batch IH]; intros m i Hi; [done|].
  cbn [foldl]. cbn [batch_ids omap list_omap] in Hi.
  fold (batch_ids batch) in Hi.
  destruct (record !! "_id") as [j|] eqn:Hj; cbn in Hi.
  - apply not_elem_of_cons in Hi as [Hij Hi].
    rewrite IH by done. apply upserted_lookup_ne. congruence.
  - rewrite IH by done. apply upserted_lookup_ne. congruence.
Qed.

Lemma foldl_upserted_lookup batch : ∀ (m : gmap value doc) record i,
  NoDup (batch_ids batch) → record ∈ batch → record !! "_id" = Some i →
  foldl upserted m batch !! i
  = Some (delete "_id" record ∪ default ∅ (m !! i)).
Proof.
  induction batch as [|first batch IH]; intros m record i Hnodup Hin Hi.
  - by apply elem_of_nil in Hin.
  - cbn [foldl]. cbn [batch_ids omap list_omap] in Hnodup.
    fold (batch_ids batch) in Hnodup.
    apply elem_of_cons in Hin as [<-|Hin].
    + rewrite Hi in Hnodup. cbn in Hnodup.
      apply NoDup_cons in Hnodup as [Hfresh _].
      rewrite foldl_upserted_other by done.
      unfold upserted. rewrite Hi. apply lookup_insert_eq.
    + destruct (first !! "_id") as [j|] eqn:Hj; cbn in Hnodup.
      * apply NoDup_cons in Hnodup as [Hfresh Hnodup].
        rewrite (IH _ record i) by done.
        rewrite upserted_lookup_ne; [done|].
        rewrite Hj. intros [= ->]. apply Hfresh.
        apply list_elem_of_omap. by exists record.
      * rewrite (IH _ record i) by done.
        rewrite upserted_lookup_ne; [done|]. by rewrite Hj.
Qed.

Lemma tum_ti_tum_run target wait_time w :
  (∀ t, wait_time = Some t → (0 <= t)%Z) →
  ∃ w', tum_ti_tum wait_time w = (Ok tt, w') ∧
        servers w' = servers w ∧ manager w' = manager w ∧
        same_but target w w'.
Proof.
  intros Hwait. unfold tum_ti_tum. destruct wait_time as [t|].
  - specialize (Hwait t eq_refl). case_bool_decide.
    + unfold time_sleep. rewrite bool_decide_eq_false_2 by lia.
      eexists. split; [reflexivity|]. split; [done|]. split; [done|].
      eapply same_but_trans; [apply same_but_journal | apply same_but_now].
    + exists w. split; [done|]. split; [done|]. split; [done|].
      apply same_but_refl.
  - exists w. split; [done|]. split; [done|]. split; [done|].
    apply same_but_refl.
Qed.

Lemma copy_batch_run target batch w dst :
  batch ≠ [] →
  Forall (λ record : doc, is_Some (record !! "_id")) batch →
  servers w !! coll_client target = Some dst →
  (∀ t, insert_throttle (manager w) = Some t → (0 <= t)%Z) →
  ∃ w',
    copy_batch target ["_id"] batch w = (Ok tt, w') ∧
    documents_in w' target = foldl upserted (documents_in w target) batch ∧
    inserted (manager w')
    = (inserted (manager w)
       + (Z.of_nat (size (documents_in w' target))
          - Z.of_nat (size (documents_in w target))))%Z ∧
    same_but target w w' ∧
    insert_throttle (manager w') = insert_throttle (manager w).
Proof.
  intros Hbatch Hids Hdst Hwait. unfold copy_batch.
  rewrite run_bind. unfold try_except, pymongo.bulk_write.
  rewrite bool_decide_eq_false_2 by (by destruct batch).
  rewrite run_bind, record_call_run.
  rewrite run_bind, (server_of_run _ _ dst) by done.
  rewrite (apply_upsert_ops batch) by done.
  rewrite run_bind. unfold pymongo.store at 1, modify at 1. cbv beta iota.
  rewrite run_ret.
  set (after := foldl upserted (pymongo.stored dst target) batch).
  set (w1 := with_servers _ _).
  assert (Hdocs : documents_in w target = pymongo.stored dst target)
    by (unfold documents_in; by rewrite Hdst).
  assert (Hdocs1 : documents_in w1 target = after).
  { apply documents_in_store. cbn. by rewrite Hdst. }
  assert (Hsame1 : same_but target w w1).
  { eapply same_but_trans; [apply same_but_journal | apply same_but_store]. }
  rewrite run_bind. unfold gets at 1. cbv beta iota.
  change (insert_throttle (manager w1)) with (insert_throttle (manager w)).
  rewrite run_bind.
  destruct (tum_ti_tum_run target (insert_throttle (manager w)) w1 Hwait)
    as (w2 & -> & Hservers & Hmanager & Hsame2).
  eexists. split; [reflexivity|].
  assert (Hdocs2 : documents_in w2 target = after).
  { rewrite <- Hdocs1. unfold documents_in. by rewrite Hservers. }
  split; [|split; [|split]].
  - change (documents_in (with_manager _ w2) target)
      with (documents_in w2 target).
    by rewrite Hdocs2, Hdocs.
  - change (documents_in (with_manager _ w2) target)
      with (documents_in w2 target).
    rewrite Hdocs2, Hdocs. cbn. rewrite Hmanager. cbn. done.
  - eapply same_but_trans; [exact Hsame1|].
    eapply same_but_trans; [exact Hsame2|]. apply same_but_manager.
  - cbn. by rewrite Hmanager.
Qed.

Lemma copy_loop_run target cursor : ∀ batch w,
  Forall (λ record : doc, is_Some (record !! "_id")) (batch ++ cursor) →
  is_Some (servers w !! coll_client target) →
  (∀ t, insert_throttle (manager w) = Some t → (0 <= t)%Z) →
  ∃ w',
    batched_loop (gets (λ w, insert_batch_size (manager w)))
      (copy_batch target ["_id"]) cursor batch w = (Ok tt, w') ∧
    documents_in w' target
    = foldl upserted (documents_in w target) (batch ++ cursor) ∧
    inserted (manager w')
    = (inserted (manager w)
       + (Z.of_nat (size (documents_in w' target))
          - Z.of_nat (size (documents_in w target))))%Z ∧
    same_but target w w' ∧
    insert_throttle (manager w') = insert_throttle (manager w).
Proof.
  induction cursor as [|record cursor IH]; intros batch w Hids [dst Hdst] Hwait;
    cbn [batched_loop].
  - rewrite app_nil_r in *. case_bool_decide as Hlen.
    + apply (copy_batch_run target batch w dst); try done.
      intros ->. by apply Hlen.
    + destruct batch; [|done]. exists w. split; [done|].
      split; [done|]. split; [lia|]. split; [apply same_but_refl | done].
  - cbv zeta. rewrite run_bind. unfold gets at 1. cbv beta iota.
    assert (Hids' : Forall (λ record : doc, is_Some (record !! "_id"))
                      ((batch ++ [record]) ++ cursor))
      by (by rewrite <- app_assoc).
    replace (batch ++ record :: cursor) with ((batch ++ [record]) ++ cursor)
      by (by rewrite <- app_assoc).
    case_bool_decide as Hfull.
    + rewrite run_bind.
      apply Forall_app in Hids' as [Hbatch Hcursor].
      destruct (copy_batch_run target (batch ++ [record]) w dst
                  ltac:(by destruct batch) Hbatch Hdst Hwait)
        as (w1 & -> & Hdocs1 & Hins1 & Hsame1 & Hwait1).
      destruct (IH [] w1 Hcursor) as (w' & -> & Hdocs & Hins & Hsame & Hwt).
      { destruct Hsame1 as (_&_&Hpresent&_). apply Hpresent. by eexists. }
      { by rewrite Hwait1. }
      exists w'. split; [done|]. cbn [app] in Hdocs.
      split; [|split; [|split]].
      * rewrite Hdocs, Hdocs1. symmetry. apply foldl_app.
      * lia.
      * by eapply same_but_trans.
      * congruence.
    + by apply (IH (batch ++ [record]) w Hids' ltac:(by eexists)).
Qed.

Lemma found_ids spec (m : gmap value doc) :
  batch_ids (pymongo.document_of <$> pymongo.scan spec m)
  = (pymongo.scan spec m).*1.
Proof.
  unfold batch_ids. induction (pymongo.scan spec m) as [|p l IH]; [done|].
  cbn [fmap list_fmap omap list_omap]. rewrite document_of_id. cbn.
  f_equal. apply IH.
Qed.

Lemma found_have_id spec (m : gmap value doc) :
  Forall (λ record : doc, is_Some (record !! "_id"))
    (pymongo.document_of <$> pymongo.scan spec m).
Proof.
  apply Forall_fmap, list.Forall_forall. intros p _. cbn. exists p.1.
  apply document_of_id.
Qed.

Lemma scan_NoDup spec (m : gmap value doc) : NoDup (pymongo.scan spec m).*1.
Proof.
  apply (sublist_NoDup _ (map_to_list m).*1); [apply NoDup_fst_map_to_list|].
  unfold pymongo.scan. apply fmap_sublist, sublist_filter.
Qed.

Lemma copy_cursor_has_ids src source shard_field key :
  Forall (λ record : doc, is_Some (record !! "_id"))
    (copy_cursor src source shard_field key).
Proof.
  unfold copy_cursor. cbv zeta.
  case_bool_decide; [apply sort_Forall|]; apply found_have_id.
Qed.

Lemma copy_cursor_found src source shard_field key :
  copy_cursor src source shard_field key
  ≡ₚ pymongo.document_of
       <$> pymongo.scan {[shard_field := key]} (pymongo.stored src source).
Proof.
  unfold copy_cursor. cbv zeta. case_bool_decide; [|done].
  unfold pymongo.sort. apply merge_sort_Permutation.
Qed.

Lemma copy_cursor_ids src source shard_field key :
  batch_ids (copy_cursor src source shard_field key)
  ≡ₚ (pymongo.scan {[shard_field := key]} (pymongo.stored src source)).*1.
Proof.
  unfold batch_ids. rewrite copy_cursor_found.
  fold (batch_ids
          (pymongo.document_of
             <$> pymongo.scan {[shard_field := key]}
                   (pymongo.stored src source))).
  by rewrite found_ids.
Qed.

Lemma copied_lookup src source shard_field key (m : gmap value doc) i body :
  (i, body) ∈ pymongo.scan {[shard_field := key]} (pymongo.stored src source) →
  foldl upserted m (copy_cursor src source shard_field key) !! i
  = Some (delete "_id" body ∪ default ∅ (m !! i)).
Proof.
  intros Hin.
  rewrite (foldl_upserted_lookup _ _ (pymongo.document_of (i, body)) i).
  - unfold pymongo.document_of. cbn [fst snd]. by rewrite delete_insert_eq.
  - rewrite copy_cursor_ids. apply scan_NoDup.
  - rewrite copy_cursor_found. by apply list_elem_of_fmap_2.
  - apply document_of_id.
Qed.

Lemma copied_other src source shard_field key (m : gmap value doc) i :
  i ∉ (pymongo.scan {[shard_field := key]} (pymongo.stored src source)).*1 →
  foldl upserted m (copy_cursor src source shard_field key) !! i = m !! i.
Proof.
  intros Hi. apply foldl_upserted_other. by rewrite copy_cursor_ids.
Qed.

Lemma do_copy_run
    (cname : string) (key : value) (w : World) (realm : Realm)
    (shard_metadata : ShardMetadata) (source target : Collection)
    (new_loc : string) (src dst : Server) :
  metadata._get_realm_for_collection cname w = (Ok realm, w) →
  _get_metadata_for_shard (realm_name realm) key w = (Ok shard_metadata, w) →
  shard_status shard_metadata = MIGRATING_COPY →
  _get_source_collection_for_reading shard_metadata cname true w
    = (Ok source, w) →
  shard_new_location shard_metadata = Some new_loc →
  _get_collection_from_location_string new_loc cname w = (Ok target, w) →
  servers w !! coll_client source = Some src →
  servers w !! coll_client target = Some dst →
  target_key_of (reported_shard_key dst target) = ["_id"] →
  (∀ t, insert_throttle (manager w) = Some t → (0 <= t)%Z) →
  ∃ w',
    _do_copy cname key w = (Ok tt, w') ∧
    documents_in w' target
    = foldl upserted (documents_in w target)
        (copy_cursor src source (realm_shard_field realm) key) ∧
    inserted (manager w')
    = (inserted (manager w)
       + (Z.of_nat (size (documents_in w' target))
          - Z.of_nat (size (documents_in w target))))%Z ∧
    same_but target w w'.
Proof.
  intros Hrealm Hshard Hstatus Hsource Hnew Htarget Hsrc Hdst Hkey Hwait.
  unfold _do_copy.
  rewrite run_bind, Hrealm, run_bind, Hshard.
  rewrite bool_decide_eq_false_2 by (by intros ?).
  rewrite run_bind, Hsource, Hnew, run_bind. cbn [subscript].
  rewrite run_ret, run_bind, Htarget, run_bind.
  rewrite (sniff_mongos_shard_key_run _ _ _ Hdst), Hkey.
  rewrite run_bind, (find_run _ _ _ _ Hsrc).
  rewrite run_bind, (shard_field_id_index_run _ _ _ _ Hsrc).
  cbv zeta. unfold try_finally, batched_cursor_iterator.
  rewrite sorted_when_indexed.
  fold (copy_cursor src source (realm_shard_field realm) key).
  destruct (copy_loop_run target
              (copy_cursor src source (realm_shard_field realm) key)
              [] w (copy_cursor_has_ids _ _ _ _) ltac:(by eexists) Hwait)
    as (w1 & -> & Hdocs & Hins & Hsame & _).
  rewrite record_call_run. eexists. split; [reflexivity|].
  cbn [app] in Hdocs. rewrite !documents_in_journal.
  split; [done|]. split; [done|].
  eapply same_but_trans; [exact Hsame | apply same_but_journal].
Qed.

(** X14: a copy into a destination that reports no shard key, with a
    throttle that is not negative, ends well; every document of the shard
    on the server that is read is then at the destination under its [_id],
    its fields set over what the destination held under that [_id]; no
    other document of the destination and no other collection has changed,
    and [inserted] has grown by the number of documents that are new. *)
Theorem copy_upserts_every_shard_document
    (cname : string) (key : value) (w : World) (realm : Realm)
    (shard_metadata : ShardMetadata) (source target : Collection)
    (new_loc : string) (src dst : Server) :
  metadata._get_realm_for_collection cname w = (Ok realm, w) →
  _get_metadata_for_shard (realm_name realm) key w = (Ok shard_metadata, w) →
  shard_status shard_metadata = MIGRATING_COPY →
  _get_source_collection_for_reading shard_metadata cname true w
    = (Ok source, w) →
  shard_new_location shard_metadata = Some new_loc →
  _get_collection_from_location_string new_loc cname w = (Ok target, w) →
  servers w !! coll_client source = Some src →
  servers w !! coll_client target = Some dst →
  target_key_of (reported_shard_key dst target) = ["_id"] →
  (∀ t, insert_throttle (manager w) = Some t → (0 <= t)%Z) →
  let found :=
    pymongo.scan {[realm_shard_field realm := key]}
      (pymongo.stored src source) in
  ∃ w',
    _do_copy cname key w = (Ok tt, w') ∧
    (∀ i body, (i, body) ∈ found →
       documents_in w' target !! i
       = Some (delete "_id" body ∪ default ∅ (documents_in w target !! i))) ∧
    (∀ i, i ∉ found.*1 →
       documents_in w' target !! i = documents_in w target !! i) ∧
    inserted (manager w')
    = (inserted (manager w)
       + (Z.of_nat (size (documents_in w' target))
          - Z.of_nat (size (documents_in w target))))%Z ∧
    (∀ c, c ≠ target → documents_in w' c = documents_in w c).
Proof.
  intros Hrealm Hshard Hstatus Hsource Hnew Htarget Hsrc Hdst Hkey Hwait found.
  destruct (do_copy_run cname key w realm shard_metadata source target
              new_loc src dst Hrealm Hshard Hstatus Hsource Hnew Htarget
              Hsrc Hdst Hkey Hwait)
    as (w' & Hrun & Hdocs & Hins & Hsame).
  exists w'. split; [done|]. split; [|split; [|split]].
  - intros i body Hin. rewrite Hdocs. by apply copied_lookup.
  - intros i Hi. rewrite Hdocs. by apply copied_other.
  - done.
  - by destruct Hsame as (_&_&_&_&Hother).
Qed.

#[global] Instance same_metadata_preorder : PreOrder same_metadata.
Proof.
  split.
  - by intros w.
  - intros w1 w2 w3 (?&?&?&?) (?&?&?&?). repeat split; congruence.
Qed.

#[global] Instance same_delete_side_preorder : PreOrder same_delete_side.
Proof.
  split.
  - by intros w.
  - intros w1 w2 w3 (?&?) (?&?). split; congruence.
Qed.

#[global] Instance same_copy_side_preorder : PreOrder same_copy_side.
Proof.
  split.
  - by intros w.
  - intros w1 w2 w3 (?&?) (?&?). split; congruence.
Qed.

Section Loops.
Context {S : Type} (R : relation S) `{!PreOrder R}.

Lemma preserves_modify (f : S → S) : (∀ s, R s (f s)) → preserves R (modify f).
Proof. intros Hf s. apply Hf. Qed.

Lemma preserves_batched_loop {A} (size_fn : M S Z)
  (consume : list A → M S unit) (cursor : list A) :
preserves R size_fn → (∀ batch, preserves R (consume batch)) →
∀ batch, preserves R (batched_loop size_fn consume cursor batch).
Proof.
intros Hsize Hconsume.
induction cursor as [|record cursor IH]; intros batch; cbn [batched_loop].
- case_bool_decide; [apply Hconsume | by apply preserves_ret].
- cbv zeta. apply preserves_bind; [done..|]. intros size.
  case_bool_decide; [|apply IH].
  apply preserves_bind; [done | apply Hconsume | intros _; apply IH].
Qed.

Lemma preserves_weaken {A} (R' : relation S) (m : M S A) :
(∀ s s', R' s s' → R s s') → preserves R' m → preserves R m.
Proof. intros Himp Hm s. apply Himp, Hm. Qed.
End Loops.

Ltac unfold_calls :=
  progress unfold record_call, log, pretty_log, time_time, time_sleep,
    pymongo.server_of, pymongo.store, pymongo.find, pymongo.find_ids,
    pymongo.index_information, pymongo.insert, pymongo.update,
    pymongo.remove, pymongo.delete_many, pymongo.bulk_write,
    metadata._get_realm_for_collection, api._get_shards_coll,
    api.get_caching_duration, connection.parse_location,
    connection.get_connection, connection.close_thread_connections,
    hidden_secondaries.get_hidden_secondary_connection,
    hidden_secondaries.close_connections_to_hidden_secondaries,
    _get_collection_from_location_string, _shard_field_id_index,
    _get_source_collection_for_reading, sniff_mongos_shard_key,
    _get_metadata_for_shard, tum_ti_tum, inc_inserted, inc_deleted,
    set_phase, copy_batch, _get_oplog_pos, _oplog_still_contains_ts,
    tail_oplog_for_collection, replay_oplog_entry, delete_batch,
    batched_cursor_iterator.

Ltac keeps_step :=
  cbv beta zeta;
  lazymatch goal with
  | |- PreOrder _ => apply _
  | |- preserves _ (_ ≫= _) => apply preserves_bind; [apply _ | | intros ?]
  | |- preserves _ (mret _) => apply preserves_ret
  | |- preserves _ (raise _) => apply preserves_raise
  | |- preserves _ (gets _) => apply preserves_gets
  | |- preserves _ get => apply preserves_get
  | |- preserves _ out_of_fuel => intros ?; reflexivity
  | |- preserves _ (subscript _ _) => apply preserves_subscript
  | |- preserves _ (modify _) =>
      apply preserves_modify; intros ?; repeat split
  | |- preserves _ (try_except _ _ _) =>
      apply preserves_try_except; [apply _ | | intros ?]
  | |- preserves _ (try_finally _ _) =>
      apply preserves_try_finally; [apply _ | |]
  | |- preserves _ (batched_loop _ _ _ _) =>
      apply preserves_batched_loop; [apply _ | | intros ?]
  | |- preserves _ (if ?b then _ else _) => destruct b
  | |- preserves _ (match ?x with _ => _ end) => destruct x
  end.

Ltac keeps := repeat first [keeps_step | unfold_calls].

Lemma same_metadata_ids_of batch : preserves same_metadata (ids_of batch).
Proof.
  induction batch as [|record batch IH]; cbn [ids_of]; [keeps|].
  apply preserves_bind; [apply _ | keeps | intros ?].
  apply preserves_bind; [apply _ | apply IH | intros ?]. keeps.
Qed.

Lemma same_metadata_replay_entries sel source target cursor : ∀ pos,
  preserves same_metadata (replay_entries sel source target cursor pos).
Proof.
  induction cursor as [|entry cursor IH]; intros pos; cbn [replay_entries].
  - keeps.
  - apply preserves_bind; [apply _ | keeps | intros _; apply IH].
Qed.

Lemma same_metadata_get_oplog_pos cname key :
  preserves same_metadata (_get_oplog_pos cname key).
Proof. keeps. Qed.

Lemma same_metadata_do_copy cname key :
  preserves same_metadata (_do_copy cname key).
Proof. unfold _do_copy. keeps. Qed.

Lemma same_metadata_sync cname key pos :
  preserves same_metadata (_sync_from_oplog cname key pos).
Proof.
  unfold _sync_from_oplog.
  repeat first [apply same_metadata_replay_entries | keeps_step | unfold_calls].
Qed.

Lemma same_metadata_delete cname key use_hidden_secondary :
  preserves same_metadata (_delete_source_data cname key use_hidden_secondary).
Proof.
  unfold _delete_source_data.
  repeat first [apply same_metadata_ids_of | keeps_step | unfold_calls].
Qed.

Lemma same_metadata_sleep t : preserves same_metadata (time_sleep t).
Proof. keeps. Qed.

Lemma same_metadata_set_phase p : preserves same_metadata (set_phase p).
Proof. keeps. Qed.

Lemma same_metadata_sync_while_caching fuel self start : ∀ pos,
  preserves same_metadata (sync_while_caching fuel self start pos).
Proof.
  induction fuel as [|fuel IH]; intros pos; cbn [sync_while_caching].
  - keeps.
  - apply preserves_bind; [apply _ | keeps | intros t].
    apply preserves_bind; [apply _ | keeps | intros duration].
    case_bool_decide; [|keeps].
    apply preserves_bind; [apply _ | apply same_metadata_sleep | intros _].
    apply preserves_bind; [apply _ | apply same_metadata_sync | intros ?].
    apply IH.
Qed.

Lemma preserves_run {S A} (R : relation S) (m : M S A) s r s' :
  preserves R m → m s = (r, s') → R s s'.
Proof. intros Hm Hrun. specialize (Hm s). by rewrite Hrun in Hm. Qed.

Lemma same_delete_side_do_copy cname key :
  preserves same_delete_side (_do_copy cname key).
Proof. unfold _do_copy. keeps. Qed.

Lemma same_copy_side_delete cname key use_hidden_secondary :
  preserves same_copy_side (_delete_source_data cname key use_hidden_secondary).
Proof.
  unfold _delete_source_data.
  assert (Hids : ∀ batch, preserves same_copy_side (ids_of batch)).
  { induction batch as [|record batch IH]; cbn [ids_of]; [keeps|].
    apply preserves_bind; [apply _ | keeps | intros ?].
    apply preserves_bind; [apply _ | apply IH | intros ?]. keeps. }
  repeat first [apply Hids | keeps_step | unfold_calls].
Qed.

#[global] Instance keeping_preorder {S} (I : S → Prop) : PreOrder (keeping I).
Proof.
  split; [intros s Hs; exact Hs | intros s1 s2 s3 H1 H2 H; apply H2, H1, H].
Qed.

Lemma ends_in_bind {S A B} (I : S → Prop) (Q : outcome B → S → Prop)
    (m : M S A) (k : A → M S B) :
  preserves (keeping I) m → (∀ a, ends_in I Q (k a)) →
  (∀ e s, I s → Q (Raise e) s) → (∀ s, I s → Q OutOfFuel s) →
  ends_in I Q (m ≫= k).
Proof.
  intros Hm Hk Hraise Hfuel s Hs. rewrite run_bind.
  specialize (Hm s Hs). destruct (m s) as [[a|e|] s']; cbn [fst snd] in *.
  - by apply Hk.
  - by apply Hraise.
  - by apply Hfuel.
Qed.

Lemma get_realm_same cname realm w w' :
  realms w' = realms w →
  metadata._get_realm_for_collection cname w = (Ok realm, w) →
  metadata._get_realm_for_collection cname w' = (Ok realm, w').
Proof.
  unfold metadata._get_realm_for_collection. rewrite !run_bind. cbn [get].
  intros ->. destruct (filter _ (realms w)) as [|r rest]; [done|].
  by intros [= ->].
Qed.

Lemma same_metadata_in_flight {A} w0 realm self (m : M World A) :
  preserves same_metadata m → preserves (keeping (in_flight w0 realm self)) m.
Proof.
  intros Hm w (Hrealm & Hrealms & Hthread & status & Hstatus & Hshards).
  destruct (Hm w) as (Hr & Hs & _ & Ht).
  split; [by apply (get_realm_same _ _ w)|].
  split; [congruence|]. split; [congruence|].
  exists status. split; [done | congruence].
Qed.

Lemma is_shard_migrating realm_name key new_location status sh :
  api.is_shard realm_name key
    {| shard_realm := shard_realm sh; shard_shard_key := shard_shard_key sh;
       shard_status := status; shard_location := shard_location sh;
       shard_new_location := new_location |}
  = api.is_shard realm_name key sh.
Proof. reflexivity. Qed.

Lemma set_status_migrating realm_name key new_location status status' shs :
  (λ sh, if api.is_shard realm_name key sh then
           {| shard_realm := shard_realm sh;
              shard_shard_key := shard_shard_key sh;
              shard_status := status';
              shard_location := shard_location sh;
              shard_new_location := shard_new_location sh |}
         else sh) <$> migrating_shards realm_name key new_location status shs
  = migrating_shards realm_name key new_location status' shs.
Proof.
  unfold migrating_shards. rewrite <- list_fmap_compose.
  apply list_fmap_ext. intros _ sh _. cbn.
  destruct (api.is_shard realm_name key sh) eqn:Hsh.
  - by rewrite is_shard_migrating, Hsh.
  - by rewrite Hsh.
Qed.

Lemma at_rest_migrating realm_name key new_location status location shs :
  shards_at_rest realm_name key location
    (migrating_shards realm_name key new_location status shs)
  = shards_at_rest realm_name key location shs.
Proof.
  unfold shards_at_rest, migrating_shards. rewrite <- list_fmap_compose.
  apply list_fmap_ext. intros _ sh _. cbn.
  destruct (api.is_shard realm_name key sh) eqn:Hsh.
  - by rewrite is_shard_migrating, Hsh.
  - by rewrite Hsh.
Qed.

Lemma set_status_in_flight w0 realm self status :
  status ∈ metadata.MIGRATION_PHASES →
  preserves (keeping (in_flight w0 realm self))
    (api.set_shard_to_migration_status (thread_collection_name self)
       (thread_shard_key self) status).
Proof.
  intros Hphase w (Hrealm & Hrealms & Hthread & status0 & Hstatus0 & Hshards).
  unfold api.set_shard_to_migration_status.
  rewrite run_bind, Hrealm, bool_decide_eq_true_2 by done.
  cbn [snd]. unfold api.update_shard, modify. cbn [snd].
  split; [by apply (get_realm_same _ _ w)|].
  split; [done|]. split; [done|].
  exists status. split; [done|]. cbn [shards with_shards].
  rewrite Hshards. apply set_status_migrating.
Qed.

Lemma api_start_migration_run cname key new_location w realm sh :
  metadata._get_realm_for_collection cname w = (Ok realm, w) →
  filter (λ sh, api.is_shard (realm_name realm) key sh = true) (shards w)
    = [sh] →
  shard_status sh = AT_REST →
  api.start_migration cname key new_location w
  = (Ok tt,
     with_shards
       (migrating_shards (realm_name realm) key new_location MIGRATING_COPY) w).
Proof.
  intros Hrealm Hsh Hrest. unfold api.start_migration.
  rewrite run_bind, Hrealm, run_bind.
  unfold api._get_shards_coll, gets at 1. cbv beta iota.
  rewrite Hsh, bool_decide_eq_true_2 by done. reflexivity.
Qed.

Lemma api_start_migration_Ok cname key new_location w w' :
  api.start_migration cname key new_location w = (Ok tt, w') →
  ∃ realm sh,
    metadata._get_realm_for_collection cname w = (Ok realm, w) ∧
    filter (λ sh, api.is_shard (realm_name realm) key sh = true) (shards w)
      = [sh] ∧
    shard_status sh = AT_REST.
Proof.
  unfold api.start_migration. rewrite run_bind.
  assert (Hstate : (metadata._get_realm_for_collection cname w).2 = w).
  { unfold metadata._get_realm_for_collection. rewrite run_bind. cbn [get].
    by destruct (filter _ (realms w)). }
  destruct (metadata._get_realm_for_collection cname w) as [[realm|e|] w1]
    eqn:Hrealm; [|done..].
  cbn [snd] in Hstate. subst w1. rewrite run_bind.
  unfold api._get_shards_coll, gets at 1. cbv beta iota.
  destruct (filter _ (shards w)) as [|sh [|sh' rest]] eqn:Hfilter;
    [by intros [=] | | by intros [=]].
  case_bool_decide; [|by intros [=]]. intros _. by exists realm, sh.
Qed.

Lemma phases_end_raise w0 realm self e w :
  in_flight w0 realm self w → phases_end w0 realm self (Raise e) w.
Proof. intros (_ & ? & ? & ?). by split; [|split]. Qed.

Lemma phases_end_fuel w0 realm self w :
  in_flight w0 realm self w → phases_end w0 realm self OutOfFuel w.
Proof. intros (_ & ? & ? & ?). by split; [|split]. Qed.

Lemma at_rest_ends w0 realm self :
  ends_in (in_flight w0 realm self) (phases_end w0 realm self)
    (api.set_shard_at_rest (thread_collection_name self)
       (thread_shard_key self) (thread_new_location self) true;;
     set_phase "complete").
Proof.
  intros w (Hrealm & Hrealms & Hthread & status & Hstatus & Hshards).
  rewrite run_bind. unfold api.set_shard_at_rest.
  rewrite run_bind, Hrealm. unfold api.update_shard, set_phase, modify.
  unfold phases_end. cbn [fst snd].
  split; [done|]. split; [done|]. split; [|done].
  cbn [shards with_shards with_manager]. rewrite Hshards.
  apply at_rest_migrating.
Qed.

Ltac phase_step :=
  apply ends_in_bind;
    [ | intros ? | apply phases_end_raise | apply phases_end_fuel ].

Lemma phases_after_start fuel self w0 realm :
  ends_in (in_flight w0 realm self) (phases_end w0 realm self)
    (oplog_pos ← _get_oplog_pos (thread_collection_name self)
                   (thread_shard_key self);
     _do_copy (thread_collection_name self) (thread_shard_key self);;
     set_phase "sync";;
     start_sync_time ← time_time;
     api.set_shard_to_migration_status (thread_collection_name self)
       (thread_shard_key self) MIGRATING_SYNC;;
     oplog_pos ← _sync_from_oplog (thread_collection_name self)
                   (thread_shard_key self) oplog_pos;
     oplog_pos ← sync_while_caching fuel self start_sync_time oplog_pos;
     api.set_shard_to_migration_status (thread_collection_name self)
       (thread_shard_key self) POST_MIGRATION_PAUSED_AT_DESTINATION;;
     time_sleep 100;;
     _sync_from_oplog (thread_collection_name self) (thread_shard_key self)
       oplog_pos;;
     set_phase "delete";;
     api.set_shard_to_migration_status (thread_collection_name self)
       (thread_shard_key self) POST_MIGRATION_DELETE;;
     _delete_source_data (thread_collection_name self) (thread_shard_key self)
       true;;
     _delete_source_data (thread_collection_name self) (thread_shard_key self)
       false;;
     api.set_shard_at_rest (thread_collection_name self) (thread_shard_key self)
       (thread_new_location self) true;;
     set_phase "complete").
Proof.
  phase_step.
  { apply same_metadata_in_flight, same_metadata_get_oplog_pos. }
  phase_step.
  { apply same_metadata_in_flight, same_metadata_do_copy. }
  phase_step.
  { apply same_metadata_in_flight, same_metadata_set_phase. }
  phase_step.
  { apply same_metadata_in_flight. unfold time_time. keeps. }
  phase_step.
  { apply set_status_in_flight. set_solver. }
  phase_step.
  { apply same_metadata_in_flight, same_metadata_sync. }
  phase_step.
  { apply same_metadata_in_flight, same_metadata_sync_while_caching. }
  phase_step.
  { apply set_status_in_flight. set_solver. }
  phase_step.
  { apply same_metadata_in_flight, same_metadata_sleep. }
  phase_step.
  { apply same_metadata_in_flight, same_metadata_sync. }
  phase_step.
  { apply same_metadata_in_flight, same_metadata_set_phase. }
  phase_step.
  { apply set_status_in_flight. set_solver. }
  phase_step.
  { apply same_metadata_in_flight, same_metadata_delete. }
  phase_step.
  { apply same_metadata_in_flight, same_metadata_delete. }
  apply at_rest_ends.
Qed.

Lemma run_phases_started fuel self w realm sh r w' :
  metadata._get_realm_for_collection (thread_collection_name self) w
    = (Ok realm, w) →
  filter (λ sh, api.is_shard (realm_name realm) (thread_shard_key self) sh
                = true) (shards w) = [sh] →
  shard_status sh = AT_REST →
  run_phases fuel self w = (r, w') →
  phases_end w realm self r w'.
Proof.
  intros Hrealm Hsh Hrest. unfold run_phases.
  rewrite run_bind. unfold set_phase at 1, modify at 1. cbv beta iota.
  set (w1 := with_manager _ w).
  rewrite run_bind.
  rewrite (api_start_migration_run _ _ _ w1 realm sh);
    [|by apply (get_realm_same _ _ w)|done..].
  intros Hrun.
  assert (Hstart : in_flight w realm self
            (with_shards
               (migrating_shards (realm_name realm) (thread_shard_key self)
                  (thread_new_location self) MIGRATING_COPY) w1)).
  { split; [by apply (get_realm_same _ _ w)|].
    split; [done|]. split; [done|].
    exists MIGRATING_COPY. split; [set_solver | done]. }
  apply (phases_after_start fuel self w realm) in Hstart.
  by rewrite Hrun in Hstart.
Qed.

Lemma run_phases_Ok_started fuel self w w' :
  run_phases fuel self w = (Ok tt, w') →
  ∃ realm sh,
    metadata._get_realm_for_collection (thread_collection_name self) w
      = (Ok realm, w) ∧
    filter (λ sh, api.is_shard (realm_name realm) (thread_shard_key self) sh
                  = true) (shards w) = [sh] ∧
    shard_status sh = AT_REST.
Proof.
  unfold run_phases.
  rewrite run_bind. unfold set_phase at 1, modify at 1. cbv beta iota.
  set (w1 := with_manager _ w). rewrite run_bind.
  destruct (api.start_migration _ _ _ w1) as [[[]|e|] w2] eqn:Hstart;
    [|done..].
  intros _. apply api_start_migration_Ok in Hstart as (realm & sh & ? & ? & ?).
  exists realm, sh. split; [|done].
  by apply (get_realm_same _ _ w1).
Qed.

Lemma run_ends fuel self w :
  run fuel self w
  = match run_phases fuel self w with
    | (Ok a, w1) =>
        (Ok a,
         with_journal (λ j, j ++ [CloseHiddenSecondaryConnections])
           (with_journal (λ j, j ++ [CloseThreadConnections]) w1))
    | (Raise e, w1) =>
        (Raise e,
         with_journal (λ j, j ++ [CloseHiddenSecondaryConnections])
           (with_journal (λ j, j ++ [CloseThreadConnections])
              (set_exception e w1).2))
    | (OutOfFuel, w1) => (OutOfFuel, w1)
    end.
Proof.
  unfold run, try_finally, try_except.
  by destruct (run_phases fuel self w) as [[[]|e|] w1].
Qed.

(** X15: a run that returns started from a shard at rest; when it returns
    the shards collection differs from the one it started with only in
    that this shard is at rest at the new location, the phase is
    [complete], the thread records no exception and the last two calls
    are the closing of the connections. *)
Theorem completed_run_leaves_shard_at_rest
    (fuel : nat) (self : ShardMovementThread) (w : World) :
  (run fuel self w).1 = Ok tt →
  let w' := (run fuel self w).2 in
  ∃ realm sh,
    metadata._get_realm_for_collection (thread_collection_name self) w
      = (Ok realm, w) ∧
    filter (λ sh, api.is_shard (realm_name realm) (thread_shard_key self) sh
                  = true) (shards w) = [sh] ∧
    shard_status sh = AT_REST ∧
    shards w' = shards_at_rest (realm_name realm) (thread_shard_key self)
                  (thread_new_location self) (shards w) ∧
    realms w' = realms w ∧
    phase (manager w') = Some "complete" ∧
    migration_thread w' = migration_thread w ∧
    ∃ calls,
      journal w'
      = calls ++ [CloseThreadConnections; CloseHiddenSecondaryConnections].
Proof.
  rewrite run_ends.
  destruct (run_phases fuel self w) as [[[]|e|] w1] eqn:Hphases; [|done..].
  intros _. cbn [fst snd].
  destruct (run_phases_Ok_started _ _ _ _ Hphases) as (realm & sh & Hr & Hs & Ha).
  destruct (run_phases_started fuel self w realm sh _ _ Hr Hs Ha Hphases)
    as (Hrealms & Hthread & Hshards & Hp).
  exists realm, sh. do 3 (split; [done|]).
  cbn. split; [done|]. split; [done|]. split; [done|]. split; [done|].
  exists (journal w1). by rewrite <- app_assoc.
Qed.

(** X16: a run on a shard at rest that raises leaves the shard in a
    migration status, with its location as it was and the new location
    set: nothing is rolled back.  The exception is recorded on the thread
    and raised again, the connections are closed last, and every further
    [_begin_migration] is refused. *)
Theorem failed_run_leaves_shard_migrating
    (fuel : nat) (self : ShardMovementThread) (w : World) (realm : Realm)
    (sh : ShardMetadata) (e : exn) :
  metadata._get_realm_for_collection (thread_collection_name self) w
    = (Ok realm, w) →
  filter (λ sh, api.is_shard (realm_name realm) (thread_shard_key self) sh
                = true) (shards w) = [sh] →
  shard_status sh = AT_REST →
  (run fuel self w).1 = Raise e →
  let w' := (run fuel self w).2 in
  (∃ status, status ∈ metadata.MIGRATION_PHASES ∧
     shards w' = migrating_shards (realm_name realm) (thread_shard_key self)
                   (thread_new_location self) status (shards w)) ∧
  thread_exception <$> migration_thread w'
  = (λ _, Some e) <$> migration_thread w ∧
  (∃ calls,
     journal w'
     = calls ++ [CloseThreadConnections; CloseHiddenSecondaryConnections]) ∧
  ∀ cname key new_location delete_throttle insert_throttle
    delete_batch_size insert_batch_size,
    _begin_migration cname key new_location delete_throttle insert_throttle
      delete_batch_size insert_batch_size w'
    = (Raise (Exception
         "Cannot start migration when another migration is in progress"), w').
Proof.
  intros Hr Hs Ha.
  rewrite run_ends.
  destruct (run_phases fuel self w) as [[[]|e'|] w1] eqn:Hphases; [done| |done].
  cbn [fst snd] in *. intros [= ->].
  destruct (run_phases_started fuel self w realm sh _ _ Hr Hs Ha Hphases)
    as (Hrealms & Hthread & status & Hstatus & Hshards).
  assert (Hmigrating :
    Exists (λ sh, shard_status sh ∈ metadata.MIGRATION_PHASES)
      (migrating_shards (realm_name realm) (thread_shard_key self)
         (thread_new_location self) status (shards w))).
  { assert (Hin : sh ∈ filter (λ sh, api.is_shard (realm_name realm)
                                    (thread_shard_key self) sh = true)
                          (shards w)) by (rewrite Hs; constructor).
    apply list_elem_of_filter in Hin as [Hmine Hin].
    apply Exists_exists. eexists. split.
    - unfold migrating_shards. apply list_elem_of_fmap_2, Hin.
    - cbn. by rewrite Hmine. }
  split; [|split; [|split]].
  - exists status. split; [done|]. cbn. done.
  - cbn. rewrite Hthread. by destruct (migration_thread w).
  - exists (journal w1). cbn. by rewrite <- app_assoc.
  - intros. unfold _begin_migration. rewrite run_bind.
    unfold metadata.are_migrations_happening, gets at 1. cbv beta iota.
    cbn [shards set_exception]. cbn. rewrite Hshards.
    by rewrite bool_decide_eq_true_2.
Qed.

Lemma get_shard_same realm_name key sm w w' :
  shards w' = shards w →
  _get_metadata_for_shard realm_name key w = (Ok sm, w) →
  _get_metadata_for_shard realm_name key w' = (Ok sm, w').
Proof.
  unfold _get_metadata_for_shard, api._get_shards_coll.
  rewrite !run_bind. unfold gets. cbv beta iota. intros ->.
  destruct (filter _ (shards w)) as [|sh [|sh' rest]];
    [by intros [=] | | by intros [=]].
  by intros [= ->].
Qed.

Lemma scan_twice spec (m : gmap value doc) (seen : list value) :
  filter (λ p : value * doc,
            p.1 ∉ (pymongo.scan spec
                     (filter (λ p : value * doc, p.1 ∉ seen) m)).*1)
         (filter (λ p : value * doc, p.1 ∉ seen) m)
  = filter (λ p : value * doc,
              (p.1 ∉ seen) ∧
              pymongo.matches spec (pymongo.document_of p) = false)
           m.
Proof.
  rewrite map_filter_filter. apply map_filter_ext. intros i body Hm. cbn.
  split.
  - intros [Hnot Hseen]. split; [done|].
    destruct (pymongo.matches spec (pymongo.document_of (i, body))) eqn:Hmatch;
      [|done].
    exfalso. apply Hnot. apply list_elem_of_fmap. exists (i, body).
    split; [done|]. unfold pymongo.scan. apply list_elem_of_filter.
    split; [done|]. apply elem_of_map_to_list.
    apply map_lookup_filter_Some. by split.
  - intros [Hseen Hmatch]. split; [|done].
    intros ([j body'] & Hj & Hin)%list_elem_of_fmap. cbn in Hj. subst j.
    unfold pymongo.scan in Hin. apply list_elem_of_filter in Hin as [Hyes Hin].
    apply elem_of_map_to_list, map_lookup_filter_Some in Hin as [Hlook _].
    rewrite Hm in Hlook. injection Hlook as <-. cbn in Hyes. congruence.
Qed.

(** X17: [fix_failed_during_delete] on a shard that is not in the delete
    status raises and leaves the world as it was. *)
Theorem repair_during_delete_needs_delete_status
    (cname : string) (key : value) (delete_batch_size : Z)
    (delete_throttle : option Z) (w : World) (realm : Realm)
    (shard_metadata : ShardMetadata) :
  metadata._get_realm_for_collection cname w = (Ok realm, w) →
  _get_metadata_for_shard (realm_name realm) key w = (Ok shard_metadata, w) →
  shard_status shard_metadata ≠ POST_MIGRATION_DELETE →
  fix_failed_during_delete cname key delete_batch_size delete_throttle w
  = (Raise (Exception "Shard not in POST_MIGRATION_DELETE phase."), w).
Proof.
  intros Hrealm Hshard Hstatus. unfold fix_failed_during_delete.
  rewrite run_bind, Hrealm, run_bind, Hshard.
  by rewrite bool_decide_eq_true_2.
Qed.

Lemma source_data_deleted
    (cname : string) (key : value) (w : World) (realm : Realm)
    (shard_metadata : ShardMetadata) (cluster db : string) (reader : Server) :
  metadata._get_realm_for_collection cname w = (Ok realm, w) →
  _get_metadata_for_shard (realm_name realm) key w = (Ok shard_metadata, w) →
  shard_status shard_metadata = POST_MIGRATION_DELETE →
  connection.split_location (shard_location shard_metadata)
    = Some (cluster, db) →
  is_Some (servers w !! Primary cluster) →
  servers w !! (match servers w !! HiddenSecondary cluster with
                | Some _ => HiddenSecondary cluster
                | None => Primary cluster
                end) = Some reader →
  (∀ t, delete_throttle (manager w) = Some t → (0 <= t)%Z) →
  let source :=
    {| coll_client := Primary cluster; coll_database := db;
       coll_name := cname |} in
  let shard_selector : doc := {[realm_shard_field realm := key]} in
  let seen :=
    (pymongo.scan shard_selector
       (default ∅ (collections reader !! (db, cname)))).*1 in
  ∃ w1 w2,
    _delete_source_data cname key true w = (Ok tt, w1) ∧
    _delete_source_data cname key false w1 = (Ok tt, w2) ∧
    documents_in w2 source
    = filter (λ p, (p.1 ∉ seen) ∧
                   pymongo.matches shard_selector (pymongo.document_of p)
                   = false)
             (documents_in w source) ∧
    same_but source w w2 ∧
    deleted (manager w2)
    = (deleted (manager w)
       + (Z.of_nat (size (documents_in w source))
          - Z.of_nat (size (documents_in w2 source))))%Z.
Proof.
  intros Hrealm Hshard Hstatus Hloc Hprimary Hreader Hwait source sel seen.
  (* the bulk of the deletion, read where the copy read *)
  destruct (delete_source_data_run cname key true w realm shard_metadata
              source
              {| coll_client :=
                   match servers w !! HiddenSecondary cluster with
                   | Some _ => HiddenSecondary cluster
                   | None => Primary cluster
                   end;
                 coll_database := db; coll_name := cname |}
              reader Hrealm Hshard Hstatus
              (location_run _ _ _ _ _ Hloc)
              (reading_run _ _ _ _ true _ Hloc) Hreader Hprimary Hwait)
    as (w1 & Hrun1 & Hdocs1 & Hdel1 & Hsame1 & Hthrottle1).
  destruct (preserves_run _ _ _ _ _ (same_metadata_delete cname key true)
              Hrun1) as (Hr1 & Hs1 & _ & _).
  (* the stragglers, read from the primary *)
  assert (Hprimary1 : is_Some (servers w1 !! Primary cluster)).
  { destruct Hsame1 as (_&_&Hpresent&_). by apply Hpresent. }
  destruct Hprimary1 as [primary Hp1].
  destruct (delete_source_data_run cname key false w1 realm shard_metadata
              source source primary
              (get_realm_same _ _ _ _ Hr1 Hrealm)
              (get_shard_same _ _ _ _ _ Hs1 Hshard) Hstatus
              (location_run _ _ _ _ _ Hloc)
              (reading_run _ _ _ _ false _ Hloc) Hp1 ltac:(by eexists))
    as (w2 & Hrun2 & Hdocs2 & Hdel2 & Hsame2 & _).
  { intros t. rewrite Hthrottle1. apply Hwait. }
  exists w1, w2. split; [done|]. split; [done|].
  assert (Hstored1 : pymongo.stored primary source = documents_in w1 source)
    by (unfold documents_in; cbn [coll_client source]; by rewrite Hp1).
  split; [|split].
  - rewrite Hdocs2, Hstored1, Hdocs1. apply scan_twice.
  - by eapply same_but_trans.
  - rewrite Hdel2, Hdel1. lia.
Qed.

Lemma no_match_left spec (m : gmap value doc) (seen : list value) :
  pymongo.scan spec
    (filter (λ p : value * doc,
               (p.1 ∉ seen) ∧
               pymongo.matches spec (pymongo.document_of p) = false) m)
  = [].
Proof.
  unfold pymongo.scan. apply filter_none. intros [i body] Hin Hmatch.
  apply elem_of_map_to_list, map_lookup_filter_Some in Hin as [_ [_ Hno]].
  cbn in Hno, Hmatch. congruence.
Qed.

(** X18: [fix_failed_during_delete] on a shard in the delete status, with
    a throttle that is not negative, ends well: the collection at the
    shard's location has lost the documents of the shard and those whose
    [_id] the server that is read first holds for the shard, and nothing
    else; no other collection has changed, the shard is at rest at the new
    location, and [deleted] of the manager it made counts the documents
    removed. *)
Theorem repair_during_delete_finishes_the_migration
    (cname : string) (key : value) (batch_size : Z) (throttle : option Z)
    (w : World) (realm : Realm) (shard_metadata : ShardMetadata)
    (cluster db new_loc : string) (reader : Server) :
  metadata._get_realm_for_collection cname w = (Ok realm, w) →
  _get_metadata_for_shard (realm_name realm) key w = (Ok shard_metadata, w) →
  shard_status shard_metadata = POST_MIGRATION_DELETE →
  shard_new_location shard_metadata = Some new_loc →
  connection.split_location (shard_location shard_metadata)
    = Some (cluster, db) →
  is_Some (servers w !! Primary cluster) →
  servers w !! (match servers w !! HiddenSecondary cluster with
                | Some _ => HiddenSecondary cluster
                | None => Primary cluster
                end) = Some reader →
  (∀ t, throttle = Some t → (0 <= t)%Z) →
  let source :=
    {| coll_client := Primary cluster; coll_database := db;
       coll_name := cname |} in
  let shard_selector : doc := {[realm_shard_field realm := key]} in
  let seen :=
    (pymongo.scan shard_selector
       (default ∅ (collections reader !! (db, cname)))).*1 in
  ∃ w',
    fix_failed_during_delete cname key batch_size throttle w = (Ok tt, w') ∧
    documents_in w' source
    = filter (λ p, (p.1 ∉ seen) ∧
                   pymongo.matches shard_selector (pymongo.document_of p)
                   = false)
             (documents_in w source) ∧
    pymongo.scan shard_selector (documents_in w' source) = [] ∧
    (∀ c, c ≠ source → documents_in w' c = documents_in w c) ∧
    shards w' = shards_at_rest (realm_name realm) key new_loc (shards w) ∧
    deleted (manager w')
    = (Z.of_nat (size (documents_in w source))
       - Z.of_nat (size (documents_in w' source)))%Z.
Proof.
  intros Hrealm Hshard Hstatus Hnew Hloc Hprimary Hreader Hwait
    source sel seen.
  unfold fix_failed_during_delete.
  rewrite run_bind, Hrealm, run_bind, Hshard.
  rewrite bool_decide_eq_false_2 by (by intros ?).
  rewrite Hnew. cbn [subscript]. rewrite run_bind, run_ret, run_bind.
  unfold ShardMovementManager__init__ at 1, modify at 1. cbv beta iota.
  set (w0 := with_manager _ w).
  destruct (source_data_deleted cname key w0 realm shard_metadata cluster db
              reader)
    as (w1 & w2 & Hrun1 & Hrun2 & Hdocs & Hsame & Hdel); try done.
  { by apply (get_realm_same _ _ w). }
  { by apply (get_shard_same _ _ _ w). }
  rewrite run_bind, Hrun1, run_bind, Hrun2.
  destruct Hsame as (Hrealms & Hshards & _ & _ & Hother).
  unfold api.set_shard_at_rest.
  rewrite run_bind, (get_realm_same _ _ w) by done.
  eexists. split; [reflexivity|]. subst source sel seen.
  match goal with
  | |- context [documents_in (with_shards ?f w2) _] =>
      change (documents_in (with_shards f w2)) with (documents_in w2)
  end.
  change (documents_in w0) with (documents_in w) in *.
  split; [done|]. split; [|split; [|split]].
  - rewrite Hdocs. apply no_match_left.
  - intros c Hc. by rewrite Hother.
  - unfold api.update_shard. cbn [shards with_shards snd modify].
    by rewrite Hshards.
  - change (manager (with_shards _ w2)) with (manager w2).
    rewrite Hdel. cbn [manager with_manager deleted w0]. lia.
Qed.

Lemma lift_run {L A} (m : M World A) w (l : L) r w' :
  m w = (r, w') → lift m (w, l) = (r, (w', l)).
Proof. unfold lift. cbn [fst snd]. by intros ->. Qed.

Lemma filter_scanned spec (m : gmap value doc) :
  filter (λ p : value * doc, p.1 ∉ (pymongo.scan spec m).*1) m
  = filter (λ p : value * doc,
              pymongo.matches spec (pymongo.document_of p) = false) m.
Proof.
  apply map_filter_ext. intros i body Hm. cbn. split.
  - intros Hnot.
    destruct (pymongo.matches spec (<["_id" := i]> body)) eqn:Hmatch; [|done].
    exfalso. apply Hnot. apply list_elem_of_fmap. exists (i, body).
    split; [done|]. unfold pymongo.scan. apply list_elem_of_filter.
    split; [done|]. by apply elem_of_map_to_list.
  - intros Hmatch ([j body'] & Hj & Hin)%list_elem_of_fmap.
    cbn in Hj. subst j.
    unfold pymongo.scan in Hin. apply list_elem_of_filter in Hin as [Hyes Hin].
    apply elem_of_map_to_list in Hin. rewrite Hm in Hin.
    injection Hin as <-. cbn in Hyes. congruence.
Qed.

Lemma pre_delete_batch_run target throttle batch w locals dst :
  Forall (λ record : doc, is_Some (record !! "_id")) batch →
  servers w !! coll_client target = Some dst →
  (∀ t, throttle = Some t → (0 <= t)%Z) →
  ∃ w' locals',
    pre_delete_batch target throttle batch (w, locals)
    = (Ok tt, (w', locals')) ∧
    documents_in w' target
    = filter (λ p, p.1 ∉ batch_ids batch) (documents_in w target) ∧
    same_but target w w' ∧
    manager w' = manager w.
Proof.
  intros Hids Hdst Hwait. unfold pre_delete_batch.
  rewrite run_bind, (lift_run _ _ _ _ _ (ids_of_run _ w Hids)).
  rewrite run_bind.
  assert (Hdelete : ∃ n w1,
    pymongo.delete_many target (batch_ids batch) w = (Ok n, w1) ∧
    documents_in w1 target
    = filter (λ p, p.1 ∉ batch_ids batch) (documents_in w target) ∧
    same_but target w w1 ∧ manager w1 = manager w).
  { unfold pymongo.delete_many.
    rewrite run_bind, record_call_run.
    rewrite run_bind, (server_of_run _ _ dst) by done.
    rewrite run_bind. unfold pymongo.store at 1, modify at 1. cbv beta iota.
    rewrite run_ret.
    assert (Hdocs : documents_in w target = pymongo.stored dst target)
      by (unfold documents_in; by rewrite Hdst).
    eexists _, _. split; [reflexivity|]. split; [|split].
    - rewrite documents_in_store by (cbn; by rewrite Hdst).
      by rewrite Hdocs.
    - eapply same_but_trans; [apply same_but_journal | apply same_but_store].
    - done. }
  destruct Hdelete as (n & w1 & Hrun1 & Hdocs1 & Hsame1 & Hmanager1).
  rewrite (lift_run _ _ _ _ _ Hrun1).
  rewrite run_bind. unfold modify at 1. cbv beta iota. cbn [fst snd].
  rewrite run_bind. unfold lift at 1, time_time, gets at 1.
  cbn [fst snd]. rewrite run_bind. unfold gets at 1. cbv beta iota.
  cbn [fst snd last_print].
  set (locals1 := {| total_deleted := _; last_print := _; last_total := _ |}).
  assert (Hlog : ∃ w2 locals2,
    (if bool_decide (now w1 - last_print locals >= 120000)%Z then
       lift (log "deleted docs");;
       modify (λ s : World * Progress,
                 (s.1, {| total_deleted := total_deleted s.2;
                          last_print := now w1;
                          last_total := total_deleted s.2 |}))
     else mret tt) (w1, locals1) = (Ok tt, (w2, locals2)) ∧
    documents_in w2 target = documents_in w1 target ∧
    same_but target w1 w2 ∧ manager w2 = manager w1 ∧
    servers w2 = servers w1).
  { case_bool_decide.
    - rewrite run_bind. unfold lift at 1, log. rewrite record_call_run.
      cbn [fst snd]. unfold modify. cbn [fst snd].
      eexists _, _. split; [reflexivity|].
      split; [apply documents_in_journal|].
      split; [apply same_but_journal | done].
    - eexists _, _. split; [reflexivity|].
      split; [done|]. split; [apply same_but_refl | done]. }
  destruct Hlog as (w2 & locals2 & Hrun2 & Hdocs2 & Hsame2 & Hmanager2 & Hsv2).
  rewrite run_bind, Hrun2.
  destruct (tum_ti_tum_run target throttle w2 Hwait)
    as (w3 & Hrun3 & Hservers3 & Hmanager3 & Hsame3).
  rewrite (lift_run _ _ _ _ _ Hrun3).
  exists w3, locals2. split; [done|]. split; [|split].
  - unfold documents_in at 1. rewrite Hservers3.
    fold (documents_in w2 target). by rewrite Hdocs2.
  - eapply same_but_trans; [exact Hsame1|].
    by eapply same_but_trans.
  - congruence.
Qed.

Lemma pre_delete_loop_run target throttle size cursor : ∀ batch w locals,
  Forall (λ record : doc, is_Some (record !! "_id")) (batch ++ cursor) →
  is_Some (servers w !! coll_client target) →
  (∀ t, throttle = Some t → (0 <= t)%Z) →
  ∃ w' locals',
    batched_loop (mret size) (pre_delete_batch target throttle) cursor batch
      (w, locals) = (Ok tt, (w', locals')) ∧
    documents_in w' target
    = filter (λ p, p.1 ∉ batch_ids (batch ++ cursor)) (documents_in w target) ∧
    same_but target w w' ∧
    manager w' = manager w.
Proof.
  induction cursor as [|record cursor IH];
    intros batch w locals Hids [dst Hdst] Hwait; cbn [batched_loop].
  - rewrite app_nil_r in *. case_bool_decide as Hlen.
    + by apply (pre_delete_batch_run target throttle batch w locals dst).
    + destruct batch; [|done]. exists w, locals. split; [done|].
      cbn [batch_ids omap list_omap]. rewrite filter_not_in_nil.
      split; [done|]. split; [apply same_but_refl | done].
  - cbv zeta. rewrite run_bind, run_ret.
    assert (Hids' : Forall (λ record : doc, is_Some (record !! "_id"))
                      ((batch ++ [record]) ++ cursor))
      by (by rewrite <- app_assoc).
    replace (batch ++ record :: cursor) with ((batch ++ [record]) ++ cursor)
      by (by rewrite <- app_assoc).
    case_bool_decide as Hfull.
    + rewrite run_bind.
      apply Forall_app in Hids' as [Hbatch Hcursor].
      destruct (pre_delete_batch_run target throttle (batch ++ [record]) w
                  locals dst Hbatch Hdst Hwait)
        as (w1 & locals1 & -> & Hdocs1 & Hsame1 & Hmanager1).
      destruct (IH [] w1 locals1 Hcursor)
        as (w' & locals' & -> & Hdocs & Hsame & Hmanager); [|done|].
      { destruct Hsame1 as (_&_&Hpresent&_). apply Hpresent. by eexists. }
      exists w', locals'. split; [done|]. cbn [app] in Hdocs.
      split; [|split].
      * rewrite Hdocs, Hdocs1, filter_not_in_app. by rewrite !ids_app.
      * by eapply same_but_trans.
      * congruence.
    + by apply (IH (batch ++ [record]) w locals Hids' ltac:(by eexists)).
Qed.

(** X19: [fix_failed_pre_delete] on a shard at rest raises and leaves the
    world as it was. *)
Theorem repair_pre_delete_needs_migrating_shard
    (cname : string) (key : value) (delete_batch_size : Z)
    (delete_throttle : option Z) (w : World) (realm : Realm)
    (shard_metadata : ShardMetadata) :
  metadata._get_realm_for_collection cname w = (Ok realm, w) →
  _get_metadata_for_shard (realm_name realm) key w = (Ok shard_metadata, w) →
  shard_status shard_metadata = AT_REST →
  fix_failed_pre_delete cname key delete_batch_size delete_throttle w
  = (Raise (Exception "Shard not in migrating phase"), w).
Proof.
  intros Hrealm Hshard Hstatus. unfold fix_failed_pre_delete.
  rewrite run_bind, Hrealm, run_bind, Hshard.
  rewrite bool_decide_eq_true_2; [done|].
  rewrite Hstatus. unfold metadata.MIGRATION_PHASES. intros Hin.
  repeat (apply elem_of_cons in Hin as [Hin|Hin]; [discriminate|]).
  by apply elem_of_nil in Hin.
Qed.

(** X20: [fix_failed_pre_delete] on a shard in a migration status, with a
    throttle that is not negative, ends well: the destination has lost the
    documents of the shard and nothing else, no other collection (the
    source among them) has changed, the shard is at rest at the location
    it had, and the manager is untouched. *)
Theorem repair_pre_delete_rolls_the_migration_back
    (cname : string) (key : value) (batch_size : Z) (throttle : option Z)
    (w : World) (realm : Realm) (shard_metadata : ShardMetadata)
    (new_loc cluster db : string) (dst : Server) :
  metadata._get_realm_for_collection cname w = (Ok realm, w) →
  _get_metadata_for_shard (realm_name realm) key w = (Ok shard_metadata, w) →
  shard_status shard_metadata ∈ metadata.MIGRATION_PHASES →
  shard_new_location shard_metadata = Some new_loc →
  connection.split_location new_loc = Some (cluster, db) →
  servers w !! Primary cluster = Some dst →
  (∀ t, throttle = Some t → (0 <= t)%Z) →
  let target :=
    {| coll_client := Primary cluster; coll_database := db;
       coll_name := cname |} in
  let shard_selector : doc := {[realm_shard_field realm := key]} in
  ∃ w',
    fix_failed_pre_delete cname key batch_size throttle w = (Ok tt, w') ∧
    documents_in w' target
    = filter (λ p, pymongo.matches shard_selector (pymongo.document_of p)
                   = false)
             (documents_in w target) ∧
    (∀ c, c ≠ target → documents_in w' c = documents_in w c) ∧
    shards w'
    = shards_at_rest (realm_name realm) key (shard_location shard_metadata)
        (shards w) ∧
    manager w' = manager w.
Proof.
  intros Hrealm Hshard Hstatus Hnew Hloc Hdst Hwait target sel.
  unfold fix_failed_pre_delete.
  rewrite run_bind, Hrealm, run_bind, Hshard.
  rewrite bool_decide_eq_false_2 by (by intros ?).
  rewrite Hnew. cbn [subscript]. rewrite run_bind, run_ret.
  rewrite run_bind, (location_run _ _ _ _ _ Hloc).
  fold target.
  rewrite run_bind, (find_ids_run target _ _ dst) by done.
  rewrite run_bind, (shard_field_id_index_run target _ _ dst) by done.
  cbv zeta. rewrite sorted_when_indexed.
  fold (delete_cursor dst target (realm_shard_field realm) key).
  rewrite run_bind. unfold time_time, gets at 1. cbv beta iota.
  rewrite run_bind.
  unfold try_finally, with_locals, batched_cursor_iterator.
  destruct (pre_delete_loop_run target throttle batch_size
              (delete_cursor dst target (realm_shard_field realm) key) [] w
              {| total_deleted := 0; last_print := now w; last_total := 0 |}
              (delete_cursor_has_ids _ _ _ _) ltac:(by eexists) Hwait)
    as (w1 & locals1 & -> & Hdocs & Hsame & Hmanager).
  cbn [fst snd]. rewrite record_call_run.
  unfold api.set_shard_at_rest.
  assert (Hrealms : realms w1 = realms w) by (by destruct Hsame).
  rewrite run_bind, (get_realm_same _ _ w) by done.
  eexists. split; [reflexivity|].
  assert (Hshards : shards w1 = shards w) by (by destruct Hsame as (_&?&_)).
  split; [|split; [|split]].
  - change (documents_in (with_shards _ (with_journal _ w1)) target)
      with (documents_in w1 target).
    rewrite Hdocs. cbn [app].
    replace (documents_in w target) with (pymongo.stored dst target)
      by (unfold documents_in; cbn [coll_client target]; by rewrite Hdst).
    rewrite <- filter_scanned. apply map_filter_ext. intros i body _. cbn.
    by rewrite (delete_cursor_ids dst target).
  - intros c Hc.
    change (documents_in (with_shards _ (with_journal _ w1)) c)
      with (documents_in w1 c).
    destruct Hsame as (_&_&_&_&Hother). by apply Hother.
  - unfold api.update_shard. cbn [shards with_shards with_journal snd modify].
    by rewrite Hshards.
  - done.
Qed.

Lemma shards_of_is_shard realm_name key shs :
  filter (λ sh, api.is_shard realm_name key sh = true) shs
  = shards_of realm_name key shs.
Proof.
  apply list_filter_iff. intros sh. unfold api.is_shard.
  by rewrite bool_decide_eq_true.
Qed.

Lemma shards_of_migrating realm_name key new_location status shs :
  shards_of realm_name key
    (migrating_shards realm_name key new_location status shs)
  = (λ sh, {| shard_realm := shard_realm sh;
              shard_shard_key := shard_shard_key sh;
              shard_status := status;
              shard_location := shard_location sh;
              shard_new_location := Some new_location |})
      <$> shards_of realm_name key shs.
Proof.
  unfold shards_of, migrating_shards.
  induction shs as [|sh shs IH]; [done|].
  rewrite fmap_cons, !filter_cons, IH. unfold api.is_shard.
  case_bool_decide as Hsh.
  - rewrite decide_True by done. by rewrite decide_True.
  - rewrite decide_False by done. by rewrite decide_False.
Qed.

Lemma documents_in_servers w w' c :
  servers w' = servers w → documents_in w' c = documents_in w c.
Proof. unfold documents_in. by intros ->. Qed.

Lemma filter_seen_own spec (m : gmap value doc) :
  filter (λ p : value * doc,
            (p.1 ∉ (pymongo.scan spec m).*1) ∧
            pymongo.matches spec (pymongo.document_of p) = false) m
  = filter (λ p : value * doc,
              pymongo.matches spec (pymongo.document_of p) = false) m.
Proof.
  apply map_filter_ext. intros i body Hm. cbn. split; [by intros [_ ?]|].
  intros Hmatch. split; [|done].
  intros ([j body'] & Hj & Hin)%list_elem_of_fmap. cbn in Hj. subst j.
  unfold pymongo.scan in Hin. apply list_elem_of_filter in Hin as [Hyes Hin].
  apply elem_of_map_to_list in Hin. rewrite Hm in Hin.
  injection Hin as <-. cbn in Hyes. congruence.
Qed.

Section QuietMigration.
Variables (cname : string) (key : value) (realm : Realm).
Variables (cluster db cluster' db' new_loc : string).
Variables (sh : ShardMetadata) (shs0 : list ShardMetadata).
Variables (w3 : World) (src : Server) (oldest : OplogEntry).

Let source : Collection :=
{| coll_client := Primary cluster; coll_database := db;
   coll_name := cname |}.
Let target : Collection :=
{| coll_client := Primary cluster'; coll_database := db';
   coll_name := cname |}.

Hypothesis Hrealm3 :
metadata._get_realm_for_collection cname w3 = (Ok realm, w3).
Hypothesis Hsh : shards_of (realm_name realm) key shs0 = [sh].
Hypothesis Hold :
connection.split_location (shard_location sh) = Some (cluster, db).
Hypothesis Hnew : connection.split_location new_loc = Some (cluster', db').
Hypothesis Hsrc : servers w3 !! Primary cluster = Some src.
Hypothesis Hns :
Forall (λ entry, ns entry ≠ namespace source) (oplog_rs src).
Hypothesis Holdest : head (oplog_rs src) = Some oldest.

Local Abbreviation stays := (syncing w3 (realm_name realm) key new_loc shs0).

Lemma syncing_realm status t w :
stays status t w →
metadata._get_realm_for_collection cname w = (Ok realm, w).
Proof using Hrealm3. intros (Hr&_). by apply (get_realm_same _ _ w3). Qed.

Lemma syncing_shard status t w :
stays status t w →
_get_metadata_for_shard (realm_name realm) key w
= (Ok {| shard_realm := shard_realm sh;
         shard_shard_key := shard_shard_key sh;
         shard_status := status;
         shard_location := shard_location sh;
         shard_new_location := Some new_loc |}, w).
Proof using Hsh.
intros (_&_&Hshards&_). apply get_shard_run.
by rewrite Hshards, shards_of_migrating, Hsh.
Qed.

Lemma syncing_journal status t w f :
stays status t w → stays status t (with_journal f w).
Proof using Type. intros (?&?&?&?&?&?&?&?&?). by repeat split. Qed.

Lemma sync_stays status t w oplog_pos :
(ts oldest <= oplog_pos)%Z →
stays status t w →
_sync_from_oplog cname key oplog_pos w
= (Ok oplog_pos, with_journal (λ j, j ++ [CursorClose]) w).
Proof using All.
intros Hpos Hw. pose proof Hw as (Hr&Hs&_).
rewrite (sync_from_oplog_resolved cname key oplog_pos w realm
           {| shard_realm := shard_realm sh;
              shard_shard_key := shard_shard_key sh;
              shard_status := status;
              shard_location := shard_location sh;
              shard_new_location := Some new_loc |}
           source new_loc target src).
- rewrite Holdest, bool_decide_eq_true_2 by lia.
  rewrite filter_none; [done|].
  intros entry Hin [_ Hentry].
  rewrite list.Forall_forall in Hns. by apply (Hns entry).
- by apply (syncing_realm status t).
- by apply (syncing_shard status t).
- by apply location_run.
- done.
- by apply location_run.
- by rewrite Hs.
Qed.

Lemma set_phase_stays status t w p :
stays status t w →
∃ w', set_phase p w = (Ok tt, w') ∧ stays status t w' ∧
      phase (manager w') = Some p.
Proof using Type.
intros (?&?&?&?&?&?&?&?&?). eexists. split; [reflexivity|].
by repeat split.
Qed.

Lemma set_status_stays status t w status' :
status' ∈ metadata.MIGRATION_PHASES →
stays status t w →
∃ w', api.set_shard_to_migration_status cname key status' w = (Ok tt, w') ∧
      stays status' t w'.
Proof using Hrealm3.
intros Hphase Hw. pose proof Hw as (?&?&Hshards&?&?&?&?&?&?).
unfold api.set_shard_to_migration_status.
rewrite run_bind, (syncing_realm status t) by done.
rewrite bool_decide_eq_true_2 by done.
eexists. split; [reflexivity|]. repeat split; try done.
cbn [shards with_shards]. rewrite Hshards. apply set_status_migrating.
Qed.

Lemma time_sleep_stays status t w milliseconds :
(0 <= milliseconds)%Z →
stays status t w →
∃ w', time_sleep milliseconds w = (Ok tt, w') ∧
      stays status (t + milliseconds) w'.
Proof using Type.
intros Hms (?&?&?&?&Hnow&?&?&?&?). unfold time_sleep.
rewrite bool_decide_eq_false_2 by lia.
eexists. split; [reflexivity|]. repeat split; try done.
cbn. by rewrite Hnow.
Qed.

Lemma sync_while_caching_stays status start self oplog_pos fuel :
thread_collection_name self = cname →
thread_shard_key self = key →
(ts oldest <= oplog_pos)%Z →
∀ t w,
  stays status t w →
  (start + caching_duration w3 - t <= 50 * Z.of_nat fuel)%Z →
  ∃ t' w',
    sync_while_caching fuel self start oplog_pos w = (Ok oplog_pos, w') ∧
    stays status t' w'.
Proof using All.
intros Hcname Hkey Hpos.
induction fuel as [|fuel IH]; intros t w Hw Hfuel;
  pose proof Hw as (_&_&_&Hcd&Hnow&_); cbn [sync_while_caching];
  rewrite run_bind; unfold time_time, gets at 1; cbv beta iota;
  rewrite run_bind; unfold api.get_caching_duration, gets at 1;
  cbv beta iota; rewrite Hnow, Hcd.
- rewrite bool_decide_eq_false_2 by lia. by exists t, w.
- case_bool_decide; [|by exists t, w].
  rewrite run_bind.
  destruct (time_sleep_stays status t w 50) as (w1 & -> & Hw1);
    [lia | done |].
  rewrite run_bind, Hcname, Hkey.
  rewrite (sync_stays status (t + 50) w1 oplog_pos) by done.
  apply (IH (t + 50)%Z (with_journal (λ j, j ++ [CursorClose]) w1));
    [by apply syncing_journal | lia].
Qed.
End QuietMigration.

Lemma get_oplog_pos_run cname key w realm shard_metadata cluster db s newest :
  metadata._get_realm_for_collection cname w = (Ok realm, w) →
  _get_metadata_for_shard (realm_name realm) key w = (Ok shard_metadata, w) →
  connection.split_location (shard_location shard_metadata)
    = Some (cluster, db) →
  servers w !! (match servers w !! HiddenSecondary cluster with
                | Some _ => HiddenSecondary cluster
                | None => Primary cluster
                end) = Some s →
  last (oplog_rs s) = Some newest →
  _get_oplog_pos cname key w = (Ok (ts newest), w).
Proof.
  intros Hrealm Hshard Hloc Hs Hnewest. unfold _get_oplog_pos.
  rewrite run_bind, Hrealm, run_bind, Hshard.
  rewrite run_bind, (reading_run _ _ cluster db) by done.
  rewrite run_bind, (server_of_run _ _ s) by done.
  by rewrite Hnewest.
Qed.

Lemma quiet_run
    (fuel : nat) (self : ShardMovementThread) (w : World) (realm : Realm)
    (sh : ShardMetadata) (cluster db cluster' db' : string)
    (src dst : Server) (newest oldest : OplogEntry) :
  let cname := thread_collection_name self in
  let key := thread_shard_key self in
  let source :=
    {| coll_client := Primary cluster; coll_database := db;
       coll_name := cname |} in
  let target :=
    {| coll_client := Primary cluster'; coll_database := db';
       coll_name := cname |} in
  let shard_selector : doc := {[realm_shard_field realm := key]} in
  metadata._get_realm_for_collection cname w = (Ok realm, w) →
  shards_of (realm_name realm) key (shards w) = [sh] →
  shard_status sh = AT_REST →
  connection.split_location (shard_location sh) = Some (cluster, db) →
  connection.split_location (thread_new_location self)
    = Some (cluster', db') →
  source ≠ target →
  servers w !! Primary cluster = Some src →
  servers w !! HiddenSecondary cluster = None →
  servers w !! Primary cluster' = Some dst →
  target_key_of (reported_shard_key dst target) = ["_id"] →
  Forall (λ entry, ns entry ≠ namespace source) (oplog_rs src) →
  head (oplog_rs src) = Some oldest →
  last (oplog_rs src) = Some newest →
  (ts oldest <= ts newest)%Z →
  (∀ t, insert_throttle (manager w) = Some t → (0 <= t)%Z) →
  (∀ t, delete_throttle (manager w) = Some t → (0 <= t)%Z) →
  (caching_duration w <= 50 * Z.of_nat fuel)%Z →
  ∃ w',
    run fuel self w = (Ok tt, w') ∧
    documents_in w' source
    = filter (λ p, pymongo.matches shard_selector (pymongo.document_of p)
                   = false)
             (documents_in w source) ∧
    (∀ i body,
       (i, body) ∈ pymongo.scan shard_selector (documents_in w source) →
       documents_in w' target !! i
       = Some (delete "_id" body ∪ default ∅ (documents_in w target !! i))) ∧
    (∀ i, i ∉ (pymongo.scan shard_selector (documents_in w source)).*1 →
          documents_in w' target !! i = documents_in w target !! i) ∧
    (∀ c, c ≠ source → c ≠ target → documents_in w' c = documents_in w c) ∧
    shards w' = shards_at_rest (realm_name realm) key
                  (thread_new_location self) (shards w) ∧
    inserted (manager w')
    = (inserted (manager w)
       + (Z.of_nat (size (documents_in w' target))
          - Z.of_nat (size (documents_in w target))))%Z ∧
    deleted (manager w')
    = (deleted (manager w)
       + (Z.of_nat (size (documents_in w source))
          - Z.of_nat (size (documents_in w' source))))%Z.
Proof.
  intros cname key source target sel Hrealm Hsh Hrest Hold Hnew Hdistinct
    Hsrc Hhidden Hdst Hkey Hns Holdest Hnewest Hcover Hiwait Hdwait Hfuel.
  set (new_loc := thread_new_location self) in *.
  assert (Hphases : ∃ w16,
    run_phases fuel self w = (Ok tt, w16) ∧
    documents_in w16 source
    = filter (λ p, pymongo.matches sel (pymongo.document_of p) = false)
             (documents_in w source) ∧
    documents_in w16 target
    = foldl upserted (documents_in w target)
        (copy_cursor src source (realm_shard_field realm) key) ∧
    (∀ c, c ≠ source → c ≠ target → documents_in w16 c = documents_in w c) ∧
    shards w16 = shards_at_rest (realm_name realm) key new_loc (shards w) ∧
    inserted (manager w16)
    = (inserted (manager w)
       + (Z.of_nat (size (documents_in w16 target))
          - Z.of_nat (size (documents_in w target))))%Z ∧
    deleted (manager w16)
    = (deleted (manager w)
       + (Z.of_nat (size (documents_in w source))
          - Z.of_nat (size (documents_in w16 source))))%Z).
  { unfold run_phases. fold cname key new_loc.
    (* the start of the migration *)
    rewrite run_bind. unfold set_phase at 1, modify at 1. cbv beta iota.
    set (w1 := with_manager _ w).
    rewrite run_bind.
    rewrite (api_start_migration_run cname key new_loc w1 realm sh);
      [|by apply (get_realm_same _ _ w)|by rewrite shards_of_is_shard|done].
    set (w2 := with_shards _ w1).
    set (copying :=
      {| shard_realm := shard_realm sh; shard_shard_key := shard_shard_key sh;
         shard_status := MIGRATING_COPY; shard_location := shard_location sh;
         shard_new_location := Some new_loc |}).
    assert (Hrealm2 : metadata._get_realm_for_collection cname w2
                      = (Ok realm, w2)) by (by apply (get_realm_same _ _ w)).
    assert (Hshard2 : _get_metadata_for_shard (realm_name realm) key w2
                      = (Ok copying, w2)).
    { apply get_shard_run. cbn [shards w2 with_shards w1 with_manager].
      by rewrite shards_of_migrating, Hsh. }
    assert (Hreader2 :
      servers w2 !! (match servers w2 !! HiddenSecondary cluster with
                     | Some _ => HiddenSecondary cluster
                     | None => Primary cluster
                     end) = Some src).
    { cbn [servers w2 with_shards w1 with_manager]. by rewrite Hhidden. }
    rewrite run_bind,
      (get_oplog_pos_run cname key w2 realm copying cluster db src newest)
      by done.
    (* the copy *)
    assert (Hreading2 :
      _get_source_collection_for_reading copying cname true w2
      = (Ok source, w2)).
    { rewrite (reading_run _ _ cluster db) by done.
      cbn [servers w2 with_shards w1 with_manager]. by rewrite Hhidden. }
    destruct (do_copy_run cname key w2 realm copying source target new_loc
                src dst Hrealm2 Hshard2 eq_refl Hreading2 eq_refl
                (location_run _ _ _ _ _ Hnew) Hsrc Hdst Hkey Hiwait)
      as (w3 & Hrun3 & Hdocs3 & Hins3 & Hsame3).
    rewrite run_bind, Hrun3.
    destruct (preserves_run _ _ _ _ _ (same_delete_side_do_copy cname key)
                Hrun3) as (Hthrottle3 & Hdeleted3).
    destruct (preserves_run _ _ _ _ _ (same_metadata_do_copy cname key)
                Hrun3) as (Hrealms3 & Hshards3 & Hcaching3 & Hthread3).
    pose proof Hsame3 as (_ & _ & Hpresent3 & Hoplog3 & Hother3).
    destruct (proj2 (Hpresent3 (Primary cluster)) (mk_is_Some _ _ Hsrc))
      as [src3 Hsrc3].
    assert (Hsource3 : pymongo.stored src3 source = documents_in w source).
    { transitivity (documents_in w3 source).
      - unfold documents_in. cbn [coll_client source]. by rewrite Hsrc3.
      - rewrite Hother3 by done. unfold documents_in.
        cbn [coll_client source servers w2 with_shards w1 with_manager].
        done. }
    assert (Hoplog : oplog_rs src3 = oplog_rs src)
      by (by apply (Hoplog3 (Primary cluster))).
    assert (Hrealm3 : metadata._get_realm_for_collection cname w3
                      = (Ok realm, w3))
      by (by apply (get_realm_same _ _ w2)).
    assert (Hns3 : Forall (λ entry, ns entry ≠ namespace source)
                     (oplog_rs src3)) by (by rewrite Hoplog).
    assert (Holdest3 : head (oplog_rs src3) = Some oldest)
      by (by rewrite Hoplog).
    assert (Hw3 : syncing w3 (realm_name realm) key new_loc (shards w)
                    MIGRATING_COPY (now w3) w3).
    { by repeat split. }
    (* the sync *)
    rewrite run_bind.
    destruct (set_phase_stays _ _ _ _ _ _ _ _ "sync" Hw3)
      as (w4 & -> & Hw4 & _).
    rewrite run_bind. unfold time_time at 1, gets at 1. cbv beta iota.
    pose proof Hw4 as (_&_&_&_&Hnow4&_). rewrite Hnow4.
    rewrite run_bind.
    destruct (set_status_stays cname _ _ _ _ _ Hrealm3 _ _ _ MIGRATING_SYNC
                ltac:(by repeat constructor) Hw4) as (w5 & -> & Hw5).
    rewrite run_bind.
    rewrite (sync_stays cname key realm cluster db cluster' db' new_loc sh
               (shards w) w3 src3 oldest Hrealm3 Hsh Hold Hnew Hsrc3 Hns3
               Holdest3 _ _ w5 (ts newest) Hcover Hw5).
    rewrite run_bind.
    destruct (sync_while_caching_stays cname key realm cluster db cluster' db'
                new_loc sh (shards w) w3 src3 oldest Hrealm3 Hsh Hold Hnew
                Hsrc3 Hns3 Holdest3 MIGRATING_SYNC (now w3) self (ts newest)
                fuel eq_refl eq_refl Hcover (now w3)
                (with_journal (λ j, j ++ [CursorClose]) w5)
                ltac:(by apply syncing_journal))
      as (t7 & w7 & -> & Hw7); [rewrite Hcaching3; cbn; lia|].
    rewrite run_bind.
    destruct (set_status_stays cname _ _ _ _ _ Hrealm3 _ _ _
                POST_MIGRATION_PAUSED_AT_DESTINATION
                ltac:(by repeat constructor) Hw7) as (w8 & -> & Hw8).
    rewrite run_bind.
    destruct (time_sleep_stays _ _ _ _ _ _ _ _ 100 ltac:(lia) Hw8)
      as (w9 & -> & Hw9).
    rewrite run_bind.
    rewrite (sync_stays cname key realm cluster db cluster' db' new_loc sh
               (shards w) w3 src3 oldest Hrealm3 Hsh Hold Hnew Hsrc3 Hns3
               Holdest3 _ _ w9 (ts newest) Hcover Hw9).
    rewrite run_bind.
    destruct (set_phase_stays _ _ _ _ _ _ _ _ "delete"
                (syncing_journal _ _ _ _ _ _ _ _
                   (λ j, j ++ [CursorClose]) Hw9))
      as (w11 & -> & Hw11 & _).
    rewrite run_bind.
    destruct (set_status_stays cname _ _ _ _ _ Hrealm3 _ _ _
                POST_MIGRATION_DELETE ltac:(by repeat constructor) Hw11)
      as (w12 & -> & Hw12).
    (* the delete *)
    pose proof Hw12 as (Hrealms12 & Hservers12 & Hshards12 & _ & _ & Hthread12
                        & Hinserted12 & Hdeleted12 & Hthrottle12).
    destruct (source_data_deleted cname key w12 realm
                {| shard_realm := shard_realm sh;
                   shard_shard_key := shard_shard_key sh;
                   shard_status := POST_MIGRATION_DELETE;
                   shard_location := shard_location sh;
                   shard_new_location := Some new_loc |}
                cluster db src3)
      as (w13 & w14 & Hrun13 & Hrun14 & Hdocs14 & Hsame14 & Hdeleted14).
    { exact (syncing_realm cname key realm new_loc (shards w) w3 Hrealm3
               _ _ _ Hw12). }
    { exact (syncing_shard key realm new_loc sh (shards w) w3 Hsh
               _ _ _ Hw12). }
    { done. }
    { done. }
    { rewrite Hservers12. by eexists. }
    { rewrite Hservers12.
      destruct (servers w3 !! HiddenSecondary cluster) as [hidden|] eqn:Hh;
        [|done].
      exfalso.
      destruct (proj1 (Hpresent3 (HiddenSecondary cluster))
                  (mk_is_Some _ _ Hh)) as [? Hh2].
      cbn [servers w2 with_shards w1 with_manager] in Hh2. congruence. }
    { intros t. rewrite Hthrottle12, Hthrottle3. apply Hdwait. }
    rewrite run_bind, Hrun13, run_bind, Hrun14.
    destruct (preserves_run _ _ _ _ _ (same_copy_side_delete cname key true)
                Hrun13) as (_ & Hinserted13).
    destruct (preserves_run _ _ _ _ _ (same_copy_side_delete cname key false)
                Hrun14) as (_ & Hinserted14).
    pose proof Hsame14 as (Hrealms14 & Hshards14 & _ & _ & Hother14).
    (* the completion *)
    rewrite run_bind. unfold api.set_shard_at_rest.
    rewrite run_bind,
      (get_realm_same cname realm w3 w14 ltac:(congruence) Hrealm3).
    unfold api.update_shard, set_phase, modify. cbv beta iota.
    eexists. split; [reflexivity|].
    match goal with
    | |- context [documents_in (with_manager ?f (with_shards ?g w14))] =>
        change (documents_in (with_manager f (with_shards g w14)))
          with (documents_in w14)
    end.
    assert (Hsource12 : documents_in w12 source = documents_in w source).
    { rewrite (documents_in_servers w3 w12) by done.
      unfold documents_in. cbn [coll_client source]. by rewrite Hsrc3. }
    assert (Htarget14 :
      documents_in w14 target
      = foldl upserted (documents_in w target)
          (copy_cursor src source (realm_shard_field realm) key)).
    { rewrite Hother14 by done.
      by rewrite (documents_in_servers w3 w12). }
    subst source target sel.
    split; [|split; [|split; [|split; [|split]]]].
    - rewrite Hdocs14, Hsource12, <- Hsource3. apply filter_seen_own.
    - done.
    - intros c Hsource Htarget. rewrite Hother14 by done.
      rewrite (documents_in_servers w3 w12) by done.
      by rewrite Hother3.
    - cbn [shards with_manager with_shards]. rewrite Hshards14, Hshards12.
      apply at_rest_migrating.
    - cbn [manager with_manager with_shards inserted].
      rewrite Hinserted14, Hinserted13, Hinserted12, Hins3, Htarget14, Hdocs3.
      done.
    - cbn [manager with_manager with_shards deleted].
      rewrite Hdeleted14, Hdeleted12, Hdeleted3, Hsource12. done. }
  destruct Hphases as (w16 & Hrun & Hsource & Htarget & Hother & Hshards
                       & Hinserted & Hdeleted).
  rewrite run_ends, Hrun. eexists. split; [reflexivity|].
  rewrite !documents_in_journal.
  split; [done|]. split; [|split; [|split; [done|split; [done|done]]]].
  - intros i body Hin. rewrite Htarget.
    apply copied_lookup.
    replace (pymongo.stored src source) with (documents_in w source); [done|].
    unfold documents_in. cbn [coll_client source]. by rewrite Hsrc.
  - intros i Hi. rewrite Htarget. apply copied_other.
    replace (pymongo.stored src source) with (documents_in w source); [done|].
    unfold documents_in. cbn [coll_client source]. by rewrite Hsrc.
Qed.

(** X21: a run on a shard at rest, with no hidden secondary, a
    destination that reports no shard key, throttles that are not negative
    and a source oplog without an entry of the collection, completes: the
    source has lost exactly the documents of the shard, each of them is at
    the destination under its [_id] (its fields set over what was there),
    nothing else has changed at the destination or in any other
    collection, the shard is at rest at the new location, and [inserted]
    and [deleted] have grown by the documents new at the destination and
    removed at the source.  [fuel] bounds the rounds of the wait for the
    caching duration, 50 ms of sleep each. *)
Theorem quiet_migration_moves_the_shard
    (fuel : nat) (self : ShardMovementThread) (w : World) (realm : Realm)
    (sh : ShardMetadata) (cluster db cluster' db' : string)
    (src dst : Server) (newest oldest : OplogEntry) :
  let cname := thread_collection_name self in
  let key := thread_shard_key self in
  let source :=
    {| coll_client := Primary cluster; coll_database := db;
       coll_name := cname |} in
  let target :=
    {| coll_client := Primary cluster'; coll_database := db';
       coll_name := cname |} in
  let shard_selector : doc := {[realm_shard_field realm := key]} in
  metadata._get_realm_for_collection cname w = (Ok realm, w) →
  shards_of (realm_name realm) key (shards w) = [sh] →
  shard_status sh = AT_REST →
  connection.split_location (shard_location sh) = Some (cluster, db) →
  connection.split_location (thread_new_location self)
    = Some (cluster', db') →
  source ≠ target →
  servers w !! Primary cluster = Some src →
  servers w !! HiddenSecondary cluster = None →
  servers w !! Primary cluster' = Some dst →
  target_key_of (reported_shard_key dst target) = ["_id"] →
  Forall (λ entry, ns entry ≠ namespace source) (oplog_rs src) →
  head (oplog_rs src) = Some oldest →
  last (oplog_rs src) = Some newest →
  (ts oldest <= ts newest)%Z →
  (∀ t, insert_throttle (manager w) = Some t → (0 <= t)%Z) →
  (∀ t, delete_throttle (manager w) = Some t → (0 <= t)%Z) →
  (caching_duration w <= 50 * Z.of_nat fuel)%Z →
  ∃ w',
    run fuel self w = (Ok tt, w') ∧
    documents_in w' source
    = filter (λ p, pymongo.matches shard_selector (pymongo.document_of p)
                   = false)
             (documents_in w source) ∧
    (∀ i body,
       (i, body) ∈ pymongo.scan shard_selector (documents_in w source) →
       documents_in w' target !! i
       = Some (delete "_id" body ∪ default ∅ (documents_in w target !! i))) ∧
    (∀ i, i ∉ (pymongo.scan shard_selector (documents_in w source)).*1 →
          documents_in w' target !! i = documents_in w target !! i) ∧
    (∀ c, c ≠ source → c ≠ target → documents_in w' c = documents_in w c) ∧
    shards w' = shards_at_rest (realm_name realm) key
                  (thread_new_location self) (shards w) ∧
    inserted (manager w')
    = (inserted (manager w)
       + (Z.of_nat (size (documents_in w' target))
          - Z.of_nat (size (documents_in w target))))%Z ∧
    deleted (manager w')
    = (deleted (manager w)
       + (Z.of_nat (size (documents_in w source))
          - Z.of_nat (size (documents_in w' source))))%Z.
Proof.
  intros cname key source target sel. apply quiet_run.
Qed.

(** X22: when no shard is in a migration status, [do_migration] returns
    the manager it made, whose collection, key, new location, throttles and
    batch sizes are those of the call, and leaves a worker thread with the
    arguments of the call; nothing is said of the manager's phase and
    counters at that moment, which the started worker writes.  The run of
    that worker on a source without writes moves the shard, and the
    counters at its end are the number of documents new at the destination
    and the number removed at the source. *)
Theorem do_migration_then_run_moves_the_shard
    (fuel : nat) (cname : string) (key : value) (new_loc : string)
    (delete_wait insert_wait : option Z) (delete_size insert_size : Z)
    (w : World) (realm : Realm) (sh : ShardMetadata)
    (cluster db cluster' db' : string) (src dst : Server)
    (newest oldest : OplogEntry) :
  let source :=
    {| coll_client := Primary cluster; coll_database := db;
       coll_name := cname |} in
  let target :=
    {| coll_client := Primary cluster'; coll_database := db';
       coll_name := cname |} in
  let shard_selector : doc := {[realm_shard_field realm := key]} in
  Forall (λ sh, shard_status sh ∉ metadata.MIGRATION_PHASES) (shards w) →
  metadata._get_realm_for_collection cname w = (Ok realm, w) →
  shards_of (realm_name realm) key (shards w) = [sh] →
  connection.split_location (shard_location sh) = Some (cluster, db) →
  connection.split_location new_loc = Some (cluster', db') →
  source ≠ target →
  servers w !! Primary cluster = Some src →
  servers w !! HiddenSecondary cluster = None →
  servers w !! Primary cluster' = Some dst →
  target_key_of (reported_shard_key dst target) = ["_id"] →
  Forall (λ entry, ns entry ≠ namespace source) (oplog_rs src) →
  head (oplog_rs src) = Some oldest →
  last (oplog_rs src) = Some newest →
  (ts oldest <= ts newest)%Z →
  (∀ t, insert_wait = Some t → (0 <= t)%Z) →
  (∀ t, delete_wait = Some t → (0 <= t)%Z) →
  (caching_duration w <= 50 * Z.of_nat fuel)%Z →
  ∃ m w1 w',
    do_migration cname key new_loc delete_wait insert_wait delete_size
      insert_size w = (Ok m, w1) ∧
    (collection_name m = cname ∧ shard_key m = key ∧
     new_location m = new_loc ∧ delete_throttle m = delete_wait ∧
     insert_throttle m = insert_wait ∧ delete_batch_size m = delete_size ∧
     insert_batch_size m = insert_size) ∧
    migration_thread w1
    = Some {| thread_collection_name := cname; thread_shard_key := key;
              thread_new_location := new_loc; thread_exception := None |} ∧
    run fuel {| thread_collection_name := cname; thread_shard_key := key;
                thread_new_location := new_loc; thread_exception := None |} w1
    = (Ok tt, w') ∧
    documents_in w' source
    = filter (λ p, pymongo.matches shard_selector (pymongo.document_of p)
                   = false)
             (documents_in w source) ∧
    (∀ i body,
       (i, body) ∈ pymongo.scan shard_selector (documents_in w source) →
       documents_in w' target !! i
       = Some (delete "_id" body ∪ default ∅ (documents_in w target !! i))) ∧
    (∀ i, i ∉ (pymongo.scan shard_selector (documents_in w source)).*1 →
          documents_in w' target !! i = documents_in w target !! i) ∧
    shards w' = shards_at_rest (realm_name realm) key new_loc (shards w) ∧
    inserted (manager w')
    = (Z.of_nat (size (documents_in w' target))
       - Z.of_nat (size (documents_in w target)))%Z ∧
    deleted (manager w')
    = (Z.of_nat (size (documents_in w source))
       - Z.of_nat (size (documents_in w' source)))%Z.
Proof.
  intros source target sel Hquiet Hrealm Hsh Hold Hnew Hdistinct Hsrc Hhidden
    Hdst Hkey Hns Holdest Hnewest Hcover Hiwait Hdwait Hfuel.
  assert (Hrest : shard_status sh = AT_REST).
  { assert (Hin : sh ∈ shards_of (realm_name realm) key (shards w))
      by (rewrite Hsh; constructor).
    apply list_elem_of_filter in Hin as [_ Hin].
    rewrite list.Forall_forall in Hquiet. specialize (Hquiet sh Hin).
    destruct (shard_status sh); [done|..]; exfalso; apply Hquiet;
      by repeat constructor. }
  unfold do_migration, _begin_migration.
  rewrite run_bind. unfold metadata.are_migrations_happening, gets at 1.
  cbv beta iota.
  rewrite bool_decide_eq_false_2
    by (by rewrite <- Forall_Exists_neg).
  rewrite run_bind.
  unfold ShardMovementManager__init__ at 1, modify at 1. cbv beta iota.
  rewrite run_bind. unfold start_migration.
  rewrite run_bind. unfold gets at 1. cbv beta iota.
  unfold modify at 1. cbv beta iota. unfold gets. cbv beta iota.
  cbn [manager with_manager with_migration_thread collection_name shard_key
       new_location].
  set (m := {| collection_name := cname |}).
  set (thread := {| thread_collection_name := cname |}).
  set (w1 := with_migration_thread _ (with_manager _ w)).
  destruct (quiet_run fuel thread w1 realm sh cluster db cluster' db' src dst
              newest oldest)
    as (w' & Hrun & Hsource & Hfound & Hothers & _ & Hshards & Hins & Hdel);
    try done.
  { by apply (get_realm_same _ _ w). }
  subst source target sel thread.
  cbn [thread_collection_name thread_shard_key thread_new_location] in *.
  change (documents_in w1) with (documents_in w) in *.
  change (shards w1) with (shards w) in *.
  exists m, w1, w'. split; [done|]. split; [by repeat split|].
  do 2 (split; [done|]).
  split; [done|]. split; [done|]. split; [done|]. split; [done|].
  split.
  - rewrite Hins. cbn [w1 manager with_migration_thread with_manager m
                       inserted]. lia.
  - rewrite Hdel. cbn [w1 manager with_migration_thread with_manager m
                       deleted]. lia.
Qed.

Lemma constant_size_batches_witness :
  (Z.of_nat (length [1; 2]%nat) <= 2)%Z ∧
  ((1 < length (batches (λ _, 2%Z) [1; 2; 3]%nat))%nat →
   Z.of_nat (length [1; 2]%nat) = 2%Z).
Proof.
  apply (constant_size_batches_are_full 2 [1; 2; 3]%nat ltac:(lia) 0%nat
           [1; 2]%nat).
  reflexivity.
Defined.

Lemma singleton_batches_witness :
  batches (λ _, 0%Z) [1; 2; 3]%nat = [[1]; [2]; [3]]%nat.
Proof.
  apply (batch_size_below_two_gives_singletons (λ _, 0%Z) [1; 2; 3]%nat).
  intros _. lia.
Defined.

Lemma insert_entry_replay_witness :
  (replay_oplog_entry stray_insert {["tenant_id" := VInt 7]} users_at_A
     users_at_B stray_insert_world).1 = Ok tt ∧
  documents_in
    (replay_oplog_entry stray_insert {["tenant_id" := VInt 7]} users_at_A
       users_at_B stray_insert_world).2 users_at_B
  = {[VInt 1 := {["tenant_id" := VInt 8]}]}.
Proof.
  rewrite (insert_entry_replays_payload_once stray_insert
             {["tenant_id" := VInt 7]} users_at_A users_at_B
             stray_insert_world (VInt 1)
             (server_with {[VInt 1 := {["tenant_id" := VInt 7]}]}
                [stray_insert; entry_of 6 "d" {["_id" := VInt 1]} None])
             (server_with ∅ [])
             eq_refl eq_refl eq_refl eq_refl).
  by vm_compute.
Defined.

Lemma delete_entry_replay_witness :
  (replay_oplog_entry delete_entry {["tenant_id" := VInt 7]} users_at_A
     users_at_B update_world).1 = Ok tt ∧
  documents_in
    (replay_oplog_entry delete_entry {["tenant_id" := VInt 7]} users_at_A
       users_at_B update_world).2 users_at_B
  = ∅.
Proof.
  rewrite (delete_entry_removes_shard_document delete_entry
             {["tenant_id" := VInt 7]} users_at_A users_at_B update_world
             (VInt 1)
             (server_with
                {[VInt 1 := {["tenant_id" := VInt 7; "v" := VStr "a"]}]} [])
             eq_refl eq_refl eq_refl).
  by vm_compute.
Defined.

Lemma other_entries_witness :
  replay_oplog_entry (entry_of 8 "n" ∅ None) {["tenant_id" := VInt 7]}
    users_at_A users_at_B update_world = (Ok tt, update_world) ∧
  replay_oplog_entry (entry_of 8 "i" ∅ None) {["tenant_id" := VInt 7]}
    users_at_A users_at_B update_world
  = (Raise (KeyError "_id"), update_world) ∧
  replay_oplog_entry (entry_of 8 "u" ∅ None) {["tenant_id" := VInt 7]}
    users_at_A users_at_B update_world
  = (Raise (KeyError "o2"), update_world) ∧
  replay_oplog_entry (entry_of 8 "u" ∅ (Some ∅)) {["tenant_id" := VInt 7]}
    users_at_A users_at_B update_world
  = (Raise (KeyError "_id"), update_world).
Proof.
  split; [|split; [|split]].
  - by apply (proj1 (other_entries_write_nothing (entry_of 8 "n" ∅ None)
                       {["tenant_id" := VInt 7]} users_at_A users_at_B
                       update_world)).
  - apply (proj1 (proj2 (other_entries_write_nothing (entry_of 8 "i" ∅ None)
                           {["tenant_id" := VInt 7]} users_at_A users_at_B
                           update_world))); [by left | done].
  - by apply (proj1 (proj2 (proj2
           (other_entries_write_nothing (entry_of 8 "u" ∅ None)
              {["tenant_id" := VInt 7]} users_at_A users_at_B
              update_world)))).
  - apply (proj2 (proj2 (proj2
           (other_entries_write_nothing (entry_of 8 "u" ∅ (Some ∅))
              {["tenant_id" := VInt 7]} users_at_A users_at_B
              update_world)))); [done | by exists ∅].
Defined.

Lemma sync_writes_only_destination_witness :
  let w' := (_sync_from_oplog "users" (VInt 7) 5 update_world).2 in
  realms w' = realms update_world ∧ shards w' = shards update_world ∧
  caching_duration w' = caching_duration update_world ∧
  now w' = now update_world ∧
  manager w' = manager update_world ∧
  migration_thread w' = migration_thread update_world ∧
  (∀ n, is_Some (servers w' !! n) ↔ is_Some (servers update_world !! n)) ∧
  (∀ n s s', servers update_world !! n = Some s → servers w' !! n = Some s' →
             oplog_rs s' = oplog_rs s) ∧
  (∀ c, c ≠ users_at_B →
        documents_in w' c = documents_in update_world c).
Proof.
  apply (sync_writes_only_destination_documents "users" (VInt 7) 5
           update_world users_realm
           {| shard_realm := "users"; shard_shard_key := VInt 7;
              shard_status := MIGRATING_SYNC; shard_location := "A/appdb";
              shard_new_location := Some "B/appdb" |}
           users_at_A users_at_B "B/appdb"
           (server_with
              {[VInt 1 := {["tenant_id" := VInt 7; "v" := VStr "c"]}]}
              [noise_entry; update_entry])
           eq_refl eq_refl eq_refl eq_refl eq_refl eq_refl).
Defined.

Lemma sync_position_witness :
  (_sync_from_oplog "users" (VInt 7) 5 update_world).1 = Ok 6%Z.
Proof.
  apply (sync_returns_last_tailed_position "users" (VInt 7) 5
           update_world users_realm
           {| shard_realm := "users"; shard_shard_key := VInt 7;
              shard_status := MIGRATING_SYNC; shard_location := "A/appdb";
              shard_new_location := Some "B/appdb" |}
           users_at_A users_at_B "B/appdb"
           (server_with
              {[VInt 1 := {["tenant_id" := VInt 7; "v" := VStr "c"]}]}
              [noise_entry; update_entry])
           noise_entry
           eq_refl eq_refl eq_refl eq_refl eq_refl ltac:(discriminate)
           eq_refl ltac:(by eexists) eq_refl ltac:(cbn; lia)).
  repeat constructor.
Defined.

Lemma empty_oplog_witness :
  _sync_from_oplog "users" (VInt 7) 5 silent_world
  = (Raise IndexError, silent_world).
Proof.
  apply (sync_on_an_empty_oplog_raises_IndexError "users" (VInt 7) 5
           silent_world users_realm
           {| shard_realm := "users"; shard_shard_key := VInt 7;
              shard_status := MIGRATING_SYNC; shard_location := "A/appdb";
              shard_new_location := Some "B/appdb" |}
           users_at_A users_at_B "B/appdb" (server_with ∅ [])
           eq_refl eq_refl eq_refl eq_refl eq_refl eq_refl eq_refl).
Defined.

Lemma oplog_pos_witness :
  _get_oplog_pos "users" (VInt 7) update_world = (Ok 6%Z, update_world).
Proof.
  apply (oplog_pos_is_read_where_the_copy_reads "users" (VInt 7) update_world
           users_realm
           {| shard_realm := "users"; shard_shard_key := VInt 7;
              shard_status := MIGRATING_SYNC; shard_location := "A/appdb";
              shard_new_location := Some "B/appdb" |}
           "A" "appdb" eq_refl eq_refl eq_refl).
Defined.

Lemma copy_leading_batches_witness :
  ∃ n,
    bulk_writes (journal (_do_copy "users" (VInt 7) copy_world).2)
    = take n
        ((λ batch, (users_at_B, batch_of_upsert_ops batch ["_id"], true))
           <$> batches (λ _, 2%Z)
                 (pymongo.document_of
                    <$> map_to_list (pymongo.stored
                          (server_with
                             {[VInt 1 := {["tenant_id" := VInt 7; "v" := VStr "a"]};
                               VInt 2 := {["tenant_id" := VInt 7; "v" := VStr "b"]};
                               VInt 3 := {["tenant_id" := VInt 7; "v" := VStr "c"]}]}
                             [noise_entry]) users_at_A))) ∧
    ((_do_copy "users" (VInt 7) copy_world).1 = Ok tt → n = 2%nat) ∧
    last (journal (_do_copy "users" (VInt 7) copy_world).2) = Some CursorClose.
Proof.
  apply (copy_issues_bulk_writes_of_leading_batches "users" (VInt 7)
           copy_world users_realm
           {| shard_realm := "users"; shard_shard_key := VInt 7;
              shard_status := MIGRATING_COPY; shard_location := "A/appdb";
              shard_new_location := Some "B/appdb" |}
           users_at_A users_at_B "B/appdb"
           (server_with
              {[VInt 1 := {["tenant_id" := VInt 7; "v" := VStr "a"]};
                VInt 2 := {["tenant_id" := VInt 7; "v" := VStr "b"]};
                VInt 3 := {["tenant_id" := VInt 7; "v" := VStr "c"]}]}
              [noise_entry])
           (server_with ∅ [])
           eq_refl eq_refl eq_refl eq_refl eq_refl eq_refl eq_refl eq_refl).
Defined.

Lemma delete_many_per_batch_witness :
  ∃ n,
    delete_calls
      (journal (_delete_source_data "users" (VInt 7) false delete_world).2)
    = take n [(users_at_A, [VInt 3; VInt 2]); (users_at_A, [VInt 1])] ∧
    ((_delete_source_data "users" (VInt 7) false delete_world).1 = Ok tt →
     n = 2%nat) ∧
    last (journal (_delete_source_data "users" (VInt 7) false delete_world).2)
    = Some CursorClose.
Proof.
  apply (delete_issues_one_delete_many_per_batch "users" (VInt 7) false
           delete_world users_realm shard_being_deleted users_at_A users_at_A
           delete_world_source
           eq_refl eq_refl eq_refl eq_refl eq_refl eq_refl).
Defined.

Lemma delete_removes_documents_witness :
  ∃ w',
    _delete_source_data "users" (VInt 7) false delete_world = (Ok tt, w') ∧
    documents_in w' users_at_A
    = filter (λ p, p.1 ∉ (pymongo.scan {["tenant_id" := VInt 7]}
                            (pymongo.stored delete_world_source
                               users_at_A)).*1)
             (documents_in delete_world users_at_A) ∧
    deleted (manager w')
    = (deleted (manager delete_world)
       + (Z.of_nat (size (documents_in delete_world users_at_A))
          - Z.of_nat (size (documents_in w' users_at_A))))%Z ∧
    (∀ c, c ≠ users_at_A →
          documents_in w' c = documents_in delete_world c) ∧
    (users_at_A = users_at_A →
     pymongo.scan {["tenant_id" := VInt 7]} (documents_in w' users_at_A)
     = []).
Proof.
  apply (delete_removes_the_documents_it_read "users" (VInt 7) false
           delete_world users_realm shard_being_deleted users_at_A users_at_A
           delete_world_source
           eq_refl eq_refl eq_refl eq_refl eq_refl eq_refl
           ltac:(by eexists) ltac:(discriminate)).
Defined.

Lemma copy_upserts_witness :
  ∃ w',
    _do_copy "users" (VInt 7) copy_world = (Ok tt, w') ∧
    (∀ i body,
       (i, body) ∈ pymongo.scan {["tenant_id" := VInt 7]}
                     (pymongo.stored copy_world_source users_at_A) →
       documents_in w' users_at_B !! i
       = Some (delete "_id" body
               ∪ default ∅ (documents_in copy_world users_at_B !! i))) ∧
    (∀ i,
       i ∉ (pymongo.scan {["tenant_id" := VInt 7]}
              (pymongo.stored copy_world_source users_at_A)).*1 →
       documents_in w' users_at_B !! i
       = documents_in copy_world users_at_B !! i) ∧
    inserted (manager w')
    = (inserted (manager copy_world)
       + (Z.of_nat (size (documents_in w' users_at_B))
          - Z.of_nat (size (documents_in copy_world users_at_B))))%Z ∧
    (∀ c, c ≠ users_at_B → documents_in w' c = documents_in copy_world c).
Proof.
  apply (copy_upserts_every_shard_document "users" (VInt 7) copy_world
           users_realm shard_being_copied users_at_A users_at_B "B/appdb"
           copy_world_source (server_with ∅ [])
           eq_refl eq_refl eq_refl eq_refl eq_refl eq_refl eq_refl eq_refl
           eq_refl ltac:(discriminate)).
Defined.

Lemma completed_run_witness :
  let w' := (run 3 worker moving_world).2 in
  ∃ realm sh,
    metadata._get_realm_for_collection "users" moving_world
      = (Ok realm, moving_world) ∧
    filter (λ sh, api.is_shard (realm_name realm) (VInt 7) sh = true)
      (shards moving_world) = [sh] ∧
    shard_status sh = AT_REST ∧
    shards w' = shards_at_rest (realm_name realm) (VInt 7) "B/appdb"
                  (shards moving_world) ∧
    realms w' = realms moving_world ∧
    phase (manager w') = Some "complete" ∧
    migration_thread w' = migration_thread moving_world ∧
    ∃ calls,
      journal w'
      = calls ++ [CloseThreadConnections; CloseHiddenSecondaryConnections].
Proof.
  apply (completed_run_leaves_shard_at_rest 3 worker moving_world).
  by vm_compute.
Defined.

Lemma failed_run_witness :
  let w' := (run 3 worker stalled_world).2 in
  (∃ status, status ∈ metadata.MIGRATION_PHASES ∧
     shards w' = migrating_shards "users" (VInt 7) "B/appdb" status
                   (shards stalled_world)) ∧
  thread_exception <$> migration_thread w'
  = (λ _, Some IndexError) <$> migration_thread stalled_world ∧
  (∃ calls,
     journal w'
     = calls ++ [CloseThreadConnections; CloseHiddenSecondaryConnections]) ∧
  ∀ cname key new_location delete_throttle insert_throttle
    delete_batch_size insert_batch_size,
    _begin_migration cname key new_location delete_throttle insert_throttle
      delete_batch_size insert_batch_size w'
    = (Raise (Exception
         "Cannot start migration when another migration is in progress"), w').
Proof.
  apply (failed_run_leaves_shard_migrating 3 worker stalled_world users_realm
           shard_at_rest_at_A IndexError eq_refl eq_refl eq_refl).
  by vm_compute.
Defined.

Lemma repair_during_delete_guard_witness :
  fix_failed_during_delete "users" (VInt 7) 500 (Some 50%Z) copy_world
  = (Raise (Exception "Shard not in POST_MIGRATION_DELETE phase."),
     copy_world).
Proof.
  apply (repair_during_delete_needs_delete_status "users" (VInt 7) 500
           (Some 50%Z) copy_world users_realm shard_being_copied
           eq_refl eq_refl).
  discriminate.
Defined.

Lemma repair_during_delete_witness :
  ∃ w',
    fix_failed_during_delete "users" (VInt 7) 500 (Some 50%Z) delete_world
    = (Ok tt, w') ∧
    documents_in w' users_at_A
    = filter (λ p, (p.1 ∉ (pymongo.scan {["tenant_id" := VInt 7]}
                             (default ∅ (collections delete_world_source
                                           !! ("appdb", "users")))).*1) ∧
                   pymongo.matches {["tenant_id" := VInt 7]}
                     (pymongo.document_of p) = false)
             (documents_in delete_world users_at_A) ∧
    pymongo.scan {["tenant_id" := VInt 7]} (documents_in w' users_at_A) = [] ∧
    (∀ c, c ≠ users_at_A → documents_in w' c = documents_in delete_world c) ∧
    shards w' = shards_at_rest "users" (VInt 7) "B/appdb" (shards delete_world) ∧
    deleted (manager w')
    = (Z.of_nat (size (documents_in delete_world users_at_A))
       - Z.of_nat (size (documents_in w' users_at_A)))%Z.
Proof.
  apply (repair_during_delete_finishes_the_migration "users" (VInt 7) 500
           (Some 50%Z) delete_world users_realm shard_being_deleted
           "A" "appdb" "B/appdb" delete_world_source
           eq_refl eq_refl eq_refl eq_refl eq_refl ltac:(by eexists) eq_refl).
  intros t [= <-]. lia.
Defined.

Lemma repair_pre_delete_guard_witness :
  fix_failed_pre_delete "users" (VInt 7) 500 (Some 50%Z) moving_world
  = (Raise (Exception "Shard not in migrating phase"), moving_world).
Proof.
  apply (repair_pre_delete_needs_migrating_shard "users" (VInt 7) 500
           (Some 50%Z) moving_world users_realm shard_at_rest_at_A
           eq_refl eq_refl eq_refl).
Defined.

Lemma repair_pre_delete_witness :
  ∃ w',
    fix_failed_pre_delete "users" (VInt 7) 500 (Some 50%Z) update_world
    = (Ok tt, w') ∧
    documents_in w' users_at_B
    = filter (λ p, pymongo.matches {["tenant_id" := VInt 7]}
                     (pymongo.document_of p) = false)
             (documents_in update_world users_at_B) ∧
    (∀ c, c ≠ users_at_B → documents_in w' c = documents_in update_world c) ∧
    shards w' = shards_at_rest "users" (VInt 7) "A/appdb" (shards update_world) ∧
    manager w' = manager update_world.
Proof.
  apply (repair_pre_delete_rolls_the_migration_back "users" (VInt 7) 500
           (Some 50%Z) update_world users_realm shard_being_synced
           "B/appdb" "B" "appdb"
           (server_with
              {[VInt 1 := {["tenant_id" := VInt 7; "v" := VStr "a"]}]} [])
           eq_refl eq_refl ltac:(by repeat constructor) eq_refl eq_refl eq_refl).
  intros t [= <-]. lia.
Defined.

Lemma quiet_migration_witness :
  ∃ w',
    run 3 worker moving_world = (Ok tt, w') ∧
    documents_in w' users_at_A
    = filter (λ p, pymongo.matches {["tenant_id" := VInt 7]}
                     (pymongo.document_of p) = false)
             (documents_in moving_world users_at_A) ∧
    (∀ i body,
       (i, body) ∈ pymongo.scan {["tenant_id" := VInt 7]}
                     (documents_in moving_world users_at_A) →
       documents_in w' users_at_B !! i
       = Some (delete "_id" body
               ∪ default ∅ (documents_in moving_world users_at_B !! i))) ∧
    (∀ i, i ∉ (pymongo.scan {["tenant_id" := VInt 7]}
                 (documents_in moving_world users_at_A)).*1 →
          documents_in w' users_at_B !! i
          = documents_in moving_world users_at_B !! i) ∧
    (∀ c, c ≠ users_at_A → c ≠ users_at_B →
          documents_in w' c = documents_in moving_world c) ∧
    shards w' = shards_at_rest "users" (VInt 7) "B/appdb"
                  (shards moving_world) ∧
    inserted (manager w')
    = (inserted (manager moving_world)
       + (Z.of_nat (size (documents_in w' users_at_B))
          - Z.of_nat (size (documents_in moving_world users_at_B))))%Z ∧
    deleted (manager w')
    = (deleted (manager moving_world)
       + (Z.of_nat (size (documents_in moving_world users_at_A))
          - Z.of_nat (size (documents_in w' users_at_A))))%Z.
Proof.
  apply (quiet_migration_moves_the_shard 3 worker moving_world users_realm
           shard_at_rest_at_A "A" "appdb" "B" "appdb"
           (server_with
              {[VInt 1 := {["tenant_id" := VInt 7; "v" := VStr "a"]};
                VInt 2 := {["tenant_id" := VInt 7; "v" := VStr "b"]};
                VInt 3 := {["tenant_id" := VInt 7; "v" := VStr "c"]};
                VInt 4 := {["tenant_id" := VInt 8; "v" := VStr "d"]}]}
              [noise_entry])
           (server_with ∅ []) noise_entry noise_entry);
    try reflexivity; try discriminate.
  repeat constructor. discriminate.
Defined.

Lemma do_migration_witness :
  ∃ m w1 w',
    do_migration "users" (VInt 7) "B/appdb" None (Some 10%Z) 2 2 moving_world
    = (Ok m, w1) ∧
    (collection_name m = "users" ∧ shard_key m = VInt 7 ∧
     new_location m = "B/appdb" ∧ delete_throttle m = None ∧
     insert_throttle m = Some 10%Z ∧ delete_batch_size m = 2%Z ∧
     insert_batch_size m = 2%Z) ∧
    migration_thread w1 = Some worker ∧
    run 3 worker w1 = (Ok tt, w') ∧
    documents_in w' users_at_A
    = filter (λ p, pymongo.matches {["tenant_id" := VInt 7]}
                     (pymongo.document_of p) = false)
             (documents_in moving_world users_at_A) ∧
    (∀ i body,
       (i, body) ∈ pymongo.scan {["tenant_id" := VInt 7]}
                     (documents_in moving_world users_at_A) →
       documents_in w' users_at_B !! i
       = Some (delete "_id" body
               ∪ default ∅ (documents_in moving_world users_at_B !! i))) ∧
    (∀ i, i ∉ (pymongo.scan {["tenant_id" := VInt 7]}
                 (documents_in moving_world users_at_A)).*1 →
          documents_in w' users_at_B !! i
          = documents_in moving_world users_at_B !! i) ∧
    shards w' = shards_at_rest "users" (VInt 7) "B/appdb"
                  (shards moving_world) ∧
    inserted (manager w')
    = (Z.of_nat (size (documents_in w' users_at_B))
       - Z.of_nat (size (documents_in moving_world users_at_B)))%Z ∧
    deleted (manager w')
    = (Z.of_nat (size (documents_in moving_world users_at_A))
       - Z.of_nat (size (documents_in w' users_at_A)))%Z.
Proof.
  apply (do_migration_then_run_moves_the_shard 3 "users" (VInt 7) "B/appdb"
           None (Some 10%Z) 2 2 moving_world users_realm shard_at_rest_at_A
           "A" "appdb" "B" "appdb"
           (server_with
              {[VInt 1 := {["tenant_id" := VInt 7; "v" := VStr "a"]};
                VInt 2 := {["tenant_id" := VInt 7; "v" := VStr "b"]};
                VInt 3 := {["tenant_id" := VInt 7; "v" := VStr "c"]};
                VInt 4 := {["tenant_id" := VInt 8; "v" := VStr "d"]}]}
              [noise_entry])
           (server_with ∅ []) noise_entry noise_entry);
    try reflexivity; try discriminate.
  - constructor; [|constructor]. intros Hin.
    repeat (apply elem_of_cons in Hin as [Hin|Hin]; [discriminate|]).
    by apply elem_of_nil in Hin.
  - repeat constructor. discriminate.
  - intros t [= <-]. lia.
Defined.
